(** * Xiaomi Gateway 3: the event pipeline and device discovery of
    [custom_components/xiaomi_gateway3/gateway3.py]

    A shallow embedding of class [Gateway3]: the dynamically typed values
    the gateway exchanges with the hub (JSON documents, Python dictionaries),
    the Python operations the code applies to them together with the
    exceptions they raise, the gateway object as explicit state, and the
    methods [on_message], [process_message], [setup_devices],
    [process_bluetooth], [send], [_get_devices_v1], [_get_devices_v2] and
    [_get_devices_v3] as functions over that state.

    Python [float] is IEEE 754 binary64; it is embedded as Rocq's primitive
    [float], so [v / 100.0] and [round] compute bit for bit what CPython
    computes.  Byte strings and texts are both kept as strings of bytes, a
    text as its UTF-8 encoding. *)

From Stdlib Require Import ZArith Lia List Bool Ascii.
From Stdlib Require PrimFloat SpecFloat FloatOps.
From stdpp Require Import base option list gmap strings pretty.

Local Open Scope string_scope.
Local Set Warnings "-register-all".

(** ** Python values *)

(** What [json.loads] returns, which is also all the gateway stores: [None],
    booleans, integers, floats, strings, lists, and dictionaries with string
    keys.  A dictionary keeps its items in insertion order. *)
Inductive value : Type :=
| VNone
| VBool (b : bool)
| VInt (z : Z)
| VFloat (f : PrimFloat.float)
| VStr (s : string)
| VList (l : list value)
| VDict (d : list (string * value)).

Abbreviation dict := (list (string * value)).

(** The exceptions the embedded code can raise.  [Unmodelled] is not a Python
    exception: it marks the two places where Python would carry on with a
    value this embedding has no representation for (a dictionary key that is
    not a string, and [str()] of a float, list or dictionary). *)
Inductive exn : Type :=
| AssertionError
| AttributeError
| IndexError
| KeyError
| OverflowError
| StopIteration
| TypeError
| ValueError
| Unmodelled.

(** ** Expressions: results with exceptions *)

Inductive result (A : Type) : Type :=
| Ok (a : A)
| Err (e : exn).
Arguments Ok {A} a.
Arguments Err {A} e.

#[global] Instance result_ret : MRet result := @Ok.
#[global] Instance result_bind : MBind result := fun A B f r =>
  match r with
  | Ok a => f a
  | Err e => Err e
  end.

Definition of_option {A} (e : exn) (o : option A) : result A :=
  match o with
  | Some a => Ok a
  | None => Err e
  end.

(** ** Dictionaries *)

Fixpoint dict_get (k : string) (d : dict) : option value :=
  match d with
  | [] => None
  | (k', v) :: d' => if String.eqb k' k then Some v else dict_get k d'
  end.

(** [d[k] = v]: an existing key keeps its position, a new one goes last. *)
Fixpoint dict_set (k : string) (v : value) (d : dict) : dict :=
  match d with
  | [] => [(k, v)]
  | (k', v') :: d' =>
      if String.eqb k' k then (k, v) :: d' else (k', v') :: dict_set k v d'
  end.

Definition dict_has (k : string) (d : dict) : bool :=
  match dict_get k d with
  | Some _ => true
  | None => false
  end.

Definition dict_keys (d : dict) : list string := map fst d.

(** [d.update(other)] *)
Definition dict_update (d other : dict) : dict :=
  fold_left (fun acc kv => dict_set (fst kv) (snd kv) acc) other d.

(** ** Python operations on values *)

(** [v[k]] for a string [k] *)
Definition py_getitem (v : value) (k : string) : result value :=
  match v with
  | VDict d => of_option KeyError (dict_get k d)
  | _ => Err TypeError
  end.

Fixpoint str_chars (s : string) : list value :=
  match s with
  | EmptyString => []
  | String c s' => VStr (String c EmptyString) :: str_chars s'
  end.

(** [v[i]] for a non-negative integer [i] *)
Definition py_index (v : value) (i : nat) : result value :=
  match v with
  | VList l => of_option IndexError (nth_error l i)
  | VStr s => of_option IndexError (nth_error (str_chars s) i)
  | VDict _ => Err KeyError
  | _ => Err TypeError
  end.

(** [len(v)] *)
Definition py_len (v : value) : result nat :=
  match v with
  | VList l => Ok (length l)
  | VDict d => Ok (length d)
  | VStr s => Ok (String.length s)
  | _ => Err TypeError
  end.

(** [for x in v]: the items the loop visits *)
Definition py_iter (v : value) : result (list value) :=
  match v with
  | VList l => Ok l
  | VDict d => Ok (map (fun kv => VStr (fst kv)) d)
  | VStr s => Ok (str_chars s)
  | _ => Err TypeError
  end.

(** [v == s] for a string [s] *)
Definition py_eq_str (v : value) (s : string) : bool :=
  match v with
  | VStr s' => String.eqb s' s
  | _ => false
  end.

(** [v in (s1, s2)] for a pair of strings *)
Definition py_in_pair (v : value) (s1 s2 : string) : bool :=
  py_eq_str v s1 || py_eq_str v s2.

(** ** Floats *)

Definition Z2SF (z : Z) : SpecFloat.spec_float :=
  SpecFloat.binary_normalize 53 1024 z 0 false.

(** [float(z)]: nearest double, ties to even; too large is an error. *)
Definition float_of_Z (z : Z) : result PrimFloat.float :=
  match Z2SF z with
  | SpecFloat.S754_infinity _ => Err OverflowError
  | sf => Ok (FloatOps.SF2Prim sf)
  end.

(** An integer small enough to be a double exactly. *)
Definition small_float (z : Z) : PrimFloat.float := FloatOps.SF2Prim (Z2SF z).

(** Nearest integer to [m * 2^e], ties to even, for [m >= 0]. *)
Definition round_half_even_pow2 (m e : Z) : Z :=
  if (0 <=? e)%Z then (m * 2 ^ e)%Z
  else
    let d := (2 ^ (- e))%Z in
    let q := (m / d)%Z in
    let r := (m mod d)%Z in
    match (2 * r ?= d)%Z with
    | Lt => q
    | Gt => (q + 1)%Z
    | Eq => if Z.even q then q else (q + 1)%Z
    end.

(** [round(f)] with one argument: an [int] *)
Definition py_round (f : PrimFloat.float) : result Z :=
  match FloatOps.Prim2SF f with
  | SpecFloat.S754_zero _ => Ok 0%Z
  | SpecFloat.S754_infinity _ => Err OverflowError
  | SpecFloat.S754_nan => Err ValueError
  | SpecFloat.S754_finite s m e =>
      let n := round_half_even_pow2 (Z.pos m) e in
      Ok (if s then (- n)%Z else n)
  end.

Definition bool_to_Z (b : bool) : Z := if b then 1%Z else 0%Z.

(** [v / 100.0] *)
Definition py_div_100 (v : value) : result value :=
  match v with
  | VInt z => f ← float_of_Z z; Ok (VFloat (PrimFloat.div f (small_float 100)))
  | VFloat f => Ok (VFloat (PrimFloat.div f (small_float 100)))
  | VBool b =>
      Ok (VFloat (PrimFloat.div (small_float (bool_to_Z b)) (small_float 100)))
  | _ => Err TypeError
  end.

(** [v > 1000] *)
Definition py_gt_1000 (v : value) : result bool :=
  match v with
  | VInt z => Ok (1000 <? z)%Z
  | VFloat f => Ok (PrimFloat.ltb (small_float 1000) f)
  | VBool b => Ok (1000 <? bool_to_Z b)%Z
  | _ => Err TypeError
  end.

(** [min(v, 3200)]: the second argument wins only when it is smaller. *)
Definition py_min_3200 (v : value) : result value :=
  match v with
  | VInt z => Ok (VInt (Z.min z 3200))
  | VFloat f =>
      Ok (if PrimFloat.ltb (small_float 3200) f then VInt 3200 else VFloat f)
  | VBool b => Ok (VBool b)
  | _ => Err TypeError
  end.

(** [v - 2500] *)
Definition py_sub_2500 (v : value) : result value :=
  match v with
  | VInt z => Ok (VInt (z - 2500))
  | VFloat f => Ok (VFloat (PrimFloat.sub f (small_float 2500)))
  | VBool b => Ok (VInt (bool_to_Z b - 2500))
  | _ => Err TypeError
  end.

(** [v / 7].  For two integers CPython divides the two doubles when both
    operands are below [2^53] in magnitude; under the guard [v > 1000] the
    numerator [min(v, 3200) - 2500] lies between [-1499] and [700]. *)
Definition py_div_7 (v : value) : result PrimFloat.float :=
  match v with
  | VInt z => Ok (PrimFloat.div (small_float z) (small_float 7))
  | VFloat f => Ok (PrimFloat.div f (small_float 7))
  | VBool b => Ok (PrimFloat.div (small_float (bool_to_Z b)) (small_float 7))
  | _ => Err TypeError
  end.

(** [round((min(v, 3200) - 2500) / 7)] *)
Definition battery_percent (v : value) : result value :=
  m ← py_min_3200 v;
  d ← py_sub_2500 m;
  q ← py_div_7 d;
  n ← py_round q;
  Ok (VInt n).

(** [bool(v)] *)
Definition py_truthy (v : value) : bool :=
  match v with
  | VNone => false
  | VBool b => b
  | VInt z => negb (z =? 0)%Z
  | VFloat f => negb (PrimFloat.eqb f (small_float 0))
  | VStr s => negb (String.eqb s "")
  | VList l => match l with [] => false | _ => true end
  | VDict d => match d with [] => false | _ => true end
  end.

(** [v != 0] *)
Definition py_ne_0 (v : value) : bool :=
  match v with
  | VInt z => negb (z =? 0)%Z
  | VBool b => b
  | VFloat f => negb (PrimFloat.eqb f (small_float 0))
  | _ => true
  end.

(** [str(v)], as an f-string formats a field *)
Definition py_str (v : value) : result string :=
  match v with
  | VStr s => Ok s
  | VInt z => Ok (pretty z)
  | VBool b => Ok (if b then "True" else "False")
  | VNone => Ok "None"
  | _ => Err Unmodelled
  end.

(** ["0x" + v] *)
Definition py_concat_0x (v : value) : result string :=
  match v with
  | VStr s => Ok ("0x" ++ s)
  | _ => Err TypeError
  end.

(** A value used as a dictionary key: lists and dictionaries are not
    hashable; the dictionaries of this embedding are keyed by strings. *)
Definition as_key (v : value) : result string :=
  match v with
  | VStr s => Ok s
  | VList _ | VDict _ => Err TypeError
  | _ => Err Unmodelled
  end.

(** [k in m] and [m.get(k)] for a dictionary [m] whose keys are all strings:
    a hashable key that is not a string is simply not there. *)
Definition lookup_key {A} (m : gmap string A) (k : value) : result (option A) :=
  match k with
  | VStr s => Ok (m !! s)
  | VList _ | VDict _ => Err TypeError
  | _ => Ok None
  end.

(** [s[n:]] for a byte string [s] *)
Fixpoint str_drop (n : nat) (s : string) : string :=
  match n, s with
  | O, _ => s
  | S n', String _ s' => str_drop n' s'
  | S _, EmptyString => EmptyString
  end.

(** [s[:n]] for a byte string [s] *)
Fixpoint str_take (n : nat) (s : string) : string :=
  match n, s with
  | O, _ => EmptyString
  | S n', String c s' => String c (str_take n' s')
  | S _, EmptyString => EmptyString
  end.

(** A text ([str]) is kept as its UTF-8 bytes, in which a character outside
    ASCII takes several bytes.  What Python does character by character is
    modelled where every character concerned is one byte, and is
    [Unmodelled] elsewhere. *)
Fixpoint is_ascii (s : string) : bool :=
  match s with
  | EmptyString => true
  | String c s' => (Ascii.nat_of_ascii c <? 128)%nat && is_ascii s'
  end.

(** [s[n:]] for a text [s]: the first [n] characters are the first [n]
    bytes when these are ASCII. *)
Definition text_drop (n : nat) (s : string) : result string :=
  if is_ascii (str_take n s) then Ok (str_drop n s) else Err Unmodelled.

(** [s[:-2]] *)
Definition str_drop_last2 (s : string) : string :=
  String.substring 0 (String.length s - 2) s.

(** [sub in s] *)
Definition str_contains (sub s : string) : bool :=
  match String.index 0 sub s with
  | Some _ => true
  | None => false
  end.

Fixpoint str_remove (c : Ascii.ascii) (s : string) : string :=
  match s with
  | EmptyString => EmptyString
  | String c' s' =>
      if Ascii.eqb c' c then str_remove c s' else String c' (str_remove c s')
  end.

Definition ascii_lower (c : Ascii.ascii) : Ascii.ascii :=
  let n := Ascii.nat_of_ascii c in
  if (65 <=? n)%nat && (n <=? 90)%nat then Ascii.ascii_of_nat (n + 32) else c.

Fixpoint str_lower (s : string) : string :=
  match s with
  | EmptyString => EmptyString
  | String c s' => String (ascii_lower c) (str_lower s')
  end.

(** [for x in l: acc = f(acc, x)], stopping at the first exception *)
Fixpoint fold_result {A B} (f : B -> A -> result B) (l : list A) (acc : B)
  : result B :=
  match l with
  | [] => Ok acc
  | x :: l' => acc' ← f acc x; fold_result f l' acc'
  end.

Fixpoint map_result {A B} (f : A -> result B) (l : list A) : result (list B) :=
  match l with
  | [] => Ok []
  | x :: l' => y ← f x; ys ← map_result f l'; Ok (y :: ys)
  end.

(** ** The catalog, the device records and the gateway object *)

(** Modelled from the spec: the catalog [utils.DEVICES] is not part of this
    module; a row of a descriptor's ['params'] is the spec's tuple
    (wireName, hubPropertyKey?, canonicalName, domainHint?), which the code
    reads as [p[0]], [p[1]], [p[2]] and [p[3]]. *)
Record param_row : Type := ParamRow {
  wire : string;
  hub_key : option string;
  name : string;
  domain : option string
}.

(** Modelled from the spec: what [utils.get_device(model)] returns for a
    known model, the ['params'] rows and the other items of the descriptor. *)
Record descriptor : Type := Descriptor {
  desc_params : list param_row;
  desc_items : dict
}.

(** A device dictionary: the item under ['params'] holds catalog rows and is
    kept apart from the other items (['did'], ['mac'], ['model'], ['zb_ver'],
    ['init'], ...).  The entries of [config['devices']] live in the same
    dictionary [self.devices] and have the same shape. *)
Record device : Type := Device {
  dev_items : dict;
  dev_params : option (list param_row)
}.

(** [device[k]] for a key other than ['params'] *)
Definition dev_get (d : device) (k : string) : result value :=
  of_option KeyError (dict_get k (dev_items d)).

(** [device['params']] *)
Definition dev_rows (d : device) : result (list param_row) :=
  of_option KeyError (dev_params d).

(** [device.update(desc)] *)
Definition dev_update_desc (d : device) (desc : descriptor) : device :=
  {| dev_items := dict_update (dev_items d) (desc_items desc);
     dev_params := Some (desc_params desc) |}.

(** [device.update(other)] *)
Definition dev_update (d other : device) : device :=
  {| dev_items := dict_update (dev_items d) (dev_items other);
     dev_params := match dev_params other with
                   | Some rows => Some rows
                   | None => dev_params d
                   end |}.

Definition dev_truthy (d : device) : bool :=
  match dev_items d, dev_params d with
  | [], None => false
  | _, _ => true
  end.

(** The callbacks of the host ([add_update], [add_setup]) are opaque: a
    callback is a name, and calling it is recorded, with its arguments, in
    the order of the calls.  So is a message handed to the MQTT client. *)
Definition handler : Type := nat.

Inductive event : Type :=
| Update (h : handler) (payload : dict)
| Setup (h : handler) (d : device) (attr : value)
| Publish (topic : string) (payload : dict).

(** The fields of [Gateway3] that the modelled methods read or write. *)
Record gateway : Type := Gateway {
  devices : gmap string device;
  updates : gmap string (list handler);
  setups : gmap string handler;
  calls : list event
}.

(** ** Statements: state, exceptions and waiting *)

(** How a method call ends: it returns, it raises, or it waits in
    [while domain not in self.setups: time.sleep(1)] for a registration that
    only another thread can make.  The gateway is the one left behind. *)
Inductive outcome (A : Type) : Type :=
| Done (a : A) (g : gateway)
| Raise (e : exn) (g : gateway)
| Blocked (g : gateway).
Arguments Done {A} a g.
Arguments Raise {A} e g.
Arguments Blocked {A} g.

Definition M (A : Type) : Type := gateway -> outcome A.

#[global] Instance M_ret : MRet M := fun A a g => Done a g.
#[global] Instance M_bind : MBind M := fun A B f m g =>
  match m g with
  | Done a g' => f a g'
  | Raise e g' => Raise e g'
  | Blocked g' => Blocked g'
  end.

Definition lift {A} (r : result A) : M A := fun g =>
  match r with
  | Ok a => Done a g
  | Err e => Raise e g
  end.

Definition block {A} : M A := fun g => Blocked g.

Definition get_gateway : M gateway := fun g => Done g g.

(** A call of a host callback, or a message handed to the MQTT client: the
    call is recorded.  What the callee does is outside this module; the
    model takes it to return and to leave the gateway alone.  So the
    properties below are about what the methods do themselves, not about
    what a callback adds: a setup function subscribes handlers through
    [add_update], and a handler may raise. *)
Definition emit (e : event) : M unit := fun g =>
  Done tt {| devices := devices g; updates := updates g; setups := setups g;
             calls := (calls g ++ [e])%list |}.

(** [self.devices[did] = device] *)
Definition store_device (did : string) (d : device) : M unit := fun g =>
  Done tt {| devices := <[did := d]> (devices g); updates := updates g;
             setups := setups g; calls := calls g |}.

(** [for x in l: body(x)] *)
Fixpoint for_each {A} (body : A -> M unit) (l : list A) : M unit :=
  match l with
  | [] => mret tt
  | x :: l' => body x ;; for_each body l'
  end.

(** [add_update] and [add_setup] *)
Definition add_update (did : string) (h : handler) : M unit := fun g =>
  Done tt {| devices := devices g;
             updates := <[did := (default [] (updates g !! did) ++ [h])%list]> (updates g);
             setups := setups g; calls := calls g |}.

Definition add_setup (dom : string) (h : handler) : M unit := fun g =>
  Done tt {| devices := devices g; updates := updates g;
             setups := <[dom := h]> (setups g); calls := calls g |}.

(** [while domain not in self.setups: time.sleep(1)], then [self.setups[domain]] *)
Definition wait_setup (dom : string) : M handler := fun g =>
  match setups g !! dom with
  | Some h => Done h g
  | None => Blocked g
  end.

(** A dictionary decoded from JSON, taken as a device dictionary.  An item
    it may carry under ['params'] is never read: [setup_devices] replaces it
    by the catalog's rows before any use. *)
Definition device_of_dict (d : dict) : device :=
  {| dev_items := d; dev_params := None |}.

(** [k in v] for a string [k] *)
Definition py_contains (v : value) (k : string) : result bool :=
  match v with
  | VDict d => Ok (dict_has k d)
  | VList l => Ok (existsb (fun x => py_eq_str x k) l)
  | VStr s => Ok (str_contains k s)
  | _ => Err TypeError
  end.

(** [v[k] = x] for a string [k] *)
Definition py_setitem (v : value) (k : string) (x : value) : result value :=
  match v with
  | VDict d => Ok (VDict (dict_set k x d))
  | _ => Err TypeError
  end.

(** [v.replace(':', '').lower()]: on ASCII text [lower] changes the
    letters [A] to [Z] and nothing else. *)
Definition py_mac_lower (v : value) : result string :=
  match v with
  | VStr s =>
      if is_ascii s then Ok (str_lower (str_remove ":"%char s))
      else Err Unmodelled
  | _ => Err AttributeError
  end.

Section Gateway3.

(** What the module imports and this file does not contain: the table
    [utils.GLOBAL_PROP], the catalog lookup [utils.get_device], the
    Bluetooth decoder [utils.parse_xiaomi_ble] with [utils.get_ble_domain],
    and [json.loads]. *)
Variable GLOBAL_PROP : gmap string string.
Variable get_device : value -> option descriptor.
Variable parse_xiaomi_ble : value -> option dict.
Variable get_ble_domain : string -> option string.
Variable json_loads : string -> result value.

(** *** [setup_devices] *)

(** The loop over [device['params']]: every row with a domain waits for
    that domain's setup function and calls it. *)
Definition setup_param (d : device) (p : param_row) : M unit :=
  match domain p with
  | None => mret tt
  | Some dom =>
      if String.eqb dom "" then mret tt
      else h ← wait_setup dom; emit (Setup h d (VStr (name p)))
  end.

Definition setup_device (d : device) : M unit :=
  model ← lift (dev_get d "model");
  match get_device model with
  | None => mret tt
  | Some desc =>
      let d1 := dev_update_desc d desc in
      mac ← lift (dev_get d1 "mac");
      g ← get_gateway;
      default_config ← lift (lookup_key (devices g) mac);
      let d2 := match default_config with
                | Some c => if dev_truthy c then dev_update d1 c else d1
                | None => d1
                end in
      did ← lift (dev_get d2 "did" ≫= as_key);
      store_device did d2;;
      rows ← lift (dev_rows d2);
      for_each (setup_param d2) rows
  end.

Definition setup_devices (ds : list device) : M unit :=
  for_each setup_device ds.

(** *** [process_message] *)

(** Lines 362-373: the dictionary that carries the device id and the key of
    its parameter list.  [NotImplemented] is not an exception class and not
    callable, so the last branch raises [TypeError]. *)
Definition select_params (data : dict) : result (value * string) :=
  cmd ← of_option KeyError (dict_get "cmd" data);
  if py_eq_str cmd "heartbeat" then
    ps ← of_option KeyError (dict_get "params" data);
    n ← py_len ps;
    if Nat.eqb n 1 then d ← py_index ps 0; Ok (d, "res_list")
    else Err AssertionError
  else if py_eq_str cmd "report" then
    Ok (VDict data, if dict_has "params" data then "params" else "mi_spec")
  else if py_eq_str cmd "write_rsp" then Ok (VDict data, "results")
  else Err TypeError.

(** Lines 389-390 *)
Definition param_prop (p : dict) : result value :=
  match dict_get "res_name" p with
  | Some v => Ok v
  | None =>
      siid ← of_option KeyError (dict_get "siid" p);
      piid ← of_option KeyError (dict_get "piid" p);
      s1 ← py_str siid;
      s2 ← py_str piid;
      Ok (VStr (s1 ++ "." ++ s2))
  end.

(** [next((p[2] for p in device['params'] if p[0] == prop), prop)] *)
Definition find_wire (rows : list param_row) (prop : string) : option param_row :=
  List.find (fun p => String.eqb (wire p) prop) rows.

(** Lines 392-396 *)
Definition resolve_prop (d : device) (prop : value) : result value :=
  match prop with
  | VStr s =>
      match GLOBAL_PROP !! s with
      | Some n => Ok (VStr n)
      | None =>
          rows ← dev_rows d;
          Ok (match find_wire rows s with
              | Some p => VStr (name p)
              | None => prop
              end)
      end
  | VList _ | VDict _ => Err TypeError
  | _ => rows ← dev_rows d; Ok prop
  end.

(** Lines 398-403, the value stored: [param['value'] / 100.0], the battery
    percentage when [param['value'] > 1000], or [param['value']] itself. *)
Definition fix_value (prop v : value) : result value :=
  if py_in_pair prop "temperature" "humidity" then py_div_100 v
  else if py_eq_str prop "battery" then
    gt ← py_gt_1000 v;
    if gt : bool then battery_percent v else Ok v
  else Ok v.

(** Lines 398-403.  Every branch reads [param['value']] before anything
    else that can raise; the key is hashed last, by the assignment. *)
Definition store_param (payload : dict) (prop : value) (p : dict) : result dict :=
  v ← of_option KeyError (dict_get "value" p);
  x ← fix_value prop v;
  k ← as_key prop;
  Ok (dict_set k x payload).

(** The body of the loop of lines 385-403 *)
Definition convert_param (d : device) (payload : dict) (param : value)
  : result dict :=
  match param with
  | VDict p =>
      if py_ne_0 (default (VInt 0) (dict_get "error_code" p)) then Ok payload
      else
        prop ← param_prop p;
        prop' ← resolve_prop d prop;
        store_param payload prop' p
  | _ => Err AttributeError
  end.

(** Lines 411-416 *)
Definition setup_added_device (payload : dict) : M unit :=
  match dict_get "added_device" payload with
  | None => mret tt
  | Some dv =>
      mac ← lift (py_getitem dv "mac" ≫= py_concat_0x);
      dv' ← lift (py_setitem dv "mac" (VStr mac));
      match dv' with
      | VDict d => setup_devices [device_of_dict d]
      | _ => lift (Err TypeError)
      end
  end.

(** Lines 375-416, for the dictionary and key chosen by [select_params] *)
Definition process_params (data : value) (pkey : string) : M unit :=
  did ← lift (py_getitem data "did");
  g ← get_gateway;
  subscribed ← lift (lookup_key (updates g) did);
  match subscribed, did with
  | Some handlers, VStr sdid =>
      d ← lift (of_option KeyError (devices g !! sdid));
      params ← lift (py_getitem data pkey ≫= py_iter);
      payload ← lift (fold_result (convert_param d) params []);
      lift (dev_get d "did");;
      lift (dev_get d "model");;
      for_each (fun h => emit (Update h payload)) handlers;;
      setup_added_device payload
  | _, _ => mret tt
  end.

Definition process_message (data : dict) : M unit :=
  sel ← lift (select_params data);
  process_params (fst sel) (snd sel).

(** *** [process_bluetooth] *)

(** [device['init'][k] = v]: the dictionary under ['init'] is changed in
    place, so the device keeps its items and their order. *)
Definition dev_set_init (d : device) (init : value) : device :=
  {| dev_items := dict_set "init" init (dev_items d);
     dev_params := dev_params d |}.

(** Lines 449-463.  [d] is the object stored under [did] in
    [self.devices]; each change to it is written through. *)
Fixpoint ble_init (did : string) (payload : dict) (keys : list string)
  (d : device) : M unit :=
  match keys with
  | [] => mret tt
  | k :: keys' =>
      init ← lift (dev_get d "init");
      known ← lift (py_contains init k);
      if known : bool then ble_init did payload keys' d
      else
        v ← lift (of_option KeyError (dict_get k payload));
        init' ← lift (py_setitem init k v);
        let d' := dev_set_init d init' in
        store_device did d';;
        match get_ble_domain k with
        | None => mret tt
        | Some dom =>
            if String.eqb dom "" then mret tt
            else h ← wait_setup dom; emit (Setup h d' (VStr k))
        end;;
        ble_init did payload keys' d'
  end.

(** Lines 429-438 *)
Definition ble_device (dev : value) : M (string * device) :=
  did ← lift (py_getitem dev "did");
  g ← get_gateway;
  known ← lift (lookup_key (devices g) did);
  match known, did with
  | Some d, VStr sdid => mret (sdid, d)
  | _, _ =>
      mac ← lift (py_getitem dev "mac" ≫= py_mac_lower);
      sdid ← lift (as_key did);
      let d := device_of_dict
                 [("did", did); ("mac", VStr mac); ("device_name", VStr "BLE");
                  ("init", VDict [])] in
      store_device sdid d;;
      mret (sdid, d)
  end.

Definition process_bluetooth (raw : string) : M unit :=
  if negb (str_contains "_async.ble_event" raw) then mret tt
  else
    data ← lift (text ← text_drop 10 raw;
                 j ← json_loads text;
                 py_getitem j "params");
    dev ← lift (py_getitem data "dev");
    '(did, d) ← ble_device dev;
    evt ← lift (py_getitem data "evt");
    n ← lift (py_len evt);
    if negb (Nat.eqb n 1) then lift (Err AssertionError)
    else
      e ← lift (py_index evt 0);
      match parse_xiaomi_ble e with
      | None => mret tt
      | Some payload =>
          ble_init did payload (dict_keys payload) d;;
          g ← get_gateway;
          match updates g !! did with
          | Some handlers => for_each (fun h => emit (Update h payload)) handlers
          | None => mret tt
          end
      end.

(** *** [send] *)

(** [next(p[0] for p in device['params'] if p[2] == param)] *)
Definition find_name (rows : list param_row) (param : string) : option param_row :=
  List.find (fun p => String.eqb (name p) param) rows.

Definition send_prop (d : device) (param : string) : result string :=
  rows ← dev_rows d;
  p ← of_option StopIteration (find_name rows param);
  Ok (wire p).

Definition write_command (did : value) (prop : string) (v : value) : dict :=
  [("cmd", VStr "write"); ("did", did);
   ("params", VList [VDict [("res_name", VStr prop); ("value", v)]])].

Definition send (d : device) (param : string) (v : value) : M unit :=
  prop ← lift (send_prop d param);
  did ← lift (dev_get d "did");
  lift (dev_get d "model");;
  emit (Publish "zigbee/recv" (write_command did prop v)).

(** *** [_get_devices_v3] *)

(** What the telnet session hands to the method: the hub's database as
    [Unqlite(raw).read_all()] returns it, and the bytes printed by
    [cat /data/zigbee/coordinator.info] up to the next prompt.  Either may
    raise instead. *)
Record telnet_io : Type := TelnetIO {
  zigbee_gw_db : result (gmap string string);
  coordinator_info : result string
}.

(** [retain.get(k)] *)
Definition py_get (retain : value) (k : string) : result value :=
  match retain with
  | VDict d => Ok (default VNone (dict_get k d))
  | _ => Err AttributeError
  end.

(** Lines 225-229: [{p[2]: retain.get(p[1]) for p in desc['params']
    if p[1] is not None}] *)
Definition retained_params (rows : list param_row) (retain : value)
  : result dict :=
  fold_result
    (fun acc p =>
       match hub_key p with
       | None => Ok acc
       | Some k => v ← py_get retain k; Ok (dict_set (name p) v acc)
       end)
    rows [].

(** Lines 233-240: the new value of [params[k]] *)
Definition fix_retained (k : string) (v : value) : result value :=
  if String.eqb k "temperature" || String.eqb k "humidity" then py_div_100 v
  else if py_in_pair v "on" "open" then Ok (VInt 1)
  else if py_in_pair v "off" "close" then Ok (VInt 0)
  else if String.eqb k "battery" && py_truthy v then
    gt ← py_gt_1000 v;
    if gt : bool then battery_percent v else Ok v
  else Ok v.

(** Lines 232-240.  Assigning to a key that exists does not move it, so the
    loop replaces the values item by item. *)
Definition fix_params (params : dict) : result dict :=
  map_result (fun kv => v ← fix_retained (fst kv) (snd kv); Ok (fst kv, v)) params.

(** Lines 216-249: one id of [dev_list]; [None] for an unsupported model. *)
Definition v3_device (data : gmap string string) (did : value)
  : result (option device) :=
  sdid ← match did with VStr s => Ok s | _ => Err TypeError end;
  model ← of_option KeyError (data !! (sdid ++ ".model"));
  match get_device (VStr model) with
  | None => Ok None
  | Some desc =>
      prop ← of_option KeyError (data !! (sdid ++ ".prop"));
      retain ← json_loads prop ≫= (fun j => py_getitem j "props");
      params ← retained_params (desc_params desc) retain;
      init ← fix_params params;
      mac ← of_option KeyError (data !! (sdid ++ ".mac"));
      ver ← of_option KeyError (data !! (sdid ++ ".version"));
      Ok (Some (device_of_dict
                  [("did", did); ("mac", VStr ("0x" ++ mac));
                   ("model", VStr model); ("zb_ver", VStr ver);
                   ("init", VDict init)]))
  end.

Definition v3_devices (data : gmap string string) (dids : list value)
  : result (list device) :=
  fold_result
    (fun acc did =>
       d ← v3_device data did;
       Ok (match d with Some d => (acc ++ [d])%list | None => acc end))
    dids [].

Definition v3_body (io : telnet_io) : result (list device) :=
  data ← zigbee_gw_db io;
  dev_list ← of_option KeyError (data !! "dev_list");
  dids ← json_loads dev_list ≫= py_iter;
  devs ← v3_devices data dids;
  raw ← coordinator_info io;
  coord ← json_loads (str_drop_last2 raw);
  mac ← py_getitem coord "mac";
  Ok (device_of_dict
        [("did", VStr "lumi.0"); ("model", VStr "lumi.gateway.mgl03");
         ("mac", mac)] :: devs).

(** [try: ... except Exception: return None] *)
Definition _get_devices_v3 (io : telnet_io) : option (list device) :=
  match v3_body io with
  | Ok devs => Some devs
  | Err _ => None
  end.

(** *** [_get_devices_v1] *)

(** What the miIO device answers: the [k]-th call of [get_device_list]
    (counted from 0), [get_device_prop] for its arguments, and the two
    attributes read from [info()].  Each may raise instead. *)
Record miio_io : Type := MiioIO {
  get_device_list : nat -> result value;
  get_device_prop : list value -> result value;
  miio_info : result (value * value)
}.

(** The keys of the local dictionary [devices]: [item['num']], compared as
    Python compares integers and strings. *)
Inductive num_key : Type :=
| NumInt (z : Z)
| NumStr (s : string).

Definition num_key_eqb (a b : num_key) : bool :=
  match a, b with
  | NumInt x, NumInt y => (x =? y)%Z
  | NumStr x, NumStr y => String.eqb x y
  | _, _ => false
  end.

Definition as_num_key (v : value) : result num_key :=
  match v with
  | VInt z => Ok (NumInt z)
  | VStr s => Ok (NumStr s)
  | VList _ | VDict _ => Err TypeError
  | _ => Err Unmodelled
  end.

Fixpoint num_set (k : num_key) (d : dict) (l : list (num_key * dict))
  : list (num_key * dict) :=
  match l with
  | [] => [(k, d)]
  | (k', d') :: l' =>
      if num_key_eqb k' k then (k, d) :: l' else (k', d') :: num_set k d l'
  end.

(** [f"0x{did[5:]}"] *)
Definition py_mac_of_did (did : value) : result string :=
  match did with
  | VStr s => t ← text_drop 5 s; Ok ("0x" ++ t)
  | VList _ => Err Unmodelled
  | _ => Err TypeError
  end.

(** Lines 99-103 *)
Definition add_item (devs : list (num_key * dict)) (item : value)
  : result (list (num_key * dict)) :=
  did ← py_getitem item "did";
  mac ← py_mac_of_did did;
  model ← py_getitem item "model";
  k ← py_getitem item "num" ≫= as_num_key;
  Ok (num_set k [("did", did); ("mac", VStr mac); ("model", model)] devs).

(** [v == n] for the integer [n = len(devices)] *)
Definition py_eq_nat (v : value) (n : nat) : bool :=
  match v with
  | VInt z => (z =? Z.of_nat n)%Z
  | VBool b => (bool_to_Z b =? Z.of_nat n)%Z
  | VFloat f => PrimFloat.eqb f (small_float (Z.of_nat n))
  | _ => false
  end.

(** How the loop of lines 92-106 ends: by [return []] on an empty part, or
    by leaving the loop with the devices collected. *)
Inductive pages : Type :=
| EmptyPart
| Collected (devs : list (num_key * dict)).

(** One pass of the loop body: [None] for the empty part, else the devices
    and whether [part[0]['total'] == len(devices)]. *)
Definition read_part (part : value) (devs : list (num_key * dict))
  : result (option (list (num_key * dict) * bool)) :=
  n ← py_len part;
  if Nat.eqb n 0 then Ok None
  else
    items ← py_iter part;
    devs' ← fold_result add_item items devs;
    total ← py_index part 0 ≫= (fun first => py_getitem first "total");
    Ok (Some (devs', py_eq_nat total (length devs'))).

(** Lines 92-106, [for _ in range(n)] with [k] requests already made.  The
    first component counts the [get_device_list] requests made in all. *)
Fixpoint read_pages (io : miio_io) (n k : nat) (devs : list (num_key * dict))
  : nat * result pages :=
  match n with
  | O => (k, Ok (Collected devs))
  | S n' =>
      match get_device_list io k with
      | Err e => (S k, Err e)
      | Ok part =>
          match read_part part devs with
          | Err e => (S k, Err e)
          | Ok None => (S k, Ok EmptyPart)
          | Ok (Some (devs', true)) => (S k, Ok (Collected devs'))
          | Ok (Some (devs', false)) => read_pages io n' (S k) devs'
          end
      end
  end.

(** Lines 127-133: the new value of [data[k]] *)
Definition fix_prop (k : string) (v : value) : result value :=
  if String.eqb k "temperature" || String.eqb k "humidity" then py_div_100 v
  else if py_in_pair v "on" "open" then Ok (VInt 1)
  else if py_in_pair v "off" "close" then Ok (VInt 0)
  else Ok v.

(** [dict(zip(params, values))] *)
Fixpoint dict_zip (ks : list string) (vs : list value) (acc : dict) : dict :=
  match ks, vs with
  | k :: ks', v :: vs' => dict_zip ks' vs' (dict_set k v acc)
  | _, _ => acc
  end.

Definition retained_keys (rows : list param_row) : list (string * string) :=
  flat_map (fun p => match hub_key p with
                     | Some k => [(k, name p)]
                     | None => []
                     end) rows.

(** Lines 110-135 for one device *)
Definition v1_device (io : miio_io) (d : dict) : result dict :=
  model ← of_option KeyError (dict_get "model" d);
  match get_device model with
  | None => Ok d
  | Some desc =>
      let keys := retained_keys (desc_params desc) in
      match keys with
      | [] => Ok d
      | _ =>
          did ← of_option KeyError (dict_get "did" d);
          values ← get_device_prop io (did :: map (fun kn => VStr (fst kn)) keys);
          vs ← py_iter values;
          let data := dict_zip (map snd keys) vs [] in
          init ← map_result
                   (fun kv => v ← fix_prop (fst kv) (snd kv); Ok (fst kv, v))
                   data;
          Ok (dict_set "init" (VDict init) d)
      end
  end.

Definition v1_body (io : miio_io) : result (list dict) :=
  match snd (read_pages io 16 0 []) with
  | Err e => Err e
  | Ok EmptyPart => Ok []
  | Ok (Collected devs) =>
      ds ← map_result (v1_device io) (map snd devs);
      '(mac, model) ← miio_info io;
      Ok (ds ++ [[("did", VStr "lumi.0"); ("mac", mac); ("model", model)]])%list
  end.

(** [try: ... except Exception: return None]; [Unmodelled] is not an
    exception and is not caught. *)
Definition _get_devices_v1 (io : miio_io) : result (option (list dict)) :=
  match v1_body io with
  | Ok ds => Ok (Some ds)
  | Err Unmodelled => Err Unmodelled
  | Err _ => Ok None
  end.

End Gateway3.

(** ** The callers: [on_message] and the file strategy *)

Section Callers.

Variable GLOBAL_PROP : gmap string string.
Variable get_device : value -> option descriptor.
Variable parse_xiaomi_ble : value -> option dict.
Variable get_ble_domain : string -> option string.
Variable json_loads : string -> result value.

(** [bytes.decode()]: the text of a payload, or the error of an invalid
    encoding.  Payloads are byte strings; so are the texts of this file. *)
Variable decode : string -> result string.

(** [config['debug']], as [__init__] stores it in [self.debug]. *)
Variable debug : string.

(** [payload[payload.index(b'BT') + 5:]] *)
Definition after_bt (payload : string) : result string :=
  match String.index 0 "BT" payload with
  | Some i => Ok (str_drop (i + 5) payload)
  | None => Err ValueError
  end.

(** [self.process_message(payload)] for whatever [json.loads] returned:
    [data['cmd']] on anything but a dictionary raises [TypeError]. *)
Definition process_decoded (j : value) : M unit :=
  match j with
  | VDict data => process_message GLOBAL_PROP get_device data
  | _ => lift (Err TypeError)
  end.

(** Lines 318-328.  The debug line decodes the payload before anything
    else when ['mqtt'] is in [self.debug]. *)
Definition on_message (topic payload : string) : M unit :=
  (if str_contains "mqtt" debug then lift (decode payload) ;; mret tt
   else mret tt) ;;
  if String.eqb topic "zigbee/send" then
    j ← lift (json_loads payload);
    process_decoded j
  else if String.eqb topic "log/bt" then
    text ← lift (after_bt payload ≫= decode);
    process_bluetooth parse_xiaomi_ble get_ble_domain json_loads text
  else mret tt.

(** What the telnet session of [_get_devices_v2] prints for the two [cat]
    commands, up to the next prompt.  Either read may raise instead. *)
Record files_io : Type := FilesIO {
  coordinator_file : result string;
  device_file : result string
}.

(** [v.update(other)] *)
Definition py_update (v : value) (other : dict) : result value :=
  match v with
  | VDict d => Ok (VDict (dict_update d other))
  | _ => Err AttributeError
  end.

(** Lines 168-192 *)
Definition v2_body (host : string) (io : files_io) : result (list value) :=
  raw ← coordinator_file io;
  device ← json_loads (str_drop_last2 raw);
  device ← py_update device
             [("did", VStr "lumi.0"); ("model", VStr "lumi.gateway.mgl03");
              ("host", VStr host)];
  raw ← device_file io;
  info ← json_loads (str_drop_last2 raw);
  devs ← py_getitem info "devInfo" ≫= py_iter;
  Ok (device :: devs).

(** [try: ... except Exception: return None] *)
Definition _get_devices_v2 (host : string) (io : files_io) : option (list value) :=
  match v2_body host io with
  | Ok devs => Some devs
  | Err _ => None
  end.

End Callers.

(** ** Notions used to state the properties *)

(** The gateway a call leaves behind, however it ends. *)
Definition final {A} (o : outcome A) : gateway :=
  match o with
  | Done _ g => g
  | Raise _ g => g
  | Blocked g => g
  end.

(** Every id mapped in [self.devices] before the call is mapped after it. *)
Definition keeps_devices {A} (m : M A) : Prop :=
  forall g, dom (devices g) ⊆ dom (devices (final (m g))).

(** The gateway after [handler(payload)] for each handler in turn. *)
Definition dispatched (handlers : list handler) (payload : dict) (g : gateway)
  : gateway :=
  {| devices := devices g; updates := updates g; setups := setups g;
     calls := (calls g ++ map (fun h => Update h payload) handlers)%list |}.

(** The gateway after one more recorded call. *)
Definition recorded (e : event) (g : gateway) : gateway :=
  {| devices := devices g; updates := updates g; setups := setups g;
     calls := (calls g ++ [e])%list |}.

(** A parameter entry whose error code is zero or absent. *)
Definition accepted (p : dict) : Prop :=
  py_ne_0 (default (VInt 0) (dict_get "error_code" p)) = false.

(** The first row that carries a wire name. *)
Definition first_wire (rows : list param_row) (s : string) (p : param_row) : Prop :=
  exists before after,
    rows = (before ++ p :: after)%list /\ wire p = s /\
    Forall (fun q => wire q <> s) before.

(** Name resolution in the words of the specification: the table of global
    properties first, else the device's parameterSpec by wire name, else the
    raw wire name. *)
Inductive canonical (table : gmap string string) (rows : list param_row)
  (s : string) : string -> Prop :=
| canonical_global k :
    table !! s = Some k -> canonical table rows s k
| canonical_spec p :
    table !! s = None -> first_wire rows s p -> canonical table rows s (name p)
| canonical_raw :
    table !! s = None -> Forall (fun q => wire q <> s) rows ->
    canonical table rows s s.

(** An entry that [process_message] can convert: a dictionary which, when
    accepted, names a property, carries a value, and whose value the fixup
    of its canonical name is defined on. *)
Definition convertible (table : gmap string string) (rows : list param_row)
  (param : value) : Prop :=
  exists p, param = VDict p /\
    (accepted p ->
     exists s k v x,
       param_prop p = Ok (VStr s) /\ canonical table rows s k /\
       dict_get "value" p = Some v /\ fix_value (VStr k) v = Ok x).

(** A message entry with a zero or absent error code that resolves to the
    canonical name [k]. *)
Definition resolves_to (table : gmap string string) (rows : list param_row)
  (k : string) (param : value) : Prop :=
  exists p s, param = VDict p /\ accepted p /\
              param_prop p = Ok (VStr s) /\ canonical table rows s k.

(** The double that a raw number is when it is divided by [100.0]:
    [float(z)] for an integer [z]. *)
Inductive as_double : value -> PrimFloat.float -> Prop :=
| double_of_int z f : float_of_Z z = Ok f -> as_double (VInt z) f
| double_of_float f : as_double (VFloat f) f
| double_of_bool b : as_double (VBool b) (small_float (bool_to_Z b)).

(** The first row that carries a canonical name. *)
Definition first_name (rows : list param_row) (x : string) (p : param_row) : Prop :=
  exists before after,
    rows = (before ++ p :: after)%list /\ name p = x /\
    Forall (fun q => name q <> x) before.



(** ** Sample data *)

(** A table of global properties. *)
Definition sample_global_prop : gmap string string :=
  {[ "8.0.2008" := "voltage" ]}.

(** A temperature and humidity sensor whose battery reports under
    [8.0.2002], and a plug with a switch that lists its wire name twice. *)
Definition sensor_rows : list param_row :=
  [ParamRow "0.1.85" (Some "temperature") "temperature" (Some "sensor");
   ParamRow "0.2.85" (Some "humidity") "humidity" (Some "sensor");
   ParamRow "8.0.2002" (Some "battery") "battery" (Some "sensor")].

Definition plug_rows : list param_row :=
  [ParamRow "0.12.85" (Some "load_power") "power" (Some "sensor");
   ParamRow "4.1.85" (Some "neutral_0") "switch" (Some "switch");
   ParamRow "4.1.85" None "channel_1" None].

Definition sample_get_device (model : value) : option descriptor :=
  if py_eq_str model "lumi.sensor_ht" then
    Some (Descriptor sensor_rows [("device_name", VStr "TH Sensor")])
  else if py_eq_str model "lumi.plug" then
    Some (Descriptor plug_rows [("device_name", VStr "Plug")])
  else None.

Definition sensor : device :=
  {| dev_items := [("did", VStr "lumi.1"); ("mac", VStr "0x158d0001");
                   ("model", VStr "lumi.sensor_ht"); ("init", VDict [])];
     dev_params := Some sensor_rows |}.

Definition plug : device :=
  {| dev_items := [("did", VStr "lumi.2"); ("mac", VStr "0x158d0002");
                   ("model", VStr "lumi.plug"); ("init", VDict [])];
     dev_params := Some plug_rows |}.

(** A gateway that knows both devices, with one subscriber for each and the
    setup function of the sensor domain registered. *)
Definition sample_gateway : gateway :=
  {| devices := {[ "lumi.1" := sensor; "lumi.2" := plug ]};
     updates := {[ "lumi.1" := [7]; "lumi.2" := [8] ]};
     setups := {[ "sensor" := 3 ]};
     calls := [] |}.

(** [{"cmd": "report", "did": did, "params": [{"res_name": n, "value": v}]}] *)
Definition report (did n : string) (v : value) : dict :=
  [("cmd", VStr "report"); ("did", VStr did);
   ("params", VList [VDict [("res_name", VStr n); ("value", v)]])].

(** A text with every apostrophe turned into a double quote. *)
Fixpoint dq (s : string) : string :=
  match s with
  | EmptyString => EmptyString
  | String c s' =>
      String (if Ascii.eqb c "'"%char then Ascii.ascii_of_nat 34 else c) (dq s')
  end.

(** [json.loads] on the documents of the sample databases. *)
Definition sample_json_loads (s : string) : result value :=
  if String.eqb s (dq "['lumi.1']") then Ok (VList [VStr "lumi.1"])
  else if String.eqb s (dq "['lumi.1','lumi.2','lumi.3']") then
    Ok (VList [VStr "lumi.1"; VStr "lumi.2"; VStr "lumi.3"])
  else if String.eqb s (dq "{'props':{'temperature':2350}}") then
    Ok (VDict [("props", VDict [("temperature", VInt 2350)])])
  else if String.eqb s
            (dq "{'props':{'temperature':2350,'humidity':4500,'battery':3000}}")
  then
    Ok (VDict [("props", VDict [("temperature", VInt 2350);
                                ("humidity", VInt 4500);
                                ("battery", VInt 3000)])])
  else if String.eqb s (dq "{'props':{'load_power':12,'neutral_0':'on'}}") then
    Ok (VDict [("props", VDict [("load_power", VInt 12);
                                ("neutral_0", VStr "on")])])
  else if String.eqb s (dq "{'mac':'54ef44000001'}") then
    Ok (VDict [("mac", VStr "54ef44000001")])
  else Err ValueError.

(** A hub database in which the sensor has retained its temperature but not
    its humidity. *)
Definition sample_db : gmap string string :=
  {[ "dev_list" := dq "['lumi.1']";
     "lumi.1.model" := "lumi.sensor_ht";
     "lumi.1.mac" := "158d0001";
     "lumi.1.version" := "1.2";
     "lumi.1.prop" := dq "{'props':{'temperature':2350}}" ]}.

Definition sample_telnet : telnet_io :=
  {| zigbee_gw_db := Ok sample_db;
     coordinator_info := Ok (dq "{'mac':'54ef44000001'}# ") |}.

(** A hub database with the sensor's retained values complete, the plug
    switched on, and a device of a model the catalog does not know. *)
Definition complete_db : gmap string string :=
  {[ "dev_list" := dq "['lumi.1','lumi.2','lumi.3']";
     "lumi.1.model" := "lumi.sensor_ht";
     "lumi.1.mac" := "158d0001";
     "lumi.1.version" := "1.2";
     "lumi.1.prop" :=
       dq "{'props':{'temperature':2350,'humidity':4500,'battery':3000}}";
     "lumi.2.model" := "lumi.plug";
     "lumi.2.mac" := "158d0002";
     "lumi.2.version" := "3.0";
     "lumi.2.prop" := dq "{'props':{'load_power':12,'neutral_0':'on'}}";
     "lumi.3.model" := "lumi.unknown" ]}.

Definition complete_telnet : telnet_io :=
  {| zigbee_gw_db := Ok complete_db;
     coordinator_info := Ok (dq "{'mac':'54ef44000001'}# ") |}.

(** A hub that answers every [get_device_list] with the same one device and
    a total of three. *)
Definition sample_miio : miio_io :=
  {| get_device_list := fun _ =>
       Ok (VList [VDict [("did", VStr "lumi.158d0001");
                         ("model", VStr "lumi.sensor_ht");
                         ("num", VInt 1); ("total", VInt 3)]]);
     get_device_prop := fun _ => Ok (VList [VInt 2350; VInt 4500; VInt 3000]);
     miio_info := Ok (VStr "54:ef:44:00:00:01", VStr "lumi.gateway.mgl03") |}.

(** A Bluetooth decoder that reads a battery level out of every event. *)
Definition sample_parse_xiaomi_ble (e : value) : option dict :=
  Some [("battery", VInt 90)].

Definition sample_get_ble_domain (k : string) : option string :=
  if String.eqb k "battery" then Some "sensor" else None.

(** A heartbeat with two elements, and one with a single element. *)
Definition heartbeat (elements : list value) : dict :=
  [("cmd", VStr "heartbeat"); ("params", VList elements)].

Definition heartbeat_element : value :=
  VDict [("did", VStr "lumi.1");
         ("res_list", VList [VDict [("res_name", VStr "8.0.2008");
                                    ("value", VInt 3005)]])].

(** A report with a temperature and an entry the hub marked as failed. *)
Definition sample_report : dict :=
  [("cmd", VStr "report"); ("did", VStr "lumi.1");
   ("params", VList [VDict [("res_name", VStr "0.1.85"); ("value", VInt 2350)];
                     VDict [("res_name", VStr "0.2.85"); ("value", VInt 0);
                            ("error_code", VInt (-5020))]])].

(** ** Further notions and sample data *)

(** A relation between the gateway before a call and the one it leaves
    behind, however the call ends. *)
Definition relates {A} (R : gateway -> gateway -> Prop) (m : M A) : Prop :=
  forall g, R g (final (m g)).

(** The call only adds recorded calls, all of one kind. *)
Definition extends_by (P : event -> Prop) (g g' : gateway) : Prop :=
  exists more, calls g' = (calls g ++ more)%list /\ Forall P more.

Definition records {A} (P : event -> Prop) (m : M A) : Prop :=
  relates (extends_by P) m.

Definition is_update (e : event) : Prop :=
  match e with Update _ _ => True | _ => False end.

Definition is_setup (e : event) : Prop :=
  match e with Setup _ _ _ => True | _ => False end.

Definition is_inbound (e : event) : Prop :=
  match e with Publish _ _ => False | _ => True end.

Definition is_publish (e : event) : Prop :=
  match e with Publish _ _ => True | _ => False end.

(** The gateway after [self.devices[did] = d]. *)
Definition stored (did : string) (d : device) (g : gateway) : gateway :=
  {| devices := <[did := d]> (devices g); updates := updates g;
     setups := setups g; calls := calls g |}.

(** The gateway after some more recorded calls. *)
Definition called (more : list event) (g : gateway) : gateway :=
  {| devices := devices g; updates := updates g; setups := setups g;
     calls := (calls g ++ more)%list |}.

(** A record as [setup_devices] registers it: filed under its own id, with
    a model, a hardware address and the catalog's rows. *)
Definition registered (did : string) (d : device) : Prop :=
  dev_get d "did" = Ok (VStr did) /\
  is_Some (dict_get "model" (dev_items d)) /\
  is_Some (dict_get "mac" (dev_items d)) /\
  is_Some (dev_params d).

(** Every entry of the registry after the call was there before, or is a
    record registered under its own id. *)
Definition registers (g g' : gateway) : Prop :=
  forall k d, devices g' !! k = Some d ->
    devices g !! k = Some d \/ registered k d.

(** The setup calls the loop of lines 349-359 makes for the rows of a
    device, given the setup table. *)
Definition setup_calls (table : gmap string handler) (d : device)
  (rows : list param_row) : list event :=
  flat_map
    (fun p =>
       match domain p with
       | Some dom =>
           if String.eqb dom "" then []
           else match table !! dom with
                | Some h => [Setup h d (VStr (name p))]
                | None => []
                end
       | None => []
       end) rows.

(** A row that makes [setup_devices] wait: its domain has no setup
    function yet. *)
Definition unregistered (table : gmap string handler) (p : param_row) : Prop :=
  exists dom, domain p = Some dom /\ dom <> "" /\ table !! dom = None.

(** Two records that differ at most in the item under ['init']. *)
Definition same_identity (d d' : device) : Prop :=
  (forall k, k <> "init" ->
     dict_get k (dev_items d') = dict_get k (dev_items d)) /\
  dev_params d' = dev_params d.

(** The device's ['init'] dictionary has the key. *)
Definition init_has (d : device) (k : string) : Prop :=
  exists init, dev_get d "init" = Ok init /\ py_contains init k = Ok true.

(** Lines 440-467 of [process_bluetooth]: what follows once the record
    [d] of the advertising device [did] is at hand. *)
Definition ble_tail (parse_xiaomi_ble : value -> option dict)
  (get_ble_domain : string -> option string) (data : value) (did : string)
  (d : device) : M unit :=
  evt ← lift (py_getitem data "evt");
  n ← lift (py_len evt);
  if negb (Nat.eqb n 1) then lift (Err AssertionError)
  else
    e ← lift (py_index evt 0);
    match parse_xiaomi_ble e with
    | None => mret tt
    | Some payload =>
        ble_init get_ble_domain did payload (dict_keys payload) d;;
        g ← get_gateway;
        match updates g !! did with
        | Some handlers => for_each (fun h => emit (Update h payload)) handlers
        | None => mret tt
        end
    end.

(** The plug and the sensor as [setup_devices] registers them. *)
Definition plug_registered : device :=
  dev_update_desc plug (Descriptor plug_rows [("device_name", VStr "Plug")]).

Definition sensor_registered : device :=
  dev_update_desc sensor
    (Descriptor sensor_rows [("device_name", VStr "TH Sensor")]).

(** A Bluetooth log line as [on_message] hands it to [process_bluetooth]:
    ten characters, then the notification. *)
Definition ble_line : string := "0123456789_async.ble_event".

Definition ble_notification (did : string) : value :=
  VDict [("params",
          VDict [("dev", VDict [("did", VStr did); ("mac", VStr "A4:C1:38:00:00:01")]);
                 ("evt", VList [VDict [("eid", VInt 4106)]])])].

Definition ble_json_loads (s : string) : result value :=
  if String.eqb s "_async.ble_event" then Ok (ble_notification "blt.1")
  else Err ValueError.

(** A telnet session of the file strategy: a coordinator file that names
    itself differently, and two devices. *)
Definition sample_files_json_loads (s : string) : result value :=
  if String.eqb s "coordinator" then
    Ok (VDict [("mac", VStr "0x00158d0000000001"); ("did", VStr "lumi.x");
               ("channel", VInt 15)])
  else if String.eqb s "devices" then
    Ok (VDict [("devInfo",
                VList [VDict [("did", VStr "lumi.158d0001");
                              ("model", VStr "lumi.sensor_ht")];
                       VDict [("did", VStr "lumi.158d0002");
                              ("model", VStr "lumi.plug")]])])
  else Err ValueError.

Definition sample_files : files_io :=
  {| coordinator_file := Ok "coordinator# ";
     device_file := Ok "devices# " |}.

(** A hub whose second part is empty. *)
Definition empty_second_part : miio_io :=
  {| get_device_list := fun k =>
       match k with
       | O => Ok (VList [VDict [("did", VStr "lumi.158d0001");
                                ("model", VStr "lumi.sensor_ht");
                                ("num", VInt 1); ("total", VInt 3)]])
       | _ => Ok (VList [])
       end;
     get_device_prop := fun _ => Ok (VList [VInt 2350; VInt 4500; VInt 3000]);
     miio_info := Ok (VStr "54:ef:44:00:00:01", VStr "lumi.gateway.mgl03") |}.

(** A report in which every entry carries an error code. *)
Definition failed_report : dict :=
  [("cmd", VStr "report"); ("did", VStr "lumi.1");
   ("params", VList [VDict [("res_name", VStr "0.1.85"); ("value", VInt 0);
                            ("error_code", VInt (-5020))]])].

(** A report whose second entry has no value. *)
Definition truncated_report : dict :=
  [("cmd", VStr "report"); ("did", VStr "lumi.1");
   ("params", VList [VDict [("res_name", VStr "0.1.85"); ("value", VInt 2350)];
                     VDict [("res_name", VStr "0.2.85")]])].

(** The device that lines 216-249 build for the id [sdid] of a hub
    database: its model is the database's and the catalog knows it, its
    address and version are the database's, and its initial values are the
    fixed-up retained values of its [.prop] blob. *)
Definition v3_built (get_device : value -> option descriptor)
  (json_loads : string -> result value) (data : gmap string string)
  (sdid : string) (d : device) : Prop :=
  exists model hw ver desc prop retain params init,
    data !! (sdid ++ ".model") = Some model /\
    get_device (VStr model) = Some desc /\
    data !! (sdid ++ ".prop") = Some prop /\
    (json_loads prop ≫= fun j => py_getitem j "props") = Ok retain /\
    retained_params (desc_params desc) retain = Ok params /\
    fix_params params = Ok init /\
    data !! (sdid ++ ".mac") = Some hw /\
    data !! (sdid ++ ".version") = Some ver /\
    d = device_of_dict
          [("did", VStr sdid); ("mac", VStr ("0x" ++ hw));
           ("model", VStr model); ("zb_ver", VStr ver); ("init", VDict init)].

(** A device dictionary as the loop of lines 98-103 builds it: the id, the
    hardware address derived from the id, and a model.  The first five
    characters of the id are ASCII, so they are its first five bytes. *)
Definition v1_listed (d : dict) : Prop :=
  exists sdid,
    dict_get "did" d = Some (VStr sdid) /\
    is_ascii (str_take 5 sdid) = true /\
    dict_get "mac" d = Some (VStr ("0x" ++ str_drop 5 sdid)) /\
    is_Some (dict_get "model" d).

(** A hub that lists its two devices in one part. *)
Definition one_part : miio_io :=
  {| get_device_list := fun _ =>
       Ok (VList [VDict [("did", VStr "lumi.158d0001");
                         ("model", VStr "lumi.sensor_ht");
                         ("num", VInt 1); ("total", VInt 2)];
                  VDict [("did", VStr "lumi.158d0002");
                         ("model", VStr "lumi.unknown");
                         ("num", VInt 2); ("total", VInt 2)]]);
     get_device_prop := fun _ => Ok (VList [VInt 2350; VInt 4500; VInt 3000]);
     miio_info := Ok (VStr "54:ef:44:00:00:01", VStr "lumi.gateway.mgl03") |}.

(** A decoder that refuses the byte 255, which no UTF-8 text contains. *)
Definition sample_decode (s : string) : result string :=
  if str_contains (String (ascii_of_nat 255) "") s then Err ValueError
  else Ok s.

(** ** Dictionaries and comparisons *)

Lemma py_eq_str_true v s : py_eq_str v s = true <-> v = VStr s.
Proof.
  destruct v as [| | | |s'| |]; simpl; try (split; [discriminate|congruence]).
  rewrite String.eqb_eq. split; congruence.
Qed.

Lemma py_eq_str_false v s : py_eq_str v s = false <-> v <> VStr s.
Proof.
  rewrite <- py_eq_str_true. destruct (py_eq_str v s); split; congruence.
Qed.

Lemma dict_get_set k k' x (d : dict) :
  dict_get k' (dict_set k x d) = if String.eqb k k' then Some x else dict_get k' d.
Proof.
  induction d as [|[k0 v0] d IH]; simpl.
  - destruct (String.eqb k k'); reflexivity.
  - destruct (String.eqb_spec k0 k) as [->|Hne]; simpl.
    + destruct (String.eqb k k'); reflexivity.
    + rewrite IH. destruct (String.eqb_spec k0 k') as [->|]; [|reflexivity].
      destruct (String.eqb_spec k k'); congruence.
Qed.

Lemma dict_keys_set k k' x (d : dict) :
  In k' (dict_keys (dict_set k x d)) <-> k' = k \/ In k' (dict_keys d).
Proof.
  unfold dict_keys. induction d as [|[k0 v0] d IH]; simpl.
  - intuition.
  - destruct (String.eqb_spec k0 k) as [->|Hne]; simpl; [|rewrite IH]; intuition.
Qed.

(** ** The battery fixup *)





(** ** The envelope, unsupported commands and unsubscribed devices *)

Section Properties.

Context (GLOBAL_PROP : gmap string string).
Context (get_device : value -> option descriptor).
Context (parse_xiaomi_ble : value -> option dict).
Context (get_ble_domain : string -> option string).
Context (json_loads : string -> result value).

Lemma bind_ok {A B} (a : A) (f : A -> result B) : (Ok a ≫= f) = f a.
Proof. reflexivity. Qed.

Lemma fold_result_app {A B} (f : B -> A -> result B) (l1 l2 : list A) (acc : B) :
  fold_result f (l1 ++ l2) acc
  = (acc' ← fold_result f l1 acc; fold_result f l2 acc').
Proof.
  revert acc. induction l1 as [|x l1 IH]; intros acc; simpl.
  - reflexivity.
  - destruct (f acc x) as [acc'|e]; simpl; [apply IH|reflexivity].
Qed.

Lemma lift_ok {A B} (a : A) (f : A -> M B) (g : gateway) :
  (lift (Ok a) ≫= f) g = f a g.
Proof. reflexivity. Qed.

Lemma lift_err {A B} (e : exn) (f : A -> M B) (g : gateway) :
  (lift (Err e) ≫= f) g = Raise e g.
Proof. reflexivity. Qed.

Lemma select_params_unsupported (data : dict) (cmd : value) :
  dict_get "cmd" data = Some cmd ->
  cmd <> VStr "heartbeat" -> cmd <> VStr "report" -> cmd <> VStr "write_rsp" ->
  select_params data = Err TypeError.
Proof.
  intros Hcmd H1 H2 H3. unfold select_params. rewrite Hcmd. simpl.
  apply py_eq_str_false in H1, H2, H3. rewrite H1, H2, H3. reflexivity.
Qed.

(** C4: an envelope whose [cmd] is none of [heartbeat], [report] and
    [write_rsp] makes [process_message] raise (the exception of the
    [raise NotImplemented(...)] statement) and leaves the gateway, with its
    device registry, subscriber lists and recorded calls, as it was. *)
Theorem process_message_unsupported_cmd (data : dict) (cmd : value) (g : gateway) :
  dict_get "cmd" data = Some cmd ->
  cmd <> VStr "heartbeat" -> cmd <> VStr "report" -> cmd <> VStr "write_rsp" ->
  process_message GLOBAL_PROP get_device data g = Raise TypeError g.
Proof.
  intros Hcmd H1 H2 H3. unfold process_message.
  rewrite (select_params_unsupported data cmd Hcmd H1 H2 H3).
  apply lift_err.
Qed.

(** C5: a [heartbeat] whose parameter list does not have exactly one
    element fails the assertion, with the gateway untouched; with exactly
    one element [e], the message is processed as the parameters found
    under [res_list] in [e]. *)
Theorem process_message_heartbeat (data : dict) (ps : list value) (g : gateway) :
  dict_get "cmd" data = Some (VStr "heartbeat") ->
  dict_get "params" data = Some (VList ps) ->
  (length ps <> 1 ->
   process_message GLOBAL_PROP get_device data g = Raise AssertionError g) /\
  (forall e, ps = [e] ->
   process_message GLOBAL_PROP get_device data g
   = process_params GLOBAL_PROP get_device e "res_list" g).
Proof.
  intros Hcmd Hps. unfold process_message, select_params.
  rewrite Hcmd, Hps. simpl. split.
  - intros Hlen. apply Nat.eqb_neq in Hlen. rewrite Hlen. reflexivity.
  - intros e ->. reflexivity.
Qed.

(** C7: when the envelope is well formed (a dictionary and a key are
    selected, and the dictionary carries a device id) and nobody
    subscribed to that device id, [process_message] returns at once: no
    call is recorded and the gateway is the one it started from. *)
Theorem process_message_no_subscriber (data : dict) (sel : value)
  (pkey did : string) (g : gateway) :
  select_params data = Ok (sel, pkey) ->
  py_getitem sel "did" = Ok (VStr did) ->
  updates g !! did = None ->
  process_message GLOBAL_PROP get_device data g = Done tt g.
Proof.
  intros Hsel Hdid Hnone. unfold process_message. rewrite Hsel, lift_ok.
  unfold process_params. simpl fst. simpl snd. rewrite Hdid, lift_ok.
  unfold get_gateway at 1. unfold mbind at 1, M_bind at 1.
  unfold lookup_key. rewrite Hnone. reflexivity.
Qed.

(** The three commands are the only ones for which a dictionary and a key
    are selected. *)
Lemma select_params_ok (data : dict) (sel : value) (pkey : string) :
  select_params data = Ok (sel, pkey) ->
  (dict_get "cmd" data = Some (VStr "heartbeat") /\ pkey = "res_list" /\
   exists ps, dict_get "params" data = Some ps /\ py_len ps = Ok 1 /\
              py_index ps 0 = Ok sel) \/
  (dict_get "cmd" data = Some (VStr "report") /\ sel = VDict data /\
   pkey = (if dict_has "params" data then "params" else "mi_spec")) \/
  (dict_get "cmd" data = Some (VStr "write_rsp") /\ sel = VDict data /\
   pkey = "results").
Proof.
  unfold select_params.
  destruct (dict_get "cmd" data) as [cmd|] eqn:Hcmd; simpl; [|discriminate].
  destruct (py_eq_str cmd "heartbeat") eqn:Hh.
  - apply py_eq_str_true in Hh. subst cmd.
    destruct (dict_get "params" data) as [ps|]; simpl; [|discriminate].
    destruct (py_len ps) as [n|] eqn:Hn; simpl; [|discriminate].
    destruct (Nat.eqb_spec n 1) as [->|]; [|discriminate].
    destruct (py_index ps 0) as [d|] eqn:Hd; simpl; [|discriminate].
    intros [= <- <-]. left. eauto 8.
  - destruct (py_eq_str cmd "report") eqn:Hr.
    + apply py_eq_str_true in Hr. subst cmd. intros [= <- <-]. right. left. auto.
    + destruct (py_eq_str cmd "write_rsp") eqn:Hw; [|discriminate].
      apply py_eq_str_true in Hw. subst cmd. intros [= <- <-]. right. right. auto.
Qed.

(** ** Name resolution and the normalized update *)

Lemma find_wire_first (rows : list param_row) (s : string) (p : param_row) :
  find_wire rows s = Some p <-> first_wire rows s p.
Proof.
  unfold find_wire, first_wire. induction rows as [|q rows IH]; simpl.
  - split; [discriminate|]. intros (before & after & Heq & _).
    destruct before; discriminate.
  - destruct (String.eqb_spec (wire q) s) as [Hq|Hq].
    + split.
      * intros [= <-]. exists [], rows. auto.
      * intros (before & after & Heq & Hp & Hall).
        destruct before as [|q' before]; simpl in Heq; injection Heq as -> ?.
        -- reflexivity.
        -- inversion Hall; contradiction.
    + rewrite IH. split.
      * intros (before & after & -> & Hp & Hall).
        exists (q :: before), after. auto.
      * intros (before & after & Heq & Hp & Hall).
        destruct before as [|q' before]; simpl in Heq; injection Heq as -> ?.
        -- contradiction.
        -- inversion Hall; subst. eauto.
Qed.

Lemma find_wire_none (rows : list param_row) (s : string) :
  find_wire rows s = None <-> Forall (fun q => wire q <> s) rows.
Proof.
  unfold find_wire. induction rows as [|q rows IH]; simpl.
  - split; auto.
  - destruct (String.eqb_spec (wire q) s) as [Hq|Hq].
    + split; [discriminate|]. inversion 1; contradiction.
    + rewrite IH. split; [auto|]. inversion 1; assumption.
Qed.

(** The code resolves a wire name as the specification words it. *)
Lemma resolve_prop_canonical (d : device) (rows : list param_row) (s k : string) :
  dev_params d = Some rows ->
  resolve_prop GLOBAL_PROP d (VStr s) = Ok (VStr k) <->
  canonical GLOBAL_PROP rows s k.
Proof.
  intros Hrows. unfold resolve_prop, dev_rows. rewrite Hrows. simpl. split.
  - destruct (GLOBAL_PROP !! s) as [n|] eqn:Hg.
    + intros [= <-]. apply canonical_global, Hg.
    + destruct (find_wire rows s) as [p|] eqn:Hf; intros [= <-].
      * apply canonical_spec; [exact Hg|]. apply find_wire_first, Hf.
      * apply canonical_raw; [exact Hg|]. apply find_wire_none, Hf.
  - intros [k' Hg|p Hg Hp|Hg Hall]; rewrite Hg; [reflexivity| |].
    + apply find_wire_first in Hp. rewrite Hp. reflexivity.
    + apply find_wire_none in Hall. rewrite Hall. reflexivity.
Qed.

Lemma convert_param_accepted (d : device) (rows : list param_row)
  (payload p : dict) (s k : string) (v x : value) :
  dev_params d = Some rows -> accepted p ->
  param_prop p = Ok (VStr s) -> canonical GLOBAL_PROP rows s k ->
  dict_get "value" p = Some v -> fix_value (VStr k) v = Ok x ->
  convert_param GLOBAL_PROP d payload (VDict p) = Ok (dict_set k x payload).
Proof.
  intros Hrows Hacc Hprop Hcan Hv Hfix. unfold convert_param.
  rewrite Hacc, Hprop, bind_ok.
  apply (resolve_prop_canonical d rows s k Hrows) in Hcan.
  rewrite Hcan, bind_ok.
  unfold store_param. rewrite Hv. simpl. rewrite Hfix. reflexivity.
Qed.

Lemma convert_param_rejected (d : device) (payload p : dict) :
  ~ accepted p -> convert_param GLOBAL_PROP d payload (VDict p) = Ok payload.
Proof.
  unfold accepted, convert_param. intros Hacc.
  destruct (py_ne_0 _); [reflexivity|]. contradiction Hacc. reflexivity.
Qed.

(** The loop of lines 385-403 from an accumulated payload [acc]: which
    keys the result has, and where the value under a key comes from. *)
Lemma fold_convert_param (d : device) (rows : list param_row)
  (params : list value) :
  dev_params d = Some rows ->
  Forall (convertible GLOBAL_PROP rows) params ->
  forall acc, exists payload,
    fold_result (convert_param GLOBAL_PROP d) params acc = Ok payload /\
    (forall k, In k (dict_keys payload) <->
       In k (dict_keys acc) \/
       exists p s, In (VDict p) params /\ accepted p /\
                   param_prop p = Ok (VStr s) /\ canonical GLOBAL_PROP rows s k) /\
    (forall k y, dict_get k payload = Some y ->
       dict_get k acc = Some y \/
       exists p s v, In (VDict p) params /\ accepted p /\
                     param_prop p = Ok (VStr s) /\
                     canonical GLOBAL_PROP rows s k /\
                     dict_get "value" p = Some v /\ fix_value (VStr k) v = Ok y).
Proof.
  intros Hrows Hall. induction Hall as [|param params Hconv _ IH]; intros acc.
  - exists acc. simpl. split; [reflexivity|]. split.
    + intros k. split; [auto|]. intros [H|(p & s & [] & _)]. exact H.
    + auto.
  - destruct Hconv as (p & -> & Hconv). cbn [fold_result].
    destruct (py_ne_0 (default (VInt 0) (dict_get "error_code" p))) eqn:Herr.
    + rewrite convert_param_rejected by (unfold accepted; congruence).
      rewrite bind_ok.
      destruct (IH acc) as (payload & Hfold & Hkeys & Hvals).
      exists payload. split; [exact Hfold|]. split.
      * intros k. rewrite Hkeys. split.
        -- intros [H|(p' & s & Hin & H)]; [auto|]. right. exists p', s.
           split; [right; exact Hin|exact H].
        -- intros [H|(p' & s & [Heq|Hin] & Hacc & H)]; [auto| |].
           ++ injection Heq as <-. unfold accepted in Hacc. congruence.
           ++ right. exists p', s. auto.
      * intros k y Hy. destruct (Hvals k y Hy) as [H|(p' & s & v & Hin & H)].
        -- auto.
        -- right. exists p', s, v. split; [right; exact Hin|exact H].
    + destruct (Hconv Herr) as (s & k & v & x & Hprop & Hcan & Hv & Hfix).
      rewrite (convert_param_accepted d rows acc p s k v x) by assumption.
      rewrite bind_ok.
      destruct (IH (dict_set k x acc)) as (payload & Hfold & Hkeys & Hvals).
      exists payload. split; [exact Hfold|]. split.
      * intros k'. rewrite Hkeys, dict_keys_set. split.
        -- intros [[->|H]|(p' & s' & Hin & H)].
           ++ right. exists p, s. split; [left; reflexivity|auto].
           ++ auto.
           ++ right. exists p', s'. split; [right; exact Hin|exact H].
        -- intros [H|(p' & s' & [Heq|Hin] & Hacc & Hprop' & Hcan')]; [auto| |].
           ++ injection Heq as <-. left. left.
              rewrite Hprop in Hprop'. injection Hprop' as <-.
              apply (resolve_prop_canonical d rows s _ Hrows) in Hcan, Hcan'.
              congruence.
           ++ right. exists p', s'. auto.
      * intros k' y Hy.
        destruct (Hvals k' y Hy) as [H|(p' & s' & v' & Hin & H)].
        -- rewrite dict_get_set in H.
           destruct (String.eqb_spec k k') as [<-|Hne]; [|auto].
           injection H as <-. right. exists p, s, v.
           split; [left; reflexivity|auto 6].
        -- right. exists p', s', v'. split; [right; exact Hin|exact H].
Qed.

Lemma for_each_emit (handlers : list handler) (payload : dict) (g : gateway) :
  for_each (fun h => emit (Update h payload)) handlers g
  = Done tt (dispatched handlers payload g).
Proof.
  revert g. induction handlers as [|h handlers IH]; intros g.
  - destruct g. unfold dispatched. simpl. rewrite app_nil_r. reflexivity.
  - simpl. unfold mbind at 1, M_bind at 1. unfold emit at 1. rewrite IH.
    unfold dispatched. simpl. rewrite <- app_assoc. reflexivity.
Qed.

(** What [process_message] does for a subscribed device whose entries are
    all convertible: it builds one payload, hands it to every subscriber
    in turn, and goes on to the [added_device] step. *)
Lemma process_message_dispatch (data : dict) (sel : value) (pkey did : string)
  (handlers : list handler) (d : device) (rows : list param_row)
  (params : list value) (g : gateway) :
  select_params data = Ok (sel, pkey) ->
  py_getitem sel "did" = Ok (VStr did) ->
  updates g !! did = Some handlers ->
  devices g !! did = Some d ->
  dev_params d = Some rows ->
  is_Some (dict_get "did" (dev_items d)) ->
  is_Some (dict_get "model" (dev_items d)) ->
  py_getitem sel pkey = Ok (VList params) ->
  Forall (convertible GLOBAL_PROP rows) params ->
  exists payload,
    process_message GLOBAL_PROP get_device data g
    = setup_added_device get_device payload (dispatched handlers payload g) /\
    (forall k, In k (dict_keys payload) <->
       exists p s, In (VDict p) params /\ accepted p /\
                   param_prop p = Ok (VStr s) /\ canonical GLOBAL_PROP rows s k) /\
    (forall k y, dict_get k payload = Some y ->
       exists p s v, In (VDict p) params /\ accepted p /\
                     param_prop p = Ok (VStr s) /\
                     canonical GLOBAL_PROP rows s k /\
                     dict_get "value" p = Some v /\ fix_value (VStr k) v = Ok y).
Proof.
  intros Hsel Hdid Hsub Hdev Hrows [xd Hxd] [xm Hxm] Hparams Hall.
  destruct (fold_convert_param d rows params Hrows Hall [])
    as (payload & Hfold & Hkeys & Hvals).
  exists payload. split; [|split].
  - unfold process_message. rewrite Hsel, lift_ok.
    unfold process_params. simpl fst. simpl snd. rewrite Hdid, lift_ok.
    unfold get_gateway at 1. unfold mbind at 1, M_bind at 1.
    unfold lookup_key. rewrite Hsub, lift_ok, Hdev. simpl of_option.
    rewrite lift_ok, Hparams, bind_ok. simpl py_iter. rewrite lift_ok.
    rewrite Hfold, lift_ok. unfold dev_get. rewrite Hxd, Hxm. simpl of_option.
    rewrite !lift_ok.
    unfold mbind at 1, M_bind at 1. rewrite for_each_emit. reflexivity.
  - intros k. rewrite Hkeys. split; [intros [[]|H]; exact H|intros H; right; exact H].
  - intros k y Hy. destruct (Hvals k y Hy) as [H|H]; [discriminate H|exact H].
Qed.

Lemma canonical_functional (rows : list param_row) (s k k' : string) :
  canonical GLOBAL_PROP rows s k -> canonical GLOBAL_PROP rows s k' -> k = k'.
Proof.
  intros H H'.
  pose (d := {| dev_items := []; dev_params := Some rows |}).
  apply (resolve_prop_canonical d rows s _ eq_refl) in H, H'. congruence.
Qed.

(** Entries that resolve to other names leave the value under [k] alone. *)
Lemma fold_convert_param_keeps (d : device) (rows : list param_row) (k : string)
  (params : list value) :
  dev_params d = Some rows ->
  Forall (convertible GLOBAL_PROP rows) params ->
  Forall (fun q => ~ resolves_to GLOBAL_PROP rows k q) params ->
  forall acc, exists payload,
    fold_result (convert_param GLOBAL_PROP d) params acc = Ok payload /\
    dict_get k payload = dict_get k acc.
Proof.
  intros Hrows Hall. induction Hall as [|param params Hconv _ IH];
    intros Hno acc.
  - exists acc. split; reflexivity.
  - inversion Hno as [|? ? Hq Hno']; subst.
    destruct Hconv as (p & -> & Hconv). cbn [fold_result].
    destruct (py_ne_0 (default (VInt 0) (dict_get "error_code" p))) eqn:Herr.
    + rewrite convert_param_rejected by (unfold accepted; congruence).
      rewrite bind_ok. apply IH, Hno'.
    + destruct (Hconv Herr) as (s & k' & v & x & Hprop & Hcan & Hv & Hfix).
      rewrite (convert_param_accepted d rows acc p s k' v x) by assumption.
      rewrite bind_ok.
      destruct (IH Hno' (dict_set k' x acc)) as (payload & Hfold & Hget).
      exists payload. split; [exact Hfold|]. rewrite Hget, dict_get_set.
      destruct (String.eqb_spec k' k) as [->|Hne]; [|reflexivity].
      contradiction Hq. exists p, s. auto.
Qed.

(** The value under [k] is the fixed-up value of the last accepted entry
    that resolves to [k]. *)
Lemma fold_convert_param_last (d : device) (rows : list param_row)
  (before after : list value) (p : dict) (s k : string) (v : value) :
  dev_params d = Some rows ->
  Forall (convertible GLOBAL_PROP rows) (before ++ VDict p :: after) ->
  accepted p -> param_prop p = Ok (VStr s) ->
  canonical GLOBAL_PROP rows s k ->
  dict_get "value" p = Some v ->
  Forall (fun q => ~ resolves_to GLOBAL_PROP rows k q) after ->
  forall acc, exists payload x,
    fold_result (convert_param GLOBAL_PROP d) (before ++ VDict p :: after) acc
    = Ok payload /\
    fix_value (VStr k) v = Ok x /\ dict_get k payload = Some x.
Proof.
  intros Hrows Hall Hacc Hprop Hcan Hv Hno acc.
  apply Forall_app in Hall as [Hb Hrest].
  inversion Hrest as [|? ? Hp Ha]; subst.
  destruct (fold_convert_param d rows before Hrows Hb acc)
    as (acc1 & Hfold1 & _).
  destruct Hp as (p' & Heq & Hconv). injection Heq as <-.
  destruct (Hconv Hacc) as (s' & k' & v' & x & Hprop' & Hcan' & Hv' & Hfix).
  rewrite Hprop in Hprop'. injection Hprop' as <-.
  rewrite Hv in Hv'. injection Hv' as <-.
  pose proof (canonical_functional rows s k k' Hcan Hcan') as <-.
  destruct (fold_convert_param_keeps d rows k after Hrows Ha Hno
              (dict_set k x acc1)) as (payload & Hfold2 & Hget).
  exists payload, x. split; [|split; [exact Hfix|]].
  - rewrite fold_result_app, Hfold1, bind_ok. cbn [fold_result].
    rewrite (convert_param_accepted d rows acc1 p s k v x) by assumption.
    rewrite bind_ok. exact Hfold2.
  - rewrite Hget, dict_get_set, String.eqb_refl. reflexivity.
Qed.

(** [process_message] for a subscribed device of the registry, once the
    loop of lines 385-403 has built the payload. *)
Lemma process_message_run (data : dict) (sel : value) (pkey did : string)
  (handlers : list handler) (d : device) (params : list value)
  (payload : dict) (g : gateway) :
  select_params data = Ok (sel, pkey) ->
  py_getitem sel "did" = Ok (VStr did) ->
  updates g !! did = Some handlers ->
  devices g !! did = Some d ->
  is_Some (dict_get "did" (dev_items d)) ->
  is_Some (dict_get "model" (dev_items d)) ->
  py_getitem sel pkey = Ok (VList params) ->
  fold_result (convert_param GLOBAL_PROP d) params [] = Ok payload ->
  process_message GLOBAL_PROP get_device data g
  = setup_added_device get_device payload (dispatched handlers payload g).
Proof.
  intros Hsel Hdid Hsub Hdev [xd Hxd] [xm Hxm] Hparams Hfold.
  unfold process_message. rewrite Hsel, lift_ok.
  unfold process_params. simpl fst. simpl snd. rewrite Hdid, lift_ok.
  unfold get_gateway at 1. unfold mbind at 1, M_bind at 1.
  unfold lookup_key. rewrite Hsub, lift_ok, Hdev. simpl of_option.
  rewrite lift_ok, Hparams, bind_ok. simpl py_iter. rewrite lift_ok.
  rewrite Hfold, lift_ok. unfold dev_get. rewrite Hxd, Hxm. simpl of_option.
  rewrite !lift_ok.
  unfold mbind at 1, M_bind at 1. rewrite for_each_emit. reflexivity.
Qed.

(** [v / 100.0] is the division of the double that [v] is by the double
    100. *)
Lemma py_div_100_double (v y : value) :
  py_div_100 v = Ok y <->
  exists f, as_double v f /\ y = VFloat (PrimFloat.div f (small_float 100)).
Proof.
  split.
  - destruct v as [|b|z|f| | |]; simpl; try discriminate.
    + intros [= <-]. eexists. split; [constructor|reflexivity].
    + destruct (float_of_Z z) as [f|] eqn:Hf; [|discriminate].
      rewrite bind_ok. intros [= <-]. exists f. split; [constructor; exact Hf|].
      reflexivity.
    + intros [= <-]. eexists. split; [constructor|reflexivity].
  - intros (f & Hf & ->). destruct Hf as [z f Hz|f|b]; simpl.
    + rewrite Hz. reflexivity.
    + reflexivity.
    + reflexivity.
Qed.

Lemma fix_value_div_100 (k : string) (v : value) :
  k = "temperature" \/ k = "humidity" ->
  fix_value (VStr k) v = py_div_100 v.
Proof. intros [-> | ->]; reflexivity. Qed.

(** C2: for a heartbeat, report or write_rsp whose device has subscribers,
    a registry entry and convertible entries, every subscriber is called,
    in registration order, with one payload; its keys are exactly the
    canonical names of the entries with a zero or absent error code
    (global table first, then the device's wire names, else the raw wire
    name).  A value under [temperature] or [humidity] is the double of the
    raw value of such an entry divided by the double 100, and the entry is
    the last one of the message that resolves to the name. *)
Theorem process_message_normalized (data : dict) (sel : value)
  (pkey did : string) (handlers : list handler) (d : device)
  (rows : list param_row) (params : list value) (g : gateway) :
  select_params data = Ok (sel, pkey) ->
  py_getitem sel "did" = Ok (VStr did) ->
  updates g !! did = Some handlers ->
  devices g !! did = Some d ->
  dev_params d = Some rows ->
  is_Some (dict_get "did" (dev_items d)) ->
  is_Some (dict_get "model" (dev_items d)) ->
  py_getitem sel pkey = Ok (VList params) ->
  Forall (convertible GLOBAL_PROP rows) params ->
  exists payload,
    process_message GLOBAL_PROP get_device data g
    = setup_added_device get_device payload (dispatched handlers payload g) /\
    (forall k, In k (dict_keys payload) <->
       exists p s, In (VDict p) params /\ accepted p /\
                   param_prop p = Ok (VStr s) /\ canonical GLOBAL_PROP rows s k) /\
    (forall k y, k = "temperature" \/ k = "humidity" ->
       dict_get k payload = Some y ->
       exists p s v f, In (VDict p) params /\ accepted p /\
                       param_prop p = Ok (VStr s) /\
                       canonical GLOBAL_PROP rows s k /\
                       dict_get "value" p = Some v /\ as_double v f /\
                       y = VFloat (PrimFloat.div f (small_float 100))) /\
    (forall before p after s k v,
       params = (before ++ VDict p :: after)%list ->
       accepted p -> param_prop p = Ok (VStr s) ->
       canonical GLOBAL_PROP rows s k ->
       dict_get "value" p = Some v ->
       Forall (fun q => ~ resolves_to GLOBAL_PROP rows k q) after ->
       k = "temperature" \/ k = "humidity" ->
       exists f, as_double v f /\
                 dict_get k payload
                 = Some (VFloat (PrimFloat.div f (small_float 100)))).
Proof.
  intros Hsel Hdid Hsub Hdev Hrows Hxd Hxm Hparams Hall.
  destruct (fold_convert_param d rows params Hrows Hall [])
    as (payload & Hfold & Hkeys & Hvals).
  exists payload. split; [|split; [|split]].
  - exact (process_message_run data sel pkey did handlers d params payload g
             Hsel Hdid Hsub Hdev Hxd Hxm Hparams Hfold).
  - intros k. rewrite Hkeys.
    split; [intros [[]|H]; exact H|intros H; right; exact H].
  - intros k y Hk Hy.
    destruct (Hvals k y Hy)
      as [H|(p & s & v & Hin & Hacc & Hprop & Hcan & Hv & Hfix)];
      [discriminate H|].
    rewrite (fix_value_div_100 k v Hk) in Hfix.
    apply py_div_100_double in Hfix as (f & Hf & ->).
    exists p, s, v, f. auto 8.
  - intros before p after s k v -> Hacc Hprop Hcan Hv Hno Hk.
    destruct (fold_convert_param_last d rows before after p s k v
                Hrows Hall Hacc Hprop Hcan Hv Hno [])
      as (payload' & x & Hfold' & Hfix & Hget).
    rewrite Hfold in Hfold'. injection Hfold' as <-.
    rewrite (fix_value_div_100 k v Hk) in Hfix.
    apply py_div_100_double in Hfix as (f & Hf & ->).
    exists f. split; [exact Hf|exact Hget].
Qed.


(** ** The fixup of boolean-like strings *)

Lemma fix_retained_on_off (k : string) (v : value) :
  k <> "temperature" -> k <> "humidity" ->
  (v = VStr "on" \/ v = VStr "open" -> fix_retained k v = Ok (VInt 1)) /\
  (v = VStr "off" \/ v = VStr "close" -> fix_retained k v = Ok (VInt 0)).
Proof.
  intros Ht Hh. unfold fix_retained.
  apply String.eqb_neq in Ht, Hh. rewrite Ht, Hh.
  split; intros [-> | ->]; reflexivity.
Qed.

(** The dictionary of lines 225-229: rows without a hub key, and rows of
    other names, leave the value under [n] alone. *)
Lemma retained_fold_keeps (retain : dict) (n : string) (rows : list param_row) :
  Forall (fun q => hub_key q = None \/ name q <> n) rows ->
  forall acc, exists params,
    fold_result
      (fun acc p =>
         match hub_key p with
         | None => Ok acc
         | Some k => v ← py_get (VDict retain) k; Ok (dict_set (name p) v acc)
         end) rows acc = Ok params /\
    dict_get n params = dict_get n acc.
Proof.
  induction 1 as [|q rows Hq _ IH]; intros acc.
  - exists acc. split; reflexivity.
  - cbn [fold_result]. destruct (hub_key q) as [kq|] eqn:Hk.
    + simpl py_get. rewrite !bind_ok.
      destruct (IH (dict_set (name q) (default VNone (dict_get kq retain)) acc))
        as (params & Hfold & Hget).
      exists params. split; [exact Hfold|]. rewrite Hget, dict_get_set.
      destruct (String.eqb_spec (name q) n) as [Hn|Hn]; [|reflexivity].
      destruct Hq as [Hq|Hq]; [discriminate Hq|contradiction].
    + rewrite bind_ok. apply IH.
Qed.

Lemma retained_fold_total (retain : dict) (rows : list param_row) :
  forall acc, exists params,
    fold_result
      (fun acc p =>
         match hub_key p with
         | None => Ok acc
         | Some k => v ← py_get (VDict retain) k; Ok (dict_set (name p) v acc)
         end) rows acc = Ok params.
Proof.
  induction rows as [|q rows IH]; intros acc.
  - exists acc. reflexivity.
  - cbn [fold_result]. destruct (hub_key q) as [kq|].
    + simpl py_get. rewrite !bind_ok. apply IH.
    + rewrite bind_ok. apply IH.
Qed.

(** The value retained under a name is the one the blob holds under the hub
    key of the last row of that name that has a hub key. *)
Lemma retained_params_last (retain : dict) (before after : list param_row)
  (p : param_row) (hk : string) :
  hub_key p = Some hk ->
  Forall (fun q => hub_key q = None \/ name q <> name p) after ->
  exists params,
    retained_params (before ++ p :: after) (VDict retain) = Ok params /\
    dict_get (name p) params = Some (default VNone (dict_get hk retain)).
Proof.
  intros Hk Hafter. unfold retained_params. rewrite fold_result_app.
  destruct (retained_fold_total retain before []) as (acc & Hacc).
  rewrite Hacc, bind_ok. cbn [fold_result]. rewrite Hk. simpl py_get.
  rewrite !bind_ok.
  destruct (retained_fold_keeps retain (name p) after Hafter
              (dict_set (name p) (default VNone (dict_get hk retain)) acc))
    as (params & Hfold & Hget).
  exists params. split; [exact Hfold|].
  rewrite Hget, dict_get_set, String.eqb_refl. reflexivity.
Qed.

(** The fixup loop of lines 232-240 replaces the value under each name by
    its fixed value. *)
Lemma fix_params_get (params init : dict) (n : string) (v : value) :
  fix_params params = Ok init ->
  dict_get n params = Some v ->
  exists v', fix_retained n v = Ok v' /\ dict_get n init = Some v'.
Proof.
  unfold fix_params. revert init.
  induction params as [|[k0 v0] params IH]; intros init Hfix Hget.
  - discriminate Hget.
  - cbn [map_result fst snd] in Hfix.
    destruct (fix_retained k0 v0) as [v0'|] eqn:H0; [|discriminate Hfix].
    rewrite bind_ok in Hfix.
    destruct (map_result _ params) as [init'|] eqn:Hrest; [|discriminate Hfix].
    rewrite !bind_ok in Hfix. injection Hfix as <-.
    simpl in Hget |- *.
    destruct (String.eqb_spec k0 n) as [->|Hne].
    + injection Hget as <-. eauto.
    + exact (IH init' eq_refl Hget).
Qed.

(** C3, as the code has it.  Database discovery applies the fixup of
    boolean-like strings: when the catalog's descriptor of a device's model
    has a row with a hub key and a name other than [temperature] and
    [humidity], no later row with a hub key bears that name, and the
    device's [.prop] blob holds [on] or [open] ([off] or [close]) under the
    hub key, then the device that discovery builds has 1 (0) under the
    name in its initial values.  [process_message] applies no such fixup:
    under a name other than [temperature], [humidity] and [battery] it
    stores the raw value as it came. *)
Theorem boolean_strings_fixup :
  (forall (data : gmap string string) (sdid model prop : string)
          (desc : descriptor) (j : value) (retain : dict)
          (before after : list param_row) (p : param_row) (hk : string)
          (v : value) (dev : device),
      data !! (sdid ++ ".model") = Some model ->
      get_device (VStr model) = Some desc ->
      data !! (sdid ++ ".prop") = Some prop ->
      json_loads prop = Ok j ->
      py_getitem j "props" = Ok (VDict retain) ->
      desc_params desc = (before ++ p :: after)%list ->
      hub_key p = Some hk ->
      name p <> "temperature" -> name p <> "humidity" ->
      Forall (fun q => hub_key q = None \/ name q <> name p) after ->
      dict_get hk retain = Some v ->
      v3_device get_device json_loads data (VStr sdid) = Ok (Some dev) ->
      exists init,
        dev_get dev "init" = Ok (VDict init) /\
        (v = VStr "on" \/ v = VStr "open" ->
         dict_get (name p) init = Some (VInt 1)) /\
        (v = VStr "off" \/ v = VStr "close" ->
         dict_get (name p) init = Some (VInt 0))) /\
  (forall (payload p : dict) (prop : string) (v : value),
      dict_get "value" p = Some v ->
      prop <> "temperature" -> prop <> "humidity" -> prop <> "battery" ->
      store_param payload (VStr prop) p = Ok (dict_set prop v payload)).
Proof.
  split.
  - intros data sdid model prop desc j retain before after p hk v dev
      Hmodel Hdesc Hprop Hj Hprops Hrows Hk Ht Hh Hafter Hv.
    unfold v3_device. rewrite bind_ok, Hmodel. simpl of_option.
    rewrite bind_ok, Hdesc, Hprop. simpl of_option.
    rewrite bind_ok, Hj, bind_ok, Hprops, bind_ok, Hrows.
    destruct (retained_params_last retain before after p hk Hk Hafter)
      as (params & Hparams & Hget).
    rewrite Hparams, bind_ok. rewrite Hv in Hget. simpl default in Hget.
    destruct (fix_params params) as [init|] eqn:Hfix; [|discriminate].
    rewrite bind_ok.
    destruct (data !! (sdid ++ ".mac")) as [mac|]; [|discriminate].
    simpl of_option. rewrite bind_ok.
    destruct (data !! (sdid ++ ".version")) as [ver|]; [|discriminate].
    simpl of_option. rewrite bind_ok.
    intros [= <-]. exists init. split; [reflexivity|].
    destruct (fix_params_get params init (name p) v Hfix Hget)
      as (v' & Hv' & Hinit).
    destruct (fix_retained_on_off (name p) v Ht Hh) as [Hon Hoff].
    split; intros Hcase; rewrite Hinit; f_equal.
    + rewrite (Hon Hcase) in Hv'. congruence.
    + rewrite (Hoff Hcase) in Hv'. congruence.
  - intros payload p prop v Hv Ht Hh Hb. unfold store_param, fix_value.
    rewrite Hv. simpl of_option. rewrite bind_ok.
    unfold py_in_pair, py_eq_str.
    apply String.eqb_neq in Ht, Hh, Hb. rewrite Ht, Hh, Hb. reflexivity.
Qed.

(** ** Outbound commands and inbound names *)

Lemma find_name_some (rows : list param_row) (x : string) :
  In x (map name rows) ->
  exists p, find_name rows x = Some p /\ In p rows /\ name p = x.
Proof.
  intros Hin. unfold find_name.
  destruct (List.find _ rows) as [p|] eqn:Hf.
  - apply List.find_some in Hf as [Hp Hx]. apply String.eqb_eq in Hx. eauto.
  - apply in_map_iff in Hin as (q & Hq & Hin).
    pose proof (List.find_none _ _ Hf q Hin) as Hno. simpl in Hno.
    apply String.eqb_neq in Hno. contradiction.
Qed.

Lemma find_name_first (rows : list param_row) (x : string) (p : param_row) :
  find_name rows x = Some p <-> first_name rows x p.
Proof.
  unfold find_name, first_name. induction rows as [|q rows IH]; simpl.
  - split; [discriminate|]. intros (before & after & Heq & _).
    destruct before; discriminate.
  - destruct (String.eqb_spec (name q) x) as [Hq|Hq].
    + split.
      * intros [= <-]. exists [], rows. auto.
      * intros (before & after & Heq & Hp & Hall).
        destruct before as [|q' before]; simpl in Heq; injection Heq as -> ?.
        -- reflexivity.
        -- inversion Hall; contradiction.
    + rewrite IH. split.
      * intros (before & after & -> & Hp & Hall).
        exists (q :: before), after. auto.
      * intros (before & after & Heq & Hp & Hall).
        destruct before as [|q' before]; simpl in Heq; injection Heq as -> ?.
        -- contradiction.
        -- inversion Hall; subst. eauto.
Qed.

(** C6, as the code has it: [send] for a canonical name [x] of the
    device's parameterSpec publishes a write command under the wire name
    of the first row named [x].  An inbound parameter carrying that wire
    name always resolves to a name, and the name is [x] exactly when the
    global table maps the wire name to [x], or does not hold the wire name
    and the first row carrying it is named [x]. *)
Theorem send_resolve_round_trip (d : device) (rows : list param_row)
  (x : string) (v did model : value) (g : gateway) :
  dev_params d = Some rows ->
  In x (map name rows) ->
  dict_get "did" (dev_items d) = Some did ->
  dict_get "model" (dev_items d) = Some model ->
  exists p,
    first_name rows x p /\
    send d x v g
    = Done tt (recorded (Publish "zigbee/recv" (write_command did (wire p) v)) g) /\
    forall param, dict_get "res_name" param = Some (VStr (wire p)) ->
      exists k,
        (param_prop param ≫= resolve_prop GLOBAL_PROP d) = Ok (VStr k) /\
        canonical GLOBAL_PROP rows (wire p) k /\
        (k = x <->
         GLOBAL_PROP !! wire p = Some x \/
         (GLOBAL_PROP !! wire p = None /\
          exists q, first_wire rows (wire p) q /\ name q = x)).
Proof.
  intros Hrows Hin Hdid Hmodel.
  destruct (find_name_some rows x Hin) as (p & Hfind & Hp & Hx).
  exists p. split; [apply find_name_first, Hfind|]. split.
  - unfold send, send_prop, dev_rows, dev_get.
    rewrite Hrows, Hdid, Hmodel. simpl of_option. rewrite bind_ok, Hfind.
    reflexivity.
  - intros param Hname. unfold param_prop. rewrite Hname, bind_ok.
    assert (Hres : exists k,
               resolve_prop GLOBAL_PROP d (VStr (wire p)) = Ok (VStr k) /\
               (k = x <->
                GLOBAL_PROP !! wire p = Some x \/
                (GLOBAL_PROP !! wire p = None /\
                 exists q, first_wire rows (wire p) q /\ name q = x))).
    { unfold resolve_prop, dev_rows. rewrite Hrows. simpl of_option.
      destruct (GLOBAL_PROP !! wire p) as [n|] eqn:Hg.
      - exists n. split; [reflexivity|]. split.
        + intros ->. left. reflexivity.
        + intros [[= ->]|[Hnone _]]; [reflexivity|discriminate Hnone].
      - rewrite bind_ok.
        destruct (find_wire rows (wire p)) as [q|] eqn:Hq.
        + exists (name q). split; [reflexivity|]. split.
          * intros Hqx. right. split; [reflexivity|].
            exists q. split; [apply find_wire_first, Hq|exact Hqx].
          * intros [Hsome|[_ (q' & Hq' & Hqx)]]; [discriminate Hsome|].
            apply find_wire_first in Hq'. congruence.
        + pose proof (List.find_none _ _ Hq p Hp) as Hno. simpl in Hno.
          rewrite String.eqb_refl in Hno. discriminate Hno. }
    destruct Hres as (k & Hk & Hiff). exists k.
    split; [exact Hk|]. split; [|exact Hiff].
    apply (resolve_prop_canonical d rows (wire p) k Hrows), Hk.
Qed.

(** ** Paginated discovery *)

Lemma read_pages_requests (io : miio_io) (n k : nat) (devs : list (num_key * dict)) :
  k <= fst (read_pages io n k devs) <= k + n.
Proof.
  revert k devs. induction n as [|n IH]; intros k devs; simpl.
  - lia.
  - destruct (get_device_list io k) as [part|e]; simpl; [|lia].
    destruct (read_part part devs) as [[[devs' [|]]|]|e]; simpl; try lia.
    specialize (IH (S k) devs'). lia.
Qed.

Lemma read_pages_never_matching (io : miio_io) :
  (forall k devs, exists part devs',
      get_device_list io k = Ok part /\
      read_part part devs = Ok (Some (devs', false))) ->
  forall n k devs,
    fst (read_pages io n k devs) = k + n /\
    exists devs', snd (read_pages io n k devs) = Ok (Collected devs').
Proof.
  intros Hnever. induction n as [|n IH]; intros k devs; simpl.
  - split; [lia|eauto].
  - destruct (Hnever k devs) as (part & devs' & -> & ->).
    destruct (IH (S k) devs') as [Hfst Hsnd]. split; [lia|exact Hsnd].
Qed.

(** C8: whatever the hub answers, the loop of [_get_devices_v1] makes at
    most 16 [get_device_list] requests; when no part is empty or failing
    and the reported total never equals the number of devices collected,
    it makes exactly 16 and then leaves the loop with what it collected. *)
Theorem read_pages_at_most_16 (io : miio_io) :
  fst (read_pages io 16 0 []) <= 16 /\
  ((forall k devs, exists part devs',
       get_device_list io k = Ok part /\
       read_part part devs = Ok (Some (devs', false))) ->
   fst (read_pages io 16 0 []) = 16 /\
   exists devs, snd (read_pages io 16 0 []) = Ok (Collected devs)).
Proof.
  split.
  - pose proof (read_pages_requests io 16 0 []). lia.
  - intros Hnever. apply (read_pages_never_matching io Hnever 16 0 []).
Qed.

(** ** The registry only grows *)

Lemma keeps_ret {A} (a : A) : keeps_devices (mret a).
Proof. intros g. reflexivity. Qed.

Lemma keeps_lift {A} (r : result A) : keeps_devices (lift r).
Proof. intros g. destruct r; reflexivity. Qed.

Lemma keeps_bind {A B} (m : M A) (f : A -> M B) :
  keeps_devices m -> (forall a, keeps_devices (f a)) -> keeps_devices (m ≫= f).
Proof.
  intros Hm Hf g. specialize (Hm g). unfold mbind, M_bind.
  destruct (m g) as [a g'|e g'|g']; simpl in *; [|exact Hm|exact Hm].
  etransitivity; [exact Hm|apply Hf].
Qed.

Lemma keeps_get : keeps_devices get_gateway.
Proof. intros g. reflexivity. Qed.

Lemma keeps_emit (e : event) : keeps_devices (emit e).
Proof. intros g. reflexivity. Qed.

Lemma keeps_wait (dom : string) : keeps_devices (wait_setup dom).
Proof. intros g. unfold wait_setup. destruct (setups g !! dom); reflexivity. Qed.

Lemma keeps_store (did : string) (d : device) : keeps_devices (store_device did d).
Proof. intros g. simpl. rewrite dom_insert_L. set_solver. Qed.

Lemma keeps_for_each {A} (body : A -> M unit) (l : list A) :
  (forall x, keeps_devices (body x)) -> keeps_devices (for_each body l).
Proof.
  intros Hbody. induction l as [|x l IH]; simpl.
  - apply keeps_ret.
  - apply keeps_bind; [apply Hbody|intros _; exact IH].
Qed.

Ltac keeps_step :=
  match goal with
  | |- keeps_devices (mbind _ _) => apply keeps_bind; [|intros ?]
  | |- keeps_devices (mret _) => apply keeps_ret
  | |- keeps_devices (lift _) => apply keeps_lift
  | |- keeps_devices get_gateway => apply keeps_get
  | |- keeps_devices (emit _) => apply keeps_emit
  | |- keeps_devices (wait_setup _) => apply keeps_wait
  | |- keeps_devices (store_device _ _) => apply keeps_store
  | |- keeps_devices (for_each _ _) => apply keeps_for_each; intros ?
  | |- keeps_devices (match ?x with _ => _ end) => destruct x
  | |- keeps_devices (let _ := _ in _) => cbv zeta
  end.

Lemma keeps_setup_devices (ds : list device) :
  keeps_devices (setup_devices get_device ds).
Proof.
  unfold setup_devices. apply keeps_for_each. intros d.
  unfold setup_device, setup_param. repeat keeps_step.
Qed.

Lemma keeps_process_message (data : dict) :
  keeps_devices (process_message GLOBAL_PROP get_device data).
Proof.
  unfold process_message, process_params, setup_added_device.
  repeat first [apply keeps_setup_devices | keeps_step].
Qed.

Lemma keeps_ble_init (did : string) (payload : dict) (keys : list string)
  (d : device) :
  keeps_devices (ble_init get_ble_domain did payload keys d).
Proof.
  revert d. induction keys as [|k keys IH]; intros d; simpl.
  - apply keeps_ret.
  - repeat first [apply IH | keeps_step].
Qed.

Lemma keeps_process_bluetooth (raw : string) :
  keeps_devices
    (process_bluetooth parse_xiaomi_ble get_ble_domain json_loads raw).
Proof.
  unfold process_bluetooth, ble_device.
  repeat first [apply keeps_ble_init | keeps_step].
Qed.

Lemma keeps_send (d : device) (param : string) (v : value) :
  keeps_devices (send d param v).
Proof. unfold send. repeat keeps_step. Qed.

(** C9: whichever way [setup_devices], [process_message],
    [process_bluetooth] and [send] end (by returning, by raising, or
    waiting for a setup function), every device id mapped in the registry
    before the call is still mapped after it. *)
Theorem registry_retention (ds : list device) (data : dict) (raw : string)
  (d : device) (param : string) (v : value) (g : gateway) (did : string) :
  did ∈ dom (devices g) ->
  did ∈ dom (devices (final (setup_devices get_device ds g))) /\
  did ∈ dom (devices (final (process_message GLOBAL_PROP get_device data g))) /\
  did ∈ dom (devices (final (process_bluetooth parse_xiaomi_ble get_ble_domain
                               json_loads raw g))) /\
  did ∈ dom (devices (final (send d param v g))).
Proof.
  intros Hin. repeat split.
  - apply (keeps_setup_devices ds g), Hin.
  - apply (keeps_process_message data g), Hin.
  - apply (keeps_process_bluetooth raw g), Hin.
  - apply (keeps_send d param v g), Hin.
Qed.

(** ** Database discovery with a value missing *)


(** The dictionary of lines 225-229 holds [None] for a name all of whose
    hub keys are missing from the retained values. *)
Lemma retained_params_none (retain : dict) (n : string) (rows : list param_row) :
  (forall p k, In p rows -> name p = n -> hub_key p = Some k ->
               dict_get k retain = None) ->
  forall acc,
    dict_get n acc = Some VNone \/
    (exists p k, In p rows /\ name p = n /\ hub_key p = Some k) ->
    exists params,
      fold_result
        (fun acc p =>
           match hub_key p with
           | None => Ok acc
           | Some k => v ← py_get (VDict retain) k; Ok (dict_set (name p) v acc)
           end) rows acc = Ok params /\
      dict_get n params = Some VNone.
Proof.
  induction rows as [|q rows IH]; intros Hmiss acc Hacc.
  - simpl. exists acc. split; [reflexivity|].
    destruct Hacc as [H|(p & k & [] & _)]. exact H.
  - cbn [fold_result].
    assert (Hrest : forall p k, In p rows -> name p = n ->
                      hub_key p = Some k -> dict_get k retain = None)
      by (intros p k Hp; apply Hmiss; right; exact Hp).
    destruct (hub_key q) as [kq|] eqn:Hq.
    + simpl py_get. rewrite !bind_ok. apply (IH Hrest).
      rewrite dict_get_set.
      destruct (String.eqb_spec (name q) n) as [Hn|Hn].
      * left. rewrite (Hmiss q kq (or_introl eq_refl) Hn Hq). reflexivity.
      * destruct Hacc as [H|(p & k & [<-|Hp] & Hpn & Hpk)];
          [left; exact H|contradiction|right; eauto].
    + rewrite bind_ok. apply (IH Hrest).
      destruct Hacc as [H|(p & k & [<-|Hp] & Hpn & Hpk)];
        [left; exact H|congruence|right; eauto].
Qed.

Lemma fix_params_none (params : dict) (n : string) :
  n = "temperature" \/ n = "humidity" ->
  dict_get n params = Some VNone ->
  exists e, fix_params params = Err e.
Proof.
  intros Hn. unfold fix_params.
  induction params as [|[k v] params IH]; simpl; [discriminate|].
  destruct (String.eqb_spec k n) as [->|Hne].
  - intros [= ->]. exists TypeError.
    unfold fix_retained. destruct Hn as [-> | ->]; reflexivity.
  - intros Hget. destruct (fix_retained k v) as [v'|e]; simpl; [|eauto].
    destruct (IH Hget) as [e He]. rewrite He. eauto.
Qed.

(** C10: when a device of [dev_list] has a model of the catalog, and the
    catalog lists for it a [temperature] or [humidity] parameter with a hub
    key, and no hub key under that name has a value in the device's
    [.prop] blob, then database discovery returns [None]: the division of
    [None] by 100 raises, and the handler around the whole method turns
    that into no device list at all. *)
Theorem get_devices_v3_missing_value (io : telnet_io)
  (data : gmap string string) (dev_list did model prop : string)
  (dids : list value) (desc : descriptor) (j : value) (retain : dict)
  (p : param_row) (k : string) :
  zigbee_gw_db io = Ok data ->
  data !! "dev_list" = Some dev_list ->
  (json_loads dev_list ≫= py_iter) = Ok dids ->
  In (VStr did) dids ->
  data !! (did ++ ".model") = Some model ->
  get_device (VStr model) = Some desc ->
  data !! (did ++ ".prop") = Some prop ->
  json_loads prop = Ok j ->
  py_getitem j "props" = Ok (VDict retain) ->
  In p (desc_params desc) ->
  name p = "temperature" \/ name p = "humidity" ->
  hub_key p = Some k ->
  (forall q kq, In q (desc_params desc) -> name q = name p ->
                hub_key q = Some kq -> dict_get kq retain = None) ->
  _get_devices_v3 get_device json_loads io = None.
Proof.
  intros Hdb Hlist Hdids Hin Hmodel Hdesc Hprop Hj Hprops Hp Hname Hk Hmiss.
  assert (Hdev : exists e, v3_device get_device json_loads data (VStr did) = Err e).
  { unfold v3_device. rewrite bind_ok, Hmodel. simpl of_option.
    rewrite bind_ok, Hdesc, Hprop. simpl of_option.
    rewrite bind_ok, Hj, bind_ok, Hprops, bind_ok.
    destruct (retained_params_none retain (name p) (desc_params desc) Hmiss [])
      as (params & Hparams & Hnone); [right; eauto|].
    unfold retained_params. rewrite Hparams, bind_ok.
    destruct (fix_params_none params (name p) Hname Hnone) as [e He].
    rewrite He. eauto. }
  destruct Hdev as [e He].
  apply in_split in Hin as (before & after & ->).
  unfold _get_devices_v3, v3_body.
  rewrite Hdb, bind_ok, Hlist. simpl of_option. rewrite bind_ok, Hdids, bind_ok.
  unfold v3_devices. rewrite fold_result_app.
  destruct (fold_result _ before []) as [acc|e']; [|reflexivity].
  rewrite bind_ok. cbn [fold_result]. rewrite He. reflexivity.
Qed.

End Properties.

(** ** The properties on the sample data *)

Lemma process_message_unsupported_cmd_sample :
  process_message sample_global_prop sample_get_device
    [("cmd", VStr "read_rsp"); ("did", VStr "lumi.1")] sample_gateway
  = Raise TypeError sample_gateway.
Proof.
  apply (process_message_unsupported_cmd sample_global_prop sample_get_device
           _ (VStr "read_rsp")); [reflexivity|discriminate..].
Defined.

Lemma process_message_heartbeat_sample :
  process_message sample_global_prop sample_get_device
    (heartbeat [heartbeat_element; heartbeat_element]) sample_gateway
  = Raise AssertionError sample_gateway.
Proof.
  apply (process_message_heartbeat sample_global_prop sample_get_device
           (heartbeat [heartbeat_element; heartbeat_element])
           [heartbeat_element; heartbeat_element] sample_gateway);
    [reflexivity|reflexivity|discriminate].
Defined.

Example heartbeat_single_element :
  process_message sample_global_prop sample_get_device
    (heartbeat [heartbeat_element]) sample_gateway
  = Done tt (dispatched [7] [("voltage", VInt 3005)] sample_gateway).
Proof. vm_compute. reflexivity. Qed.

Lemma process_message_no_subscriber_sample :
  process_message sample_global_prop sample_get_device
    (report "lumi.3" "0.1.85" (VInt 2350)) sample_gateway
  = Done tt sample_gateway.
Proof.
  apply (process_message_no_subscriber sample_global_prop sample_get_device
           _ (VDict (report "lumi.3" "0.1.85" (VInt 2350))) "params" "lumi.3");
    reflexivity.
Defined.

Lemma sample_report_convertible :
  Forall (convertible sample_global_prop sensor_rows)
    [VDict [("res_name", VStr "0.1.85"); ("value", VInt 2350)];
     VDict [("res_name", VStr "0.2.85"); ("value", VInt 0);
            ("error_code", VInt (-5020))]].
Proof.
  constructor; [|constructor; [|constructor]].
  - eexists. split; [reflexivity|]. intros _.
    exists "0.1.85", "temperature", (VInt 2350). eexists.
    split; [reflexivity|]. split; [|split; reflexivity].
    apply (resolve_prop_canonical sample_global_prop sensor sensor_rows);
      reflexivity.
  - eexists. split; [reflexivity|]. intros Hacc. discriminate Hacc.
Defined.

Lemma process_message_normalized_sample :
  exists payload,
    process_message sample_global_prop sample_get_device sample_report
      sample_gateway
    = setup_added_device sample_get_device payload
        (dispatched [7] payload sample_gateway) /\
    (forall k, In k (dict_keys payload) <->
       exists p s,
         In (VDict p)
            [VDict [("res_name", VStr "0.1.85"); ("value", VInt 2350)];
             VDict [("res_name", VStr "0.2.85"); ("value", VInt 0);
                    ("error_code", VInt (-5020))]] /\
         accepted p /\ param_prop p = Ok (VStr s) /\
         canonical sample_global_prop sensor_rows s k) /\
    dict_get "temperature" payload
    = Some (VFloat (PrimFloat.div (small_float 2350) (small_float 100))).
Proof.
  assert (Hcan : canonical sample_global_prop sensor_rows "0.1.85" "temperature").
  { apply (resolve_prop_canonical sample_global_prop sensor sensor_rows);
      reflexivity. }
  assert (Hno : Forall (fun q => ~ resolves_to sample_global_prop sensor_rows
                                    "temperature" q)
                  [VDict [("res_name", VStr "0.2.85"); ("value", VInt 0);
                          ("error_code", VInt (-5020))]]).
  { constructor; [|constructor].
    intros (p & s & Heq & Hacc & _). injection Heq as <-. discriminate Hacc. }
  destruct (process_message_normalized sample_global_prop sample_get_device
              sample_report (VDict sample_report) "params" "lumi.1" [7] sensor
              sensor_rows
              [VDict [("res_name", VStr "0.1.85"); ("value", VInt 2350)];
               VDict [("res_name", VStr "0.2.85"); ("value", VInt 0);
                      ("error_code", VInt (-5020))]]
              sample_gateway eq_refl eq_refl eq_refl eq_refl eq_refl
              (ex_intro _ _ eq_refl) (ex_intro _ _ eq_refl) eq_refl
              sample_report_convertible)
    as (payload & Hrun & Hkeys & _ & Hlast).
  exists payload. split; [exact Hrun|]. split; [exact Hkeys|].
  destruct (Hlast [] [("res_name", VStr "0.1.85"); ("value", VInt 2350)]
              [VDict [("res_name", VStr "0.2.85"); ("value", VInt 0);
                      ("error_code", VInt (-5020))]]
              "0.1.85" "temperature" (VInt 2350)
              eq_refl eq_refl eq_refl Hcan eq_refl Hno (or_introl eq_refl))
    as (f & Hf & Hget).
  inversion Hf as [z f' Hz| |]; subst.
  change (float_of_Z 2350) with (Ok (small_float 2350)) in Hz.
  injection Hz as <-. exact Hget.
Defined.

(** The report of a temperature of 2350 is dispatched as 23.5, and the
    failed entry is left out. *)
Example sample_report_dispatched :
  process_message sample_global_prop sample_get_device sample_report
    sample_gateway
  = Done tt
      (dispatched [7]
         [("temperature",
           VFloat (PrimFloat.div (small_float 2350) (small_float 100)))]
         sample_gateway) /\
  PrimFloat.div (small_float 2350) (small_float 100)
  = PrimFloat.add (small_float 23) (PrimFloat.div (small_float 1) (small_float 2)).
Proof. split; vm_compute; reflexivity. Qed.




(** The sample database holds [on] under the plug's hub key [neutral_0]:
    the plug is discovered with 1 under [switch]. *)
Lemma boolean_strings_fixup_sample :
  exists init,
    dev_get (device_of_dict
               [("did", VStr "lumi.2"); ("mac", VStr "0x158d0002");
                ("model", VStr "lumi.plug"); ("zb_ver", VStr "3.0");
                ("init", VDict [("power", VInt 12); ("switch", VInt 1)])])
      "init" = Ok (VDict init) /\
    dict_get "switch" init = Some (VInt 1).
Proof.
  destruct (boolean_strings_fixup sample_get_device sample_json_loads)
    as [H _].
  specialize (H complete_db "lumi.2" "lumi.plug"
                (dq "{'props':{'load_power':12,'neutral_0':'on'}}")
                (Descriptor plug_rows [("device_name", VStr "Plug")])
                (VDict [("props", VDict [("load_power", VInt 12);
                                         ("neutral_0", VStr "on")])])
                [("load_power", VInt 12); ("neutral_0", VStr "on")]
                [ParamRow "0.12.85" (Some "load_power") "power" (Some "sensor")]
                [ParamRow "4.1.85" None "channel_1" None]
                (ParamRow "4.1.85" (Some "neutral_0") "switch" (Some "switch"))
                "neutral_0" (VStr "on")
                (device_of_dict
                   [("did", VStr "lumi.2"); ("mac", VStr "0x158d0002");
                    ("model", VStr "lumi.plug"); ("zb_ver", VStr "3.0");
                    ("init", VDict [("power", VInt 12); ("switch", VInt 1)])])).
  destruct H as (init & Hinit & Hon & _).
  - reflexivity.
  - reflexivity.
  - reflexivity.
  - reflexivity.
  - reflexivity.
  - reflexivity.
  - reflexivity.
  - simpl. discriminate.
  - simpl. discriminate.
  - constructor; [left; reflexivity|constructor].
  - reflexivity.
  - vm_compute. reflexivity.
  - exists init. split; [exact Hinit|]. apply Hon. left. reflexivity.
Defined.

(** A report of the string [on] for the plug's switch reaches the subscriber
    as the string, not as 1. *)
Lemma report_on_is_not_converted :
  process_message sample_global_prop sample_get_device
    (report "lumi.2" "4.1.85" (VStr "on")) sample_gateway
  = Done tt (dispatched [8] [("switch", VStr "on")] sample_gateway) /\
  VStr "on" <> VInt 1.
Proof. split; [vm_compute; reflexivity|discriminate]. Qed.

(** The plug lists the wire name [4.1.85] twice: a command for [channel_1]
    goes out under [4.1.85], and a report under [4.1.85] comes back as
    [switch]. *)
Lemma channel_1_does_not_round_trip :
  send plug "channel_1" (VInt 1) sample_gateway
  = Done tt (recorded (Publish "zigbee/recv"
                         (write_command (VStr "lumi.2") "4.1.85" (VInt 1)))
               sample_gateway) /\
  (param_prop [("res_name", VStr "4.1.85"); ("value", VInt 1)]
     ≫= resolve_prop sample_global_prop plug) = Ok (VStr "switch") /\
  process_message sample_global_prop sample_get_device
    (report "lumi.2" "4.1.85" (VInt 1)) sample_gateway
  = Done tt (dispatched [8] [("switch", VInt 1)] sample_gateway) /\
  "switch" <> "channel_1".
Proof.
  split; [vm_compute; reflexivity|]. split; [vm_compute; reflexivity|].
  split; [vm_compute; reflexivity|discriminate].
Qed.

(** The plug's [switch] goes out under [4.1.85] and comes back as [switch],
    although the row of [channel_1] shares the wire name. *)
Lemma send_resolve_round_trip_sample :
  send plug "switch" (VInt 1) sample_gateway
  = Done tt (recorded (Publish "zigbee/recv"
                         (write_command (VStr "lumi.2") "4.1.85" (VInt 1)))
               sample_gateway) /\
  (param_prop [("res_name", VStr "4.1.85"); ("value", VInt 1)]
     ≫= resolve_prop sample_global_prop plug) = Ok (VStr "switch").
Proof.
  destruct (send_resolve_round_trip sample_global_prop plug plug_rows
              "switch" (VInt 1) (VStr "lumi.2") (VStr "lumi.plug")
              sample_gateway eq_refl
              (or_intror (or_introl eq_refl)) eq_refl eq_refl)
    as (p & Hfirst & Hsend & Hback).
  apply find_name_first in Hfirst. injection Hfirst as <-.
  split; [exact Hsend|].
  destruct (Hback [("res_name", VStr "4.1.85"); ("value", VInt 1)] eq_refl)
    as (k & Hk & _ & Hiff).
  rewrite Hk. f_equal. f_equal. apply Hiff. right. split; [reflexivity|].
  exists (ParamRow "4.1.85" (Some "neutral_0") "switch" (Some "switch")).
  split; [|reflexivity]. apply find_wire_first. reflexivity.
Defined.

(** The sample hub never reports a total that matches: sixteen requests,
    then the one device collected. *)
Example sample_miio_sixteen_requests :
  read_pages sample_miio 16 0 []
  = (16, Ok (Collected [(NumInt 1, [("did", VStr "lumi.158d0001");
                                     ("mac", VStr "0x158d0001");
                                     ("model", VStr "lumi.sensor_ht")])])).
Proof. vm_compute. reflexivity. Qed.

Lemma registry_retention_sample :
  "lumi.1" ∈ dom (devices (final (setup_devices sample_get_device [plug]
                                    sample_gateway))) /\
  "lumi.1" ∈ dom (devices (final (process_message sample_global_prop
                                    sample_get_device sample_report
                                    sample_gateway))) /\
  "lumi.1" ∈ dom (devices (final (process_bluetooth sample_parse_xiaomi_ble
                                    sample_get_ble_domain sample_json_loads
                                    "" sample_gateway))) /\
  "lumi.1" ∈ dom (devices (final (send plug "switch" (VInt 1) sample_gateway))).
Proof.
  apply (registry_retention sample_global_prop sample_get_device
           sample_parse_xiaomi_ble sample_get_ble_domain sample_json_loads
           [plug] sample_report "" plug "switch" (VInt 1) sample_gateway "lumi.1").
  apply elem_of_dom. exists sensor. reflexivity.
Defined.

Lemma get_devices_v3_missing_value_sample :
  _get_devices_v3 sample_get_device sample_json_loads sample_telnet = None.
Proof.
  apply (get_devices_v3_missing_value sample_get_device sample_json_loads
           sample_telnet sample_db (dq "['lumi.1']") "lumi.1" "lumi.sensor_ht"
           (dq "{'props':{'temperature':2350}}") [VStr "lumi.1"]
           (Descriptor sensor_rows [("device_name", VStr "TH Sensor")])
           (VDict [("props", VDict [("temperature", VInt 2350)])])
           [("temperature", VInt 2350)]
           (ParamRow "0.2.85" (Some "humidity") "humidity" (Some "sensor"))
           "humidity");
    try reflexivity.
  - left. reflexivity.
  - simpl. auto.
  - right. reflexivity.
  - intros q kq [<-|[<-|[<-|[]]]] Hname Hkey; try discriminate Hname.
    injection Hkey as <-. reflexivity.
Defined.

(** Database discovery on the complete sample: the hub first, the sensor
    with its temperature and humidity divided by 100 and its battery as a
    percentage, the plug with its switch as 1, and the unknown model left
    out. *)
Example complete_discovery :
  _get_devices_v3 sample_get_device sample_json_loads complete_telnet
  = Some
      [device_of_dict [("did", VStr "lumi.0"); ("model", VStr "lumi.gateway.mgl03");
                       ("mac", VStr "54ef44000001")];
       device_of_dict
         [("did", VStr "lumi.1"); ("mac", VStr "0x158d0001");
          ("model", VStr "lumi.sensor_ht"); ("zb_ver", VStr "1.2");
          ("init",
           VDict [("temperature",
                   VFloat (PrimFloat.div (small_float 2350) (small_float 100)));
                  ("humidity",
                   VFloat (PrimFloat.div (small_float 4500) (small_float 100)));
                  ("battery", VInt 71)])];
       device_of_dict
         [("did", VStr "lumi.2"); ("mac", VStr "0x158d0002");
          ("model", VStr "lumi.plug"); ("zb_ver", VStr "3.0");
          ("init", VDict [("power", VInt 12); ("switch", VInt 1)])]].
Proof. vm_compute. reflexivity. Qed.


(** ** Relations that every step of a method preserves *)

Section Relates.

Context (R : gateway -> gateway -> Prop).
Hypothesis R_refl : forall g, R g g.
Hypothesis R_trans : forall a b c, R a b -> R b c -> R a c.

Lemma relates_ret {A} (a : A) : relates R (mret a).
Proof. intros g. apply R_refl. Qed.

Lemma relates_lift {A} (r : result A) : relates R (lift r).
Proof. intros g. destruct r; apply R_refl. Qed.

Lemma relates_get : relates R get_gateway.
Proof. intros g. apply R_refl. Qed.

Lemma relates_wait (dom : string) : relates R (wait_setup dom).
Proof. intros g. unfold wait_setup. destruct (setups g !! dom); apply R_refl. Qed.

Lemma relates_bind {A B} (m : M A) (f : A -> M B) :
  relates R m -> (forall a, relates R (f a)) -> relates R (m ≫= f).
Proof.
  intros Hm Hf g. specialize (Hm g). unfold mbind, M_bind.
  destruct (m g) as [a g'|e g'|g']; simpl in *; [|exact Hm|exact Hm].
  eapply R_trans; [exact Hm|apply Hf].
Qed.

Lemma relates_for_each {A} (body : A -> M unit) (l : list A) :
  (forall x, relates R (body x)) -> relates R (for_each body l).
Proof.
  intros Hbody. induction l as [|x l IH]; simpl.
  - apply relates_ret.
  - apply relates_bind; [apply Hbody|intros _; exact IH].
Qed.

End Relates.

Ltac relates_step Hrefl Htrans Hemit Hstore :=
  match goal with
  | |- relates _ (mbind _ _) => apply (relates_bind _ Htrans); [|intros ?]
  | |- relates _ (mret _) => apply (relates_ret _ Hrefl)
  | |- relates _ (lift _) => apply (relates_lift _ Hrefl)
  | |- relates _ get_gateway => apply (relates_get _ Hrefl)
  | |- relates _ (wait_setup _) => apply (relates_wait _ Hrefl)
  | |- relates _ (emit _) => apply Hemit
  | |- relates _ (store_device _ _) => apply Hstore
  | |- relates _ (for_each _ _) => apply (relates_for_each _ Hrefl Htrans); intros ?
  | |- relates _ (match ?x with _ => _ end) => destruct x
  | |- relates _ (let _ := _ in _) => cbv zeta
  end.

(** ** The calls a method records *)

Lemma extends_by_refl (P : event -> Prop) (g : gateway) : extends_by P g g.
Proof. exists []. split; [symmetry; apply app_nil_r|constructor]. Qed.

Lemma extends_by_trans (P : event -> Prop) (a b c : gateway) :
  extends_by P a b -> extends_by P b c -> extends_by P a c.
Proof.
  intros (m1 & H1 & F1) (m2 & H2 & F2). exists (m1 ++ m2)%list. split.
  - rewrite H2, H1. symmetry. apply app_assoc.
  - apply Forall_app. split; assumption.
Qed.

Lemma extends_by_emit (P : event -> Prop) (e : event) :
  P e -> relates (extends_by P) (emit e).
Proof. intros He g. exists [e]. split; [reflexivity|]. constructor; [exact He|constructor]. Qed.

Lemma extends_by_store (P : event -> Prop) (did : string) (d : device) :
  relates (extends_by P) (store_device did d).
Proof. intros g. exists []. split; [symmetry; apply app_nil_r|constructor]. Qed.

Lemma records_weaken {A} (P Q : event -> Prop) (m : M A) :
  (forall e, P e -> Q e) -> records P m -> records Q m.
Proof.
  intros HPQ Hm g. destruct (Hm g) as (more & Hcalls & Hall).
  exists more. split; [exact Hcalls|]. eapply Forall_impl; [exact Hall|exact HPQ].
Qed.

Ltac records_step P :=
  relates_step (extends_by_refl P) (extends_by_trans P)
    (extends_by_emit P) (extends_by_store P); try exact I.

Section Recorded.

Context (GLOBAL_PROP : gmap string string).
Context (get_device : value -> option descriptor).
Context (parse_xiaomi_ble : value -> option dict).
Context (get_ble_domain : string -> option string).
Context (json_loads : string -> result value).
Context (decode : string -> result string).
Context (debug : string).

Lemma records_setup_devices (ds : list device) :
  records is_setup (setup_devices get_device ds).
Proof.
  unfold records, setup_devices, setup_device, setup_param.
  repeat records_step is_setup.
Qed.

Lemma records_setup_added_device (payload : dict) :
  records is_setup (setup_added_device get_device payload).
Proof.
  unfold records, setup_added_device.
  repeat first [apply records_setup_devices | records_step is_setup].
Qed.

Lemma is_setup_inbound (e : event) : is_setup e -> is_inbound e.
Proof. destruct e; simpl; auto. Qed.

Lemma records_process_message (data : dict) :
  records is_inbound (process_message GLOBAL_PROP get_device data).
Proof.
  unfold records, process_message, process_params.
  repeat first
    [ apply (records_weaken is_setup is_inbound _ is_setup_inbound),
        records_setup_added_device
    | records_step is_inbound ].
Qed.

Lemma records_ble_init (did : string) (payload : dict) (keys : list string)
  (d : device) :
  records is_inbound (ble_init get_ble_domain did payload keys d).
Proof.
  unfold records. revert d. induction keys as [|k keys IH]; intros d; simpl.
  - apply (relates_ret _ (extends_by_refl is_inbound)).
  - repeat first [apply IH | records_step is_inbound].
Qed.

Lemma records_process_bluetooth (raw : string) :
  records is_inbound
    (process_bluetooth parse_xiaomi_ble get_ble_domain json_loads raw).
Proof.
  unfold records, process_bluetooth, ble_device.
  repeat first [apply records_ble_init | records_step is_inbound].
Qed.

(** X2: the inbound side never publishes and the outbound side never calls
    back.  [setup_devices], [process_message], [process_bluetooth] and
    [on_message] only add calls of update handlers and setup functions to
    what was recorded (setup functions only, for [setup_devices]); [send]
    only adds messages handed to the MQTT client.  Nothing recorded before
    the call is dropped or reordered. *)
Theorem inbound_never_publishes (ds : list device) (data : dict)
  (raw topic payload : string) (d : device) (param : string) (v : value) :
  records is_setup (setup_devices get_device ds) /\
  records is_inbound (process_message GLOBAL_PROP get_device data) /\
  records is_inbound
    (process_bluetooth parse_xiaomi_ble get_ble_domain json_loads raw) /\
  records is_inbound
    (on_message GLOBAL_PROP get_device parse_xiaomi_ble get_ble_domain
       json_loads decode debug topic payload) /\
  records is_publish (send d param v).
Proof.
  split; [apply records_setup_devices|].
  split; [apply records_process_message|].
  split; [apply records_process_bluetooth|].
  split.
  - unfold records, on_message, process_decoded.
    repeat first [apply records_process_message
                 | apply records_process_bluetooth | records_step is_inbound].
  - unfold records, send. repeat records_step is_publish.
Qed.

End Recorded.

(** ** Messages that carry nothing, or too little *)

Section Messages.

Context (GLOBAL_PROP : gmap string string).
Context (get_device : value -> option descriptor).

Lemma fold_convert_rejected (d : device) (params : list value) (acc : dict) :
  Forall (fun v => exists p, v = VDict p /\ ~ accepted p) params ->
  fold_result (convert_param GLOBAL_PROP d) params acc = Ok acc.
Proof.
  induction 1 as [|v params (p & -> & Hp) _ IH]; [reflexivity|].
  cbn [fold_result]. rewrite (convert_param_rejected GLOBAL_PROP d acc p Hp).
  rewrite bind_ok. exact IH.
Qed.

(** The steps of [process_message] up to the dispatch, for a subscribed
    device of the registry. *)
Lemma process_message_converted (data : dict) (sel : value) (pkey did : string)
  (handlers : list handler) (d : device) (params : list value) (g : gateway) :
  select_params data = Ok (sel, pkey) ->
  py_getitem sel "did" = Ok (VStr did) ->
  updates g !! did = Some handlers ->
  devices g !! did = Some d ->
  py_getitem sel pkey = Ok (VList params) ->
  process_message GLOBAL_PROP get_device data g
  = (payload ← lift (fold_result (convert_param GLOBAL_PROP d) params []);
     lift (dev_get d "did");;
     lift (dev_get d "model");;
     for_each (fun h => emit (Update h payload)) handlers;;
     setup_added_device get_device payload) g.
Proof.
  intros Hsel Hdid Hsub Hdev Hparams.
  unfold process_message. rewrite Hsel, lift_ok.
  unfold process_params. simpl fst. simpl snd. rewrite Hdid, lift_ok.
  unfold get_gateway at 1. unfold mbind at 1, M_bind at 1.
  unfold lookup_key. rewrite Hsub, lift_ok, Hdev. simpl of_option.
  rewrite lift_ok, Hparams, bind_ok. simpl py_iter. rewrite lift_ok.
  reflexivity.
Qed.

(** X4: when every entry of a message carries a non-zero error code, the
    subscribers of the device are still called, each with an empty
    payload. *)
Theorem process_message_all_failed (data : dict) (sel : value)
  (pkey did : string) (handlers : list handler) (d : device)
  (params : list value) (g : gateway) :
  select_params data = Ok (sel, pkey) ->
  py_getitem sel "did" = Ok (VStr did) ->
  updates g !! did = Some handlers ->
  devices g !! did = Some d ->
  is_Some (dict_get "did" (dev_items d)) ->
  is_Some (dict_get "model" (dev_items d)) ->
  py_getitem sel pkey = Ok (VList params) ->
  Forall (fun v => exists p, v = VDict p /\ ~ accepted p) params ->
  process_message GLOBAL_PROP get_device data g
  = Done tt (dispatched handlers [] g).
Proof.
  intros Hsel Hdid Hsub Hdev [xd Hxd] [xm Hxm] Hparams Hall.
  rewrite (process_message_converted data sel pkey did handlers d params g)
    by assumption.
  rewrite (fold_convert_rejected d params [] Hall), lift_ok.
  unfold dev_get. rewrite Hxd, Hxm. simpl of_option. rewrite !lift_ok.
  unfold mbind at 1, M_bind at 1. rewrite for_each_emit. reflexivity.
Qed.

(** X5: an accepted entry without a ['value'] makes the whole message raise
    [KeyError]: no subscriber is called and the gateway is unchanged, also
    when the entries before it were good. *)
Theorem process_message_missing_value (data : dict) (sel : value)
  (pkey did : string) (handlers : list handler) (d : device)
  (rows : list param_row) (before after : list value) (p : dict) (s : string)
  (g : gateway) :
  select_params data = Ok (sel, pkey) ->
  py_getitem sel "did" = Ok (VStr did) ->
  updates g !! did = Some handlers ->
  devices g !! did = Some d ->
  dev_params d = Some rows ->
  py_getitem sel pkey = Ok (VList (before ++ VDict p :: after)) ->
  Forall (convertible GLOBAL_PROP rows) before ->
  accepted p ->
  param_prop p = Ok (VStr s) ->
  dict_get "value" p = None ->
  process_message GLOBAL_PROP get_device data g = Raise KeyError g.
Proof.
  intros Hsel Hdid Hsub Hdev Hrows Hparams Hbefore Hacc Hprop Hvalue.
  rewrite (process_message_converted data sel pkey did handlers d
             (before ++ VDict p :: after) g) by assumption.
  rewrite fold_result_app.
  destruct (fold_convert_param GLOBAL_PROP d rows before Hrows Hbefore [])
    as (payload & -> & _).
  rewrite bind_ok. cbn [fold_result].
  assert (Hconv : convert_param GLOBAL_PROP d payload (VDict p) = Err KeyError).
  { unfold convert_param. rewrite Hacc, Hprop, bind_ok.
    unfold resolve_prop, dev_rows. rewrite Hrows. simpl of_option.
    destruct (GLOBAL_PROP !! s) as [n|]; [|rewrite bind_ok];
      rewrite bind_ok; unfold store_param; rewrite Hvalue; reflexivity. }
  rewrite Hconv. reflexivity.
Qed.

(** X6: handlers are called in the order of their registration.  After
    [add_update] for a device id, a message for that device is dispatched
    to the handlers registered before, in their order, and then to the new
    one. *)
Theorem add_update_then_message (data : dict) (sel : value)
  (pkey did : string) (h : handler) (d : device) (rows : list param_row)
  (params : list value) (g : gateway) :
  select_params data = Ok (sel, pkey) ->
  py_getitem sel "did" = Ok (VStr did) ->
  devices g !! did = Some d ->
  dev_params d = Some rows ->
  is_Some (dict_get "did" (dev_items d)) ->
  is_Some (dict_get "model" (dev_items d)) ->
  py_getitem sel pkey = Ok (VList params) ->
  Forall (convertible GLOBAL_PROP rows) params ->
  exists payload,
    process_message GLOBAL_PROP get_device data (final (add_update did h g))
    = setup_added_device get_device payload
        (dispatched (default [] (updates g !! did) ++ [h]) payload
           (final (add_update did h g))).
Proof.
  intros Hsel Hdid Hdev Hrows Hxd Hxm Hparams Hall.
  destruct (process_message_dispatch GLOBAL_PROP get_device data sel pkey did
              (default [] (updates g !! did) ++ [h]) d rows params
              (final (add_update did h g)))
    as (payload & Hrun & _); try assumption.
  - simpl. apply lookup_insert_eq.
  - exists payload. exact Hrun.
Qed.

(** X7: [send] for a name that no row of the device carries raises
    [StopIteration], and for a device without rows [KeyError]; in both
    cases nothing is published and the gateway is unchanged. *)
Theorem send_unknown_param (d : device) (param : string) (v : value)
  (g : gateway) :
  (forall rows, dev_params d = Some rows -> ~ In param (map name rows) ->
     send d param v g = Raise StopIteration g) /\
  (dev_params d = None -> send d param v g = Raise KeyError g).
Proof.
  split.
  - intros rows Hrows Hnot. unfold send, send_prop, dev_rows.
    rewrite Hrows. simpl of_option. rewrite bind_ok.
    destruct (find_name rows param) as [p|] eqn:Hfind; [|reflexivity].
    apply List.find_some in Hfind as [Hin Hname].
    apply String.eqb_eq in Hname. contradiction Hnot.
    apply in_map_iff. exists p. auto.
  - intros Hnone. unfold send, send_prop, dev_rows. rewrite Hnone. reflexivity.
Qed.

End Messages.

Lemma process_message_all_failed_sample :
  process_message sample_global_prop sample_get_device failed_report
    sample_gateway
  = Done tt (dispatched [7] [] sample_gateway).
Proof.
  apply (process_message_all_failed sample_global_prop sample_get_device
           failed_report (VDict failed_report) "params" "lumi.1" [7] sensor
           [VDict [("res_name", VStr "0.1.85"); ("value", VInt 0);
                   ("error_code", VInt (-5020))]]);
    try reflexivity; try (eexists; reflexivity).
  constructor; [|constructor].
  eexists. split; [reflexivity|]. intros Hacc. discriminate Hacc.
Defined.

Lemma process_message_missing_value_sample :
  process_message sample_global_prop sample_get_device truncated_report
    sample_gateway
  = Raise KeyError sample_gateway.
Proof.
  apply (process_message_missing_value sample_global_prop sample_get_device
           truncated_report (VDict truncated_report) "params" "lumi.1" [7]
           sensor sensor_rows
           [VDict [("res_name", VStr "0.1.85"); ("value", VInt 2350)]] []
           [("res_name", VStr "0.2.85")] "0.2.85");
    try reflexivity.
  constructor; [|constructor].
  eexists. split; [reflexivity|]. intros _.
  exists "0.1.85", "temperature", (VInt 2350). eexists.
  split; [reflexivity|]. split; [|split; reflexivity].
  apply (resolve_prop_canonical sample_global_prop sensor sensor_rows);
    reflexivity.
Defined.

Lemma add_update_then_message_sample :
  exists payload,
    process_message sample_global_prop sample_get_device sample_report
      (final (add_update "lumi.1" 9 sample_gateway))
    = setup_added_device sample_get_device payload
        (dispatched (default [] (updates sample_gateway !! "lumi.1") ++ [9])
           payload (final (add_update "lumi.1" 9 sample_gateway))).
Proof.
  apply (add_update_then_message sample_global_prop sample_get_device
           sample_report (VDict sample_report) "params" "lumi.1" 9 sensor
           sensor_rows
           [VDict [("res_name", VStr "0.1.85"); ("value", VInt 2350)];
            VDict [("res_name", VStr "0.2.85"); ("value", VInt 0);
                   ("error_code", VInt (-5020))]]);
    try reflexivity; try (eexists; reflexivity).
  exact sample_report_convertible.
Defined.

(** The sensor's report after a second subscription: handler 7, then 9. *)
Example second_subscriber_called_last :
  calls (final (process_message sample_global_prop sample_get_device
                  sample_report (final (add_update "lumi.1" 9 sample_gateway))))
  = [Update 7 [("temperature",
                VFloat (PrimFloat.div (small_float 2350) (small_float 100)))];
     Update 9 [("temperature",
                VFloat (PrimFloat.div (small_float 2350) (small_float 100)))]].
Proof. vm_compute. reflexivity. Qed.


(** ** Registering devices *)

Lemma called_nil (g : gateway) : called [] g = g.
Proof. destruct g. unfold called. simpl. rewrite app_nil_r. reflexivity. Qed.

Lemma called_app (m1 m2 : list event) (g : gateway) :
  called m2 (called m1 g) = called (m1 ++ m2) g.
Proof. unfold called. simpl. rewrite app_assoc. reflexivity. Qed.

Lemma dict_set_keeps (k k' : string) (x : value) (d : dict) :
  is_Some (dict_get k d) -> is_Some (dict_get k (dict_set k' x d)).
Proof.
  intros H. rewrite dict_get_set. destruct (String.eqb k' k); [eauto|exact H].
Qed.

Lemma dict_update_keeps (k : string) (other d : dict) :
  is_Some (dict_get k d) -> is_Some (dict_get k (dict_update d other)).
Proof.
  unfold dict_update. revert d.
  induction other as [|[k' x] other IH]; intros d H; simpl; [exact H|].
  apply IH, dict_set_keeps, H.
Qed.

Lemma dev_get_ok (d : device) (k : string) (v : value) :
  dev_get d k = Ok v <-> dict_get k (dev_items d) = Some v.
Proof.
  unfold dev_get. destruct (dict_get k (dev_items d)); simpl;
    split; congruence.
Qed.

Lemma setup_calls_cons (table : gmap string handler) (d : device)
  (p : param_row) (rows : list param_row) :
  setup_calls table d (p :: rows)
  = (setup_calls table d [p] ++ setup_calls table d rows)%list.
Proof. unfold setup_calls. simpl. rewrite app_nil_r. reflexivity. Qed.

(** The loop of lines 349-359 never raises: it returns after one setup call
    per row with a registered domain, or waits at the first row whose
    domain is not registered, after the setup calls of the rows before
    it. *)
Lemma setup_params_cases (d : device) (rows : list param_row) (g : gateway) :
  match for_each (setup_param d) rows g with
  | Done _ g' =>
      g' = called (setup_calls (setups g) d rows) g /\
      Forall (fun p => ~ unregistered (setups g) p) rows
  | Blocked g' =>
      exists before p after,
        rows = (before ++ p :: after)%list /\
        Forall (fun q => ~ unregistered (setups g) q) before /\
        unregistered (setups g) p /\
        g' = called (setup_calls (setups g) d before) g
  | Raise _ _ => False
  end.
Proof.
  revert g. induction rows as [|p rows IH]; intros g.
  - simpl. rewrite called_nil. split; [reflexivity|constructor].
  - cbn [for_each]. unfold mbind, M_bind.
    assert (Hcase :
      (setup_param d p g = Done tt (called (setup_calls (setups g) d [p]) g) /\
       ~ unregistered (setups g) p) \/
      (setup_param d p g = Blocked g /\ unregistered (setups g) p)).
    { unfold setup_param, setup_calls. simpl flat_map.
      destruct (domain p) as [dom|] eqn:Hdom.
      - destruct (String.eqb_spec dom "") as [->|Hne].
        + left. split; [rewrite called_nil; reflexivity|].
          intros (dom' & Hd & Hn & _). congruence.
        + unfold mbind, M_bind, wait_setup.
          destruct (setups g !! dom) as [h|] eqn:Hh.
          * left. split; [reflexivity|].
            intros (dom' & Hd & _ & Hn). congruence.
          * right. split; [reflexivity|]. exists dom. auto.
      - left. split; [rewrite called_nil; reflexivity|].
        intros (dom' & Hd & _). congruence. }
    destruct Hcase as [[-> Hp]|[-> Hp]].
    + specialize (IH (called (setup_calls (setups g) d [p]) g)).
      change (setups (called (setup_calls (setups g) d [p]) g))
        with (setups g) in IH.
      destruct (for_each (setup_param d) rows _) as [[] g'|e g'|g'].
      * destruct IH as [-> Hall]. rewrite called_app, <- setup_calls_cons.
        split; [reflexivity|constructor; assumption].
      * exact IH.
      * destruct IH as (before & q & after & -> & Hb & Hq & ->).
        exists (p :: before), q, after. split; [reflexivity|].
        split; [constructor; assumption|]. split; [exact Hq|].
        rewrite called_app, <- setup_calls_cons. reflexivity.
    + exists [], p, rows. split; [reflexivity|]. split; [constructor|].
      split; [exact Hp|]. symmetry. apply called_nil.
Qed.

Section Registering.

Context (GLOBAL_PROP : gmap string string).
Context (get_device : value -> option descriptor).

(** How [setup_devices] treats one device: it raises only before it has
    touched the gateway, skips a model the catalog does not know, and
    otherwise files the record under its id before it makes, or waits to
    make, the setup calls of its rows. *)
Lemma setup_device_cases (d : device) (g : gateway) :
  match setup_device get_device d g with
  | Raise _ g' => g' = g
  | Done _ g' =>
      (g' = g /\ exists model, dict_get "model" (dev_items d) = Some model /\
                               get_device model = None) \/
      exists did d2 rows,
        registered did d2 /\ dev_params d2 = Some rows /\
        Forall (fun p => ~ unregistered (setups g) p) rows /\
        g' = called (setup_calls (setups g) d2 rows) (stored did d2 g)
  | Blocked g' =>
      exists did d2 before p after,
        registered did d2 /\ dev_params d2 = Some (before ++ p :: after)%list /\
        Forall (fun q => ~ unregistered (setups g) q) before /\
        unregistered (setups g) p /\
        g' = called (setup_calls (setups g) d2 before) (stored did d2 g)
  end.
Proof.
  unfold setup_device.
  destruct (dev_get d "model") as [model|e] eqn:Hmodel; [|exact eq_refl].
  apply dev_get_ok in Hmodel. rewrite lift_ok.
  destruct (get_device model) as [desc|] eqn:Hdesc; [|left; eauto].
  cbv zeta. set (d1 := dev_update_desc d desc).
  assert (Hm1 : is_Some (dict_get "model" (dev_items d1))).
  { apply dict_update_keeps. eauto. }
  destruct (dev_get d1 "mac") as [mac|e] eqn:Hmac; [|exact eq_refl].
  apply dev_get_ok in Hmac. rewrite lift_ok.
  unfold get_gateway at 1. unfold mbind at 1, M_bind at 1.
  destruct (lookup_key (devices g) mac) as [config|e]; [|exact eq_refl].
  rewrite lift_ok.
  set (d2 := match config with
             | Some c => if dev_truthy c then dev_update d1 c else d1
             | None => d1
             end).
  assert (Hshape : is_Some (dict_get "model" (dev_items d2)) /\
                   is_Some (dict_get "mac" (dev_items d2)) /\
                   is_Some (dev_params d2)).
  { unfold d2. destruct config as [c|]; [destruct (dev_truthy c)|].
    - split; [apply dict_update_keeps, Hm1|].
      split; [apply dict_update_keeps; eauto|].
      simpl. destruct (dev_params c); eauto.
    - split; [exact Hm1|split; [eauto|simpl; eauto]].
    - split; [exact Hm1|split; [eauto|simpl; eauto]]. }
  destruct Hshape as (Hm2 & Hmac2 & [rows Hrows]).
  destruct (dev_get d2 "did") as [vdid|e] eqn:Hdid; [|exact eq_refl].
  rewrite bind_ok.
  destruct (as_key vdid) as [did|e] eqn:Hkey; [|exact eq_refl].
  rewrite lift_ok.
  assert (Hreg : registered did d2).
  { split; [|split; [exact Hm2|split; [exact Hmac2|eauto]]].
    destruct vdid; try discriminate Hkey. injection Hkey as <-. exact Hdid. }
  unfold mbind at 1, M_bind at 1. unfold store_device at 1.
  change {| devices := <[did:=d2]> (devices g); updates := updates g;
            setups := setups g; calls := calls g |} with (stored did d2 g).
  unfold dev_rows. rewrite Hrows. simpl of_option. rewrite lift_ok.
  pose proof (setup_params_cases d2 rows (stored did d2 g)) as Hloop.
  destruct (for_each (setup_param d2) rows (stored did d2 g))
    as [[] g'|e g'|g'].
  - destruct Hloop as [-> Hall]. right. exists did, d2, rows. auto.
  - contradiction.
  - destruct Hloop as (before & p & after & -> & Hb & Hp & ->).
    exists did, d2, before, p, after. auto 6.
Qed.

(** X8: devices of a model the catalog does not know are skipped: a list
    of such devices leaves the gateway as it was, with nothing registered
    and no setup function called. *)
Theorem setup_devices_unsupported (ds : list device) (g : gateway) :
  Forall (fun d => exists model, dict_get "model" (dev_items d) = Some model /\
                                 get_device model = None) ds ->
  setup_devices get_device ds g = Done tt g.
Proof.
  unfold setup_devices. induction 1 as [|d ds (model & Hmodel & Hnone) _ IH].
  - reflexivity.
  - cbn [for_each]. unfold mbind, M_bind. unfold setup_device at 1.
    unfold dev_get. rewrite Hmodel. simpl of_option. rewrite lift_ok, Hnone.
    exact IH.
Qed.

Lemma registers_refl (g : gateway) : registers g g.
Proof. intros k d H. left. exact H. Qed.

Lemma registers_trans (a b c : gateway) :
  registers a b -> registers b c -> registers a c.
Proof.
  intros Hab Hbc k d H. destruct (Hbc k d H) as [Hb|Hr]; [|right; exact Hr].
  apply Hab, Hb.
Qed.

Lemma registers_emit (e : event) : relates registers (emit e).
Proof. intros g k d H. left. exact H. Qed.

Lemma registers_stored (did : string) (d : device) (more : list event)
  (g : gateway) :
  registered did d -> registers g (called more (stored did d g)).
Proof.
  intros Hreg k d' H. simpl in H.
  destruct (decide (did = k)) as [<-|Hne].
  - rewrite lookup_insert_eq in H. injection H as <-. right. exact Hreg.
  - rewrite lookup_insert_ne in H by exact Hne. left. exact H.
Qed.

Lemma registers_setup_device (d : device) :
  relates registers (setup_device get_device d).
Proof.
  intros g. pose proof (setup_device_cases d g) as H.
  destruct (setup_device get_device d g) as [[] g'|e g'|g']; simpl.
  - destruct H as [[-> _]|(did & d2 & rows & Hreg & _ & _ & ->)];
      [apply registers_refl|apply registers_stored, Hreg].
  - subst g'. apply registers_refl.
  - destruct H as (did & d2 & before & p & after & Hreg & _ & _ & _ & ->).
    apply registers_stored, Hreg.
Qed.

Lemma registers_setup_devices (ds : list device) :
  relates registers (setup_devices get_device ds).
Proof.
  unfold setup_devices.
  apply (relates_for_each _ registers_refl registers_trans).
  apply registers_setup_device.
Qed.

(** X9: whatever [setup_devices] and [process_message] add to the registry
    or replace in it is a record filed under its own ['did'] that carries a
    ['model'], a ['mac'] and the catalog's parameter rows; every other entry
    is the one that was there before.  This holds however the call ends. *)
Theorem registry_entries_registered (ds : list device) (data : dict) :
  relates registers (setup_devices get_device ds) /\
  relates registers (process_message GLOBAL_PROP get_device data).
Proof.
  split; [apply registers_setup_devices|].
  unfold process_message, process_params, setup_added_device.
  repeat first
    [ apply registers_setup_devices
    | relates_step registers_refl registers_trans registers_emit registers_emit ].
Qed.

(** X10: [setup_devices] waits for a setup function only after it has
    registered the device concerned.  When the call for one device ends
    waiting, it waits at the first row of the device whose domain has no
    setup function; the device is in the registry under its id, and what
    was recorded since the call began are exactly the setup calls of the
    rows before that one, in their order.  Nothing else has changed. *)
Theorem setup_devices_waits_after_registering (d : device) (g g' : gateway) :
  setup_devices get_device [d] g = Blocked g' ->
  exists did d2 before p after,
    registered did d2 /\
    dev_params d2 = Some (before ++ p :: after)%list /\
    Forall (fun q => ~ unregistered (setups g) q) before /\
    unregistered (setups g) p /\
    g' = called (setup_calls (setups g) d2 before) (stored did d2 g).
Proof.
  unfold setup_devices. cbn [for_each]. unfold mbind, M_bind.
  pose proof (setup_device_cases d g) as H.
  destruct (setup_device get_device d g) as [[] g1|e g1|g1];
    [discriminate|discriminate|].
  intros [= <-]. exact H.
Qed.

(** X11: when [setup_devices] returns for a device of a known model, it has
    registered the device and made exactly one setup call for each of its
    rows with a non-empty domain, in the order of the rows, none for the
    other rows, and no row was left waiting. *)
Theorem setup_devices_calls_each_row (d : device) (model : value)
  (desc : descriptor) (g g' : gateway) :
  dict_get "model" (dev_items d) = Some model ->
  get_device model = Some desc ->
  setup_devices get_device [d] g = Done tt g' ->
  exists did d2 rows,
    registered did d2 /\ dev_params d2 = Some rows /\
    Forall (fun p => ~ unregistered (setups g) p) rows /\
    g' = called (setup_calls (setups g) d2 rows) (stored did d2 g).
Proof.
  intros Hmodel Hdesc. unfold setup_devices. cbn [for_each].
  unfold mbind, M_bind.
  pose proof (setup_device_cases d g) as H.
  destruct (setup_device get_device d g) as [[] g1|e g1|g1];
    [|discriminate|discriminate].
  intros [= <-].
  destruct H as [[_ (model' & Hm & Hnone)]|H]; [congruence|exact H].
Qed.

End Registering.

Lemma setup_devices_unsupported_sample :
  setup_devices sample_get_device
    [device_of_dict [("did", VStr "lumi.9"); ("model", VStr "lumi.unknown")]]
    sample_gateway
  = Done tt sample_gateway.
Proof.
  apply (setup_devices_unsupported sample_get_device).
  constructor; [|constructor].
  exists (VStr "lumi.unknown"). split; reflexivity.
Defined.

(** The plug has a row for the switch domain, which the sample gateway has
    no setup function for: the call waits, with the plug registered and
    the sensor-domain row already set up. *)
Lemma setup_devices_waits_sample :
  exists did d2 before p after,
    registered did d2 /\
    dev_params d2 = Some (before ++ p :: after)%list /\
    Forall (fun q => ~ unregistered (setups sample_gateway) q) before /\
    unregistered (setups sample_gateway) p /\
    called [Setup 3 plug_registered (VStr "power")]
      (stored "lumi.2" plug_registered sample_gateway)
    = called (setup_calls (setups sample_gateway) d2 before)
        (stored did d2 sample_gateway).
Proof.
  apply (setup_devices_waits_after_registering sample_get_device plug
           sample_gateway).
  vm_compute. reflexivity.
Defined.

Lemma setup_devices_calls_each_row_sample :
  exists did d2 rows,
    registered did d2 /\ dev_params d2 = Some rows /\
    Forall (fun p => ~ unregistered (setups sample_gateway) p) rows /\
    called [Setup 3 sensor_registered (VStr "temperature");
            Setup 3 sensor_registered (VStr "humidity");
            Setup 3 sensor_registered (VStr "battery")]
      (stored "lumi.1" sensor_registered sample_gateway)
    = called (setup_calls (setups sample_gateway) d2 rows)
        (stored did d2 sample_gateway).
Proof.
  apply (setup_devices_calls_each_row sample_get_device sensor
           (VStr "lumi.sensor_ht")
           (Descriptor sensor_rows [("device_name", VStr "TH Sensor")])
           sample_gateway);
    [reflexivity|reflexivity|].
  vm_compute. reflexivity.
Defined.


(** ** Bluetooth events *)

Lemma same_identity_refl (d : device) : same_identity d d.
Proof. split; auto. Qed.

Lemma same_identity_trans (a b c : device) :
  same_identity a b -> same_identity b c -> same_identity a c.
Proof.
  intros [H1 H2] [H3 H4]. split; [|congruence].
  intros k Hk. rewrite (H3 k Hk). apply H1, Hk.
Qed.

Lemma same_identity_set_init (d : device) (init : value) :
  same_identity d (dev_set_init d init).
Proof.
  split; [|reflexivity]. intros k Hk. simpl. rewrite dict_get_set.
  destruct (String.eqb_spec "init" k); [congruence|reflexivity].
Qed.

Lemma dispatched_nil (payload : dict) (g : gateway) : dispatched [] payload g = g.
Proof. destruct g. unfold dispatched. simpl. rewrite app_nil_r. reflexivity. Qed.

Section Bluetooth.

Context (parse_xiaomi_ble : value -> option dict).
Context (get_ble_domain : string -> option string).
Context (json_loads : string -> result value).

(** The setup step of lines 455-463 for one new key: it calls at most one
    setup function or waits, and touches nothing else. *)
Lemma ble_domain_cases (d : device) (k : string) (g : gateway) :
  match (match get_ble_domain k with
         | None => mret tt
         | Some dom =>
             if String.eqb dom "" then mret tt
             else h ← wait_setup dom; emit (Setup h d (VStr k))
         end : M unit) g with
  | Done _ g' => exists more, g' = called more g /\ Forall is_setup more
  | Blocked g' => g' = g
  | Raise _ _ => False
  end.
Proof.
  destruct (get_ble_domain k) as [dom|].
  - destruct (String.eqb dom "").
    + exists []. split; [symmetry; apply called_nil|constructor].
    + unfold mbind, M_bind, wait_setup. destruct (setups g !! dom) as [h|].
      * exists [Setup h d (VStr k)]. split; [reflexivity|].
        constructor; [exact I|constructor].
      * reflexivity.
  - exists []. split; [symmetry; apply called_nil|constructor].
Qed.

(** The loop of lines 449-463 keeps [d], the record under [did], in step
    with the registry, changes nothing of it but ['init'], never removes a
    key from ['init'], and touches no other entry. *)
Lemma ble_init_registry (did : string) (payload : dict) (keys : list string) :
  forall (d : device) (g : gateway),
    devices g !! did = Some d ->
    (exists d', devices (final (ble_init get_ble_domain did payload keys d g))
                  !! did = Some d' /\
                same_identity d d' /\
                (forall k, init_has d k -> init_has d' k)) /\
    (forall k, k <> did ->
       devices (final (ble_init get_ble_domain did payload keys d g)) !! k
       = devices g !! k).
Proof.
  induction keys as [|k keys IH]; intros d g Hd.
  - simpl. split; [|auto]. exists d. split; [exact Hd|].
    split; [apply same_identity_refl|auto].
  - assert (Hstay : (exists d', devices g !! did = Some d' /\ same_identity d d' /\
                                (forall k0, init_has d k0 -> init_has d' k0)) /\
                    (forall k0, k0 <> did -> devices g !! k0 = devices g !! k0)).
    { split; [|auto]. exists d. split; [exact Hd|].
      split; [apply same_identity_refl|auto]. }
    remember (ble_init get_ble_domain did payload (k :: keys) d g) as o eqn:Ho.
    cbn [ble_init] in Ho.
    destruct (dev_get d "init") as [init|e] eqn:Hinit; [|subst o; exact Hstay].
    rewrite lift_ok in Ho.
    destruct (py_contains init k) as [[|]|e] eqn:Hknown;
      [| |subst o; exact Hstay]; rewrite lift_ok in Ho.
    + subst o. apply IH, Hd.
    + destruct (dict_get k payload) as [v|]; simpl of_option in Ho;
        [|subst o; exact Hstay].
      rewrite lift_ok in Ho.
      destruct (py_setitem init k v) as [init'|e] eqn:Hset;
        [|subst o; exact Hstay].
      rewrite lift_ok in Ho. cbv zeta in Ho.
      set (d1 := dev_set_init d init') in *.
      unfold mbind in Ho at 1. unfold M_bind in Ho at 1.
      unfold store_device in Ho at 1.
      change {| devices := <[did:=d1]> (devices g); updates := updates g;
                setups := setups g; calls := calls g |}
        with (stored did d1 g) in Ho.
      assert (Hmono : forall k0, init_has d k0 -> init_has d1 k0).
      { intros k0 (init0 & Hi0 & Hc0). rewrite Hinit in Hi0.
        injection Hi0 as <-. exists init'. split.
        - unfold d1, dev_get. simpl. rewrite dict_get_set. reflexivity.
        - destruct init as [| | | | | |di]; try discriminate Hset.
          simpl in Hset. injection Hset as <-. simpl in Hc0 |- *.
          unfold dict_has in Hc0 |- *. rewrite dict_get_set.
          destruct (String.eqb k k0); [reflexivity|exact Hc0]. }
      assert (H1 : (exists d', devices (stored did d1 g) !! did = Some d' /\
                               same_identity d d' /\
                               (forall k0, init_has d k0 -> init_has d' k0)) /\
                   (forall k0, k0 <> did ->
                      devices (stored did d1 g) !! k0 = devices g !! k0)).
      { split.
        - exists d1. split; [apply lookup_insert_eq|].
          split; [apply same_identity_set_init|exact Hmono].
        - intros k0 Hk0. simpl. apply lookup_insert_ne. congruence. }
      unfold mbind in Ho at 1. unfold M_bind in Ho at 1.
      pose proof (ble_domain_cases d1 k (stored did d1 g)) as Hdom.
      destruct ((match get_ble_domain k with
                 | None => mret tt
                 | Some dom =>
                     if String.eqb dom "" then mret tt
                     else h ← wait_setup dom; emit (Setup h d1 (VStr k))
                 end : M unit) (stored did d1 g)) as [[] g2|e g2|g2].
      * destruct Hdom as (more & -> & _). subst o.
        destruct (IH d1 (called more (stored did d1 g)))
          as [(d' & Hd' & Hid & Hm) Hother]; [apply lookup_insert_eq|].
        split.
        -- exists d'. split; [exact Hd'|].
           split; [eapply same_identity_trans;
                   [apply same_identity_set_init|exact Hid]|].
           intros k0 H0. apply Hm, Hmono, H0.
        -- intros k0 Hk0. etransitivity; [exact (Hother k0 Hk0)|]. simpl.
           apply lookup_insert_ne. congruence.
      * contradiction.
      * subst g2 o. exact H1.
Qed.

Lemma ble_init_known (did : string) (payload : dict) (keys : list string)
  (d : device) (g : gateway) :
  (forall k, In k keys -> init_has d k) ->
  ble_init get_ble_domain did payload keys d g = Done tt g.
Proof.
  induction keys as [|k keys IH]; intros Hall; [reflexivity|].
  cbn [ble_init].
  destruct (Hall k (or_introl eq_refl)) as (init & Hinit & Hknown).
  rewrite Hinit, lift_ok, Hknown, lift_ok.
  apply IH. intros k0 Hk0. apply Hall. right. exact Hk0.
Qed.

(** When the loop of lines 449-463 returns, every key of the payload is in
    the ['init'] of the record under [did], and nothing but the registry
    and the recorded calls has changed. *)
Lemma ble_init_done (did : string) (payload : dict) (keys : list string) :
  forall (d : device) (g g' : gateway),
    devices g !! did = Some d ->
    ble_init get_ble_domain did payload keys d g = Done tt g' ->
    exists d', devices g' !! did = Some d' /\
               (forall k, In k keys -> init_has d' k) /\
               updates g' = updates g.
Proof.
  induction keys as [|k keys IH]; intros d g g' Hd Hrun.
  - injection Hrun as <-. exists d. split; [exact Hd|]. split; [|reflexivity].
    intros k [].
  - pose proof (ble_init_registry did payload keys) as Hreg.
    cbn [ble_init] in Hrun.
    destruct (dev_get d "init") as [init|e] eqn:Hinit; [|discriminate Hrun].
    rewrite lift_ok in Hrun.
    destruct (py_contains init k) as [[|]|e] eqn:Hknown;
      [| |discriminate Hrun]; rewrite lift_ok in Hrun.
    + destruct (IH d g g' Hd Hrun) as (d' & Hd' & Hkeys & Hupd).
      exists d'. split; [exact Hd'|]. split; [|exact Hupd].
      intros k0 [<-|Hk0]; [|apply Hkeys, Hk0].
      destruct (Hreg d g Hd) as [(d'' & Hd'' & _ & Hmono) _].
      rewrite Hrun in Hd''. simpl in Hd''. rewrite Hd' in Hd''.
      injection Hd'' as <-. apply Hmono. exists init. auto.
    + destruct (dict_get k payload) as [v|]; simpl of_option in Hrun;
        [|discriminate Hrun].
      rewrite lift_ok in Hrun.
      destruct (py_setitem init k v) as [init'|e] eqn:Hset;
        [|discriminate Hrun].
      rewrite lift_ok in Hrun. cbv zeta in Hrun.
      set (d1 := dev_set_init d init') in *.
      unfold mbind in Hrun at 1. unfold M_bind in Hrun at 1.
      unfold store_device in Hrun at 1.
      change {| devices := <[did:=d1]> (devices g); updates := updates g;
                setups := setups g; calls := calls g |}
        with (stored did d1 g) in Hrun.
      unfold mbind in Hrun at 1. unfold M_bind in Hrun at 1.
      pose proof (ble_domain_cases d1 k (stored did d1 g)) as Hdom.
      destruct ((match get_ble_domain k with
                 | None => mret tt
                 | Some dom =>
                     if String.eqb dom "" then mret tt
                     else h ← wait_setup dom; emit (Setup h d1 (VStr k))
                 end : M unit) (stored did d1 g)) as [[] g2|e g2|g2];
        [|discriminate Hrun|discriminate Hrun].
      destruct Hdom as (more & -> & _).
      assert (Hd1 : devices (called more (stored did d1 g)) !! did = Some d1)
        by apply lookup_insert_eq.
      destruct (IH d1 _ g' Hd1 Hrun) as (d' & Hd' & Hkeys & Hupd).
      exists d'. split; [exact Hd'|]. split; [|exact Hupd].
      intros k0 [<-|Hk0]; [|apply Hkeys, Hk0].
      destruct (Hreg d1 _ Hd1) as [(d'' & Hd'' & _ & Hmono) _].
      rewrite Hrun in Hd''. simpl in Hd''. rewrite Hd' in Hd''.
      injection Hd'' as <-. apply Hmono. exists init'. split.
      * unfold d1, dev_get. simpl. rewrite dict_get_set. reflexivity.
      * destruct init as [| | | | | |di]; try discriminate Hset.
        simpl in Hset. injection Hset as <-. simpl.
        unfold dict_has. rewrite dict_get_set, String.eqb_refl. reflexivity.
Qed.

(** Lines 429-438: the record the event is about, taken from the registry
    or created and stored. *)
Lemma ble_device_cases (dev : value) (g : gateway) :
  match ble_device dev g with
  | Done (did, d) g' =>
      py_getitem dev "did" = Ok (VStr did) /\
      devices g' !! did = Some d /\
      ((devices g !! did = Some d /\ g' = g) \/
       (devices g !! did = None /\
        exists mac, py_getitem dev "mac" = Ok (VStr mac) /\
          is_ascii mac = true /\
          d = device_of_dict
                [("did", VStr did);
                 ("mac", VStr (str_lower (str_remove ":"%char mac)));
                 ("device_name", VStr "BLE"); ("init", VDict [])] /\
          g' = stored did d g))
  | Raise _ g' => g' = g
  | Blocked _ => False
  end.
Proof.
  unfold ble_device.
  destruct (py_getitem dev "did") as [did|e] eqn:Hdid; [|exact eq_refl].
  rewrite lift_ok. unfold get_gateway at 1. unfold mbind at 1, M_bind at 1.
  destruct (lookup_key (devices g) did) as [known|e] eqn:Hknown;
    [|exact eq_refl].
  rewrite lift_ok.
  destruct did as [| |z|f|sdid|l|dd]; simpl in Hknown;
    try discriminate Hknown;
    try (injection Hknown as <-;
         destruct (py_getitem dev "mac" ≫= py_mac_lower); exact eq_refl).
  injection Hknown as Hknown. destruct known as [d|].
  - split; [reflexivity|]. split; [exact Hknown|].
    left. split; [exact Hknown|reflexivity].
  - destruct (py_getitem dev "mac") as [mac|e] eqn:Hmac; [|exact eq_refl].
    rewrite bind_ok.
    destruct mac as [| | | |smac| |]; try exact eq_refl.
    unfold py_mac_lower.
    destruct (is_ascii smac) eqn:Hascii; [|exact eq_refl].
    rewrite lift_ok. simpl as_key. rewrite lift_ok.
    cbv zeta. unfold mbind, M_bind, store_device, mret, M_ret.
    split; [reflexivity|]. split; [apply lookup_insert_eq|].
    right. split; [exact Hknown|]. exists smac. auto.
Qed.

Lemma ble_device_known (dev : value) (did : string) (d : device) (g : gateway) :
  py_getitem dev "did" = Ok (VStr did) ->
  devices g !! did = Some d ->
  ble_device dev g = Done (did, d) g.
Proof.
  intros Hdid Hd. unfold ble_device. rewrite Hdid, lift_ok.
  unfold get_gateway at 1. unfold mbind at 1, M_bind at 1.
  unfold lookup_key. rewrite Hd, lift_ok. reflexivity.
Qed.

(** The rest of [process_bluetooth] changes nothing of the registry but the
    ['init'] of the advertising device. *)
Lemma ble_tail_registry (data : value) (did : string) (d : device)
  (g : gateway) :
  devices g !! did = Some d ->
  (exists d', devices (final (ble_tail parse_xiaomi_ble get_ble_domain data
                                did d g)) !! did = Some d' /\
              same_identity d d') /\
  (forall k, k <> did ->
     devices (final (ble_tail parse_xiaomi_ble get_ble_domain data did d g)) !! k
     = devices g !! k).
Proof.
  intros Hd.
  assert (Hstay : (exists d', devices g !! did = Some d' /\ same_identity d d') /\
                  (forall k, k <> did -> devices g !! k = devices g !! k)).
  { split; [|auto]. exists d. split; [exact Hd|apply same_identity_refl]. }
  remember (ble_tail parse_xiaomi_ble get_ble_domain data did d g) as o eqn:Ho.
  unfold ble_tail in Ho.
  destruct (py_getitem data "evt") as [evt|e]; [|subst o; exact Hstay].
  rewrite lift_ok in Ho.
  destruct (py_len evt) as [n|e]; [|subst o; exact Hstay].
  rewrite lift_ok in Ho.
  destruct (Nat.eqb n 1); cbn [negb] in Ho;
    [|subst o; exact Hstay].
  destruct (py_index evt 0) as [e|e]; [|subst o; exact Hstay].
  rewrite lift_ok in Ho.
  destruct (parse_xiaomi_ble e) as [payload|]; [|subst o; exact Hstay].
  unfold mbind in Ho at 1. unfold M_bind in Ho at 1.
  destruct (ble_init_registry did payload (dict_keys payload) d g Hd)
    as [(d' & Hd' & Hid & _) Hother].
  destruct (ble_init get_ble_domain did payload (dict_keys payload) d g)
    as [[] g1|e1 g1|g1]; simpl final in Hd', Hother;
    [|subst o; split; eauto|subst o; split; eauto].
  unfold get_gateway in Ho at 1. unfold mbind in Ho at 1.
  unfold M_bind in Ho at 1.
  destruct (updates g1 !! did) as [handlers|].
  - rewrite for_each_emit in Ho. subst o. split; eauto.
  - subst o. split; eauto.
Qed.

(** X12: a Bluetooth event never changes who a registered device is.
    Whatever the log line and however the call ends, every entry of the
    registry is still there afterwards, with the same parameter rows and
    the same items except possibly the one under ['init']. *)
Theorem process_bluetooth_keeps_identity (raw : string) (g : gateway)
  (k : string) (d : device) :
  devices g !! k = Some d ->
  exists d',
    devices (final (process_bluetooth parse_xiaomi_ble get_ble_domain
                      json_loads raw g)) !! k = Some d' /\
    same_identity d d'.
Proof.
  intros Hk.
  assert (Hstay : exists d', devices g !! k = Some d' /\ same_identity d d').
  { exists d. split; [exact Hk|apply same_identity_refl]. }
  remember (process_bluetooth parse_xiaomi_ble get_ble_domain json_loads raw g)
    as o eqn:Ho.
  unfold process_bluetooth in Ho.
  destruct (str_contains "_async.ble_event" raw); cbn [negb] in Ho;
    [|subst o; exact Hstay].
  destruct (text_drop 10 raw ≫= _) as [data|e];
    [|subst o; exact Hstay].
  rewrite lift_ok in Ho.
  destruct (py_getitem data "dev") as [dev|e]; [|subst o; exact Hstay].
  rewrite lift_ok in Ho.
  unfold mbind in Ho at 1. unfold M_bind in Ho at 1.
  pose proof (ble_device_cases dev g) as Hble.
  destruct (ble_device dev g) as [[did d0] g1|e g1|g1];
    [|subst o g1; exact Hstay|contradiction].
  destruct Hble as (_ & Hd0 & Hcase).
  change (o = ble_tail parse_xiaomi_ble get_ble_domain data did d0 g1) in Ho.
  destruct (ble_tail_registry data did d0 g1 Hd0)
    as [(d' & Hd' & Hid) Hother].
  rewrite <- Ho in Hd', Hother.
  destruct (decide (k = did)) as [->|Hne].
  - exists d'. split; [exact Hd'|].
    destruct Hcase as [[Hsame _]|[Hnone _]]; [|congruence].
    rewrite Hk in Hsame. injection Hsame as ->. exact Hid.
  - rewrite (Hother k Hne).
    destruct Hcase as [[_ ->]|(_ & mac & _ & _ & _ & ->)]; [exact Hstay|].
    simpl. rewrite lookup_insert_ne by congruence. exact Hstay.
Qed.

(** X13: the first event of an unknown Bluetooth device creates its record,
    and the record stays even when the event is then refused (by the
    assertion on the event list or by the decoder) or the call ends
    waiting: afterwards the registry holds, under the device id, a record
    with that id, the hardware address without colons and in lower case,
    the name [BLE] and no parameter rows.  Stated for a log line whose
    first ten characters are ASCII, so that they are its first ten bytes,
    and for an ASCII address, on which [lower] changes [A] to [Z] only. *)
Theorem process_bluetooth_creates_device (raw text : string)
  (data dev : value) (did mac : string) (g : gateway) :
  str_contains "_async.ble_event" raw = true ->
  text_drop 10 raw = Ok text ->
  (json_loads text ≫= fun j => py_getitem j "params") = Ok data ->
  py_getitem data "dev" = Ok dev ->
  py_getitem dev "did" = Ok (VStr did) ->
  py_getitem dev "mac" = Ok (VStr mac) ->
  is_ascii mac = true ->
  devices g !! did = None ->
  exists d,
    devices (final (process_bluetooth parse_xiaomi_ble get_ble_domain
                      json_loads raw g)) !! did = Some d /\
    dev_get d "did" = Ok (VStr did) /\
    dev_get d "mac" = Ok (VStr (str_lower (str_remove ":"%char mac))) /\
    dev_get d "device_name" = Ok (VStr "BLE") /\
    dev_params d = None.
Proof.
  intros Hmark Htext Hdata Hdev Hdid Hmac Hascii Hnone.
  unfold process_bluetooth. rewrite Hmark. cbn [negb].
  rewrite Htext, bind_ok. cbv beta. rewrite Hdata, lift_ok, Hdev, lift_ok.
  unfold mbind at 1, M_bind at 1.
  pose proof (ble_device_cases dev g) as Hble.
  destruct (ble_device dev g) as [[did' d0] g1|e g1|g1] eqn:Hrun.
  - destruct Hble as (Hdid' & Hd0 & Hcase).
    rewrite Hdid in Hdid'. injection Hdid' as <-.
    destruct Hcase as [[Hsome _]|(_ & mac' & Hmac' & _ & -> & ->)]; [congruence|].
    rewrite Hmac in Hmac'. injection Hmac' as <-.
    match goal with
    | |- context [final ?t] =>
        change t with (ble_tail parse_xiaomi_ble get_ble_domain data did
                         (device_of_dict
                            [("did", VStr did);
                             ("mac", VStr (str_lower (str_remove ":"%char mac)));
                             ("device_name", VStr "BLE"); ("init", VDict [])])
                         (stored did
                            (device_of_dict
                               [("did", VStr did);
                                ("mac", VStr (str_lower (str_remove ":"%char mac)));
                                ("device_name", VStr "BLE"); ("init", VDict [])])
                            g))
    end.
    destruct (ble_tail_registry data did _ _ Hd0) as [(d' & Hd' & Hitems & Hrows) _].
    exists d'. split; [exact Hd'|]. unfold dev_get.
    rewrite !Hitems by discriminate. rewrite Hrows. auto.
  - exfalso. unfold ble_device in Hrun. rewrite Hdid, lift_ok in Hrun.
    unfold get_gateway in Hrun at 1. unfold mbind in Hrun at 1.
    unfold M_bind in Hrun at 1. unfold lookup_key in Hrun.
    rewrite Hnone, lift_ok, Hmac, bind_ok in Hrun.
    unfold py_mac_lower in Hrun. rewrite Hascii in Hrun. discriminate Hrun.
  - contradiction.
Qed.

(** When the rest of [process_bluetooth] returns for an event with a
    payload, the event list has one element and every key of the payload
    is in the ['init'] of the device's record. *)
Lemma ble_tail_done (data evt e : value) (payload : dict) (did : string)
  (d : device) (g g1 : gateway) :
  devices g !! did = Some d ->
  py_getitem data "evt" = Ok evt ->
  py_index evt 0 = Ok e ->
  parse_xiaomi_ble e = Some payload ->
  ble_tail parse_xiaomi_ble get_ble_domain data did d g = Done tt g1 ->
  py_len evt = Ok 1%nat /\
  exists d1, devices g1 !! did = Some d1 /\
             forall k, In k (dict_keys payload) -> init_has d1 k.
Proof.
  intros Hd Hevt He Hparse Hrun. unfold ble_tail in Hrun.
  rewrite Hevt, lift_ok in Hrun.
  destruct (py_len evt) as [n|] eqn:Hn; [|discriminate].
  rewrite lift_ok in Hrun.
  destruct (Nat.eqb_spec n 1) as [->|Hne]; cbn [negb] in Hrun; [|discriminate].
  split; [reflexivity|].
  rewrite He, lift_ok, Hparse in Hrun.
  unfold mbind in Hrun at 1. unfold M_bind in Hrun at 1.
  destruct (ble_init get_ble_domain did payload (dict_keys payload) d g)
    as [[] g2|e2 g2|g2] eqn:Hinit; [|discriminate|discriminate].
  destruct (ble_init_done did payload (dict_keys payload) d g g2 Hd Hinit)
    as (d2 & Hd2 & Hkeys & _).
  unfold get_gateway in Hrun at 1. unfold mbind in Hrun at 1.
  unfold M_bind in Hrun at 1.
  destruct (updates g2 !! did) as [handlers|].
  - rewrite for_each_emit in Hrun. injection Hrun as <-.
    exists d2. split; [exact Hd2|exact Hkeys].
  - injection Hrun as <-. exists d2. split; [exact Hd2|exact Hkeys].
Qed.

(** For a record whose ['init'] has every key of the payload, the rest of
    [process_bluetooth] only hands the payload to the subscribers. *)
Lemma ble_tail_known (data evt e : value) (payload : dict) (did : string)
  (d : device) (g : gateway) :
  py_getitem data "evt" = Ok evt ->
  py_len evt = Ok 1%nat ->
  py_index evt 0 = Ok e ->
  parse_xiaomi_ble e = Some payload ->
  (forall k, In k (dict_keys payload) -> init_has d k) ->
  ble_tail parse_xiaomi_ble get_ble_domain data did d g
  = Done tt (dispatched (default [] (updates g !! did)) payload g).
Proof.
  intros Hevt Hn He Hparse Hkeys. unfold ble_tail.
  rewrite Hevt, lift_ok, Hn, lift_ok. cbn [Nat.eqb negb].
  rewrite He, lift_ok, Hparse.
  unfold mbind at 1, M_bind at 1.
  rewrite (ble_init_known did payload (dict_keys payload) d g Hkeys).
  unfold get_gateway at 1. unfold mbind at 1, M_bind at 1.
  destruct (updates g !! did) as [handlers|]; simpl default.
  - apply for_each_emit.
  - rewrite dispatched_nil. reflexivity.
Qed.

(** X14: the setup function is called once for a device and a property.
    When [process_bluetooth] has returned for a log line that decodes to a
    payload, processing the same line again, in any gateway with the same
    registry, registers nothing, changes no record and calls no setup
    function: it returns after handing that payload to the subscribers of
    the advertising device, in their order, and to nobody else. *)
Theorem process_bluetooth_sets_up_once (raw text : string)
  (data dev evt e : value) (did : string) (payload : dict)
  (g g1 g2 : gateway) :
  str_contains "_async.ble_event" raw = true ->
  text_drop 10 raw = Ok text ->
  (json_loads text ≫= fun j => py_getitem j "params") = Ok data ->
  py_getitem data "dev" = Ok dev ->
  py_getitem dev "did" = Ok (VStr did) ->
  py_getitem data "evt" = Ok evt ->
  py_index evt 0 = Ok e ->
  parse_xiaomi_ble e = Some payload ->
  process_bluetooth parse_xiaomi_ble get_ble_domain json_loads raw g
  = Done tt g1 ->
  devices g2 = devices g1 ->
  process_bluetooth parse_xiaomi_ble get_ble_domain json_loads raw g2
  = Done tt (dispatched (default [] (updates g2 !! did)) payload g2).
Proof.
  intros Hmark Htext Hdata Hdev Hdid Hevt He Hparse Hrun Hsame.
  assert (Hstart : forall g0,
            process_bluetooth parse_xiaomi_ble get_ble_domain json_loads raw g0
            = ('(did0, d0) ← ble_device dev;
               ble_tail parse_xiaomi_ble get_ble_domain data did0 d0) g0).
  { intros g0. unfold process_bluetooth. rewrite Hmark. cbn [negb].
    rewrite Htext, bind_ok. cbv beta. rewrite Hdata, lift_ok, Hdev, lift_ok.
    reflexivity. }
  rewrite Hstart in Hrun. rewrite Hstart.
  unfold mbind in Hrun at 1. unfold M_bind in Hrun at 1.
  pose proof (ble_device_cases dev g) as Hble.
  destruct (ble_device dev g) as [[did0 d0] g0|e0 g0|g0];
    [|discriminate|discriminate].
  destruct Hble as (Hdid0 & Hd0 & _).
  rewrite Hdid in Hdid0. injection Hdid0 as <-.
  destruct (ble_tail_done data evt e payload did d0 g0 g1 Hd0 Hevt He Hparse
              Hrun) as (Hn & d1 & Hd1 & Hkeys).
  rewrite <- Hsame in Hd1.
  unfold mbind at 1, M_bind at 1.
  rewrite (ble_device_known dev did d1 g2 Hdid Hd1).
  exact (ble_tail_known data evt e payload did d1 g2 Hevt Hn He Hparse Hkeys).
Qed.

End Bluetooth.

Lemma process_bluetooth_keeps_identity_sample :
  exists d',
    devices (final (process_bluetooth sample_parse_xiaomi_ble
                      sample_get_ble_domain ble_json_loads ble_line
                      sample_gateway)) !! "lumi.1" = Some d' /\
    same_identity sensor d'.
Proof.
  apply (process_bluetooth_keeps_identity sample_parse_xiaomi_ble
           sample_get_ble_domain ble_json_loads ble_line sample_gateway
           "lumi.1" sensor).
  reflexivity.
Defined.

Lemma process_bluetooth_creates_device_sample :
  exists d,
    devices (final (process_bluetooth sample_parse_xiaomi_ble
                      sample_get_ble_domain ble_json_loads ble_line
                      sample_gateway)) !! "blt.1" = Some d /\
    dev_get d "did" = Ok (VStr "blt.1") /\
    dev_get d "mac"
    = Ok (VStr (str_lower (str_remove ":"%char "A4:C1:38:00:00:01"))) /\
    dev_get d "device_name" = Ok (VStr "BLE") /\
    dev_params d = None.
Proof.
  apply (process_bluetooth_creates_device sample_parse_xiaomi_ble
           sample_get_ble_domain ble_json_loads ble_line
           (str_drop 10 ble_line)
           (VDict [("dev", VDict [("did", VStr "blt.1");
                                  ("mac", VStr "A4:C1:38:00:00:01")]);
                   ("evt", VList [VDict [("eid", VInt 4106)]])])
           (VDict [("did", VStr "blt.1"); ("mac", VStr "A4:C1:38:00:00:01")])
           "blt.1" "A4:C1:38:00:00:01" sample_gateway);
    reflexivity.
Defined.

(** The sample line a second time, after a handler has subscribed to the
    Bluetooth device: the handler gets the battery level, and that is
    all. *)
Lemma process_bluetooth_sets_up_once_sample :
  process_bluetooth sample_parse_xiaomi_ble sample_get_ble_domain
    ble_json_loads ble_line
    (final (add_update "blt.1" 9
              (final (process_bluetooth sample_parse_xiaomi_ble
                        sample_get_ble_domain ble_json_loads ble_line
                        sample_gateway))))
  = Done tt
      (dispatched
         (default []
            (updates
               (final (add_update "blt.1" 9
                         (final (process_bluetooth sample_parse_xiaomi_ble
                                   sample_get_ble_domain ble_json_loads
                                   ble_line sample_gateway))))
               !! "blt.1"))
         [("battery", VInt 90)]
         (final (add_update "blt.1" 9
                   (final (process_bluetooth sample_parse_xiaomi_ble
                             sample_get_ble_domain ble_json_loads ble_line
                             sample_gateway))))).
Proof.
  apply (process_bluetooth_sets_up_once sample_parse_xiaomi_ble
           sample_get_ble_domain ble_json_loads ble_line
           (str_drop 10 ble_line)
           (VDict [("dev", VDict [("did", VStr "blt.1");
                                  ("mac", VStr "A4:C1:38:00:00:01")]);
                   ("evt", VList [VDict [("eid", VInt 4106)]])])
           (VDict [("did", VStr "blt.1"); ("mac", VStr "A4:C1:38:00:00:01")])
           (VList [VDict [("eid", VInt 4106)]])
           (VDict [("eid", VInt 4106)])
           "blt.1" [("battery", VInt 90)] sample_gateway
           (final (process_bluetooth sample_parse_xiaomi_ble
                     sample_get_ble_domain ble_json_loads ble_line
                     sample_gateway)));
    reflexivity.
Defined.

(** The subscriber of the second run is handler 9. *)
Example second_ble_event :
  calls (final (process_bluetooth sample_parse_xiaomi_ble sample_get_ble_domain
                  ble_json_loads ble_line
                  (final (add_update "blt.1" 9
                            (final (process_bluetooth sample_parse_xiaomi_ble
                                      sample_get_ble_domain ble_json_loads
                                      ble_line sample_gateway))))))
  = (calls (final (process_bluetooth sample_parse_xiaomi_ble
                     sample_get_ble_domain ble_json_loads ble_line
                     sample_gateway))
     ++ [Update 9 [("battery", VInt 90)]])%list.
Proof. vm_compute. reflexivity. Qed.

(** The first event of the sample Bluetooth device: its record, with the
    battery level as initial value, and one setup call. *)
Example first_ble_event :
  process_bluetooth sample_parse_xiaomi_ble sample_get_ble_domain
    ble_json_loads ble_line sample_gateway
  = Done tt
      (called
         [Setup 3
            (device_of_dict
               [("did", VStr "blt.1"); ("mac", VStr "a4c138000001");
                ("device_name", VStr "BLE");
                ("init", VDict [("battery", VInt 90)])])
            (VStr "battery")]
         (stored "blt.1"
            (device_of_dict
               [("did", VStr "blt.1"); ("mac", VStr "a4c138000001");
                ("device_name", VStr "BLE");
                ("init", VDict [("battery", VInt 90)])])
            sample_gateway)).
Proof. vm_compute. reflexivity. Qed.

(** ** Discovery: the database strategy *)

Section Database.

Context (get_device : value -> option descriptor).
Context (json_loads : string -> result value).

(** X15: a device id whose model the catalog does not know is skipped, not
    failed on: the list of devices is the one discovered without that id,
    and the database need not hold any other key for it. *)
Theorem v3_devices_skips_unsupported (data : gmap string string)
  (before after : list value) (did model : string) :
  data !! (did ++ ".model") = Some model ->
  get_device (VStr model) = None ->
  v3_devices get_device json_loads data (before ++ VStr did :: after)
  = v3_devices get_device json_loads data (before ++ after).
Proof.
  intros Hmodel Hnone. unfold v3_devices. rewrite !fold_result_app.
  destruct (fold_result _ before []) as [acc|e]; [|reflexivity].
  rewrite !bind_ok.
  assert (Hd : v3_device get_device json_loads data (VStr did) = Ok None).
  { unfold v3_device. rewrite bind_ok, Hmodel. simpl of_option.
    rewrite bind_ok, Hnone. reflexivity. }
  cbn [fold_result]. rewrite Hd. reflexivity.
Qed.

(** A device as lines 216-249 build it. *)
Lemma v3_device_shape (data : gmap string string) (did : value) (d : device) :
  v3_device get_device json_loads data did = Ok (Some d) ->
  exists sdid, did = VStr sdid /\ v3_built get_device json_loads data sdid d.
Proof.
  unfold v3_device.
  destruct did as [| | | |sdid| |]; try discriminate. rewrite bind_ok.
  destruct (data !! (sdid ++ ".model")) as [model|] eqn:Hmodel; [|discriminate].
  simpl of_option. rewrite bind_ok.
  destruct (get_device (VStr model)) as [desc|] eqn:Hdesc; [|discriminate].
  destruct (data !! (sdid ++ ".prop")) as [prop|] eqn:Hprop; [|discriminate].
  simpl of_option. rewrite bind_ok.
  destruct (json_loads prop ≫= _) as [retain|] eqn:Hretain; [|discriminate].
  rewrite bind_ok.
  destruct (retained_params (desc_params desc) retain) as [params|] eqn:Hparams;
    [|discriminate].
  rewrite bind_ok.
  destruct (fix_params params) as [init|] eqn:Hinit; [|discriminate].
  rewrite bind_ok.
  destruct (data !! (sdid ++ ".mac")) as [mac|] eqn:Hmac; [|discriminate].
  simpl of_option. rewrite bind_ok.
  destruct (data !! (sdid ++ ".version")) as [ver|] eqn:Hver; [|discriminate].
  simpl of_option. rewrite bind_ok.
  intros [= <-]. exists sdid. split; [reflexivity|].
  exists model, mac, ver, desc, prop, retain, params, init. auto 10.
Qed.

(** An id of a known model is never skipped. *)
Lemma v3_device_known (data : gmap string string) (sdid model : string)
  (od : option device) :
  data !! (sdid ++ ".model") = Some model ->
  is_Some (get_device (VStr model)) ->
  v3_device get_device json_loads data (VStr sdid) = Ok od ->
  is_Some od.
Proof.
  intros Hmodel [desc Hdesc]. unfold v3_device.
  rewrite bind_ok, Hmodel. simpl of_option. rewrite bind_ok, Hdesc.
  destruct (of_option KeyError (data !! (sdid ++ ".prop"))) as [prop|];
    [|discriminate].
  rewrite bind_ok.
  destruct (json_loads prop ≫= _) as [retain|]; [|discriminate].
  rewrite bind_ok.
  destruct (retained_params (desc_params desc) retain) as [params|];
    [|discriminate].
  rewrite bind_ok.
  destruct (fix_params params) as [init|]; [|discriminate].
  rewrite bind_ok.
  destruct (of_option KeyError (data !! (sdid ++ ".mac"))) as [mac|];
    [|discriminate].
  rewrite bind_ok.
  destruct (of_option KeyError (data !! (sdid ++ ".version"))) as [ver|];
    [|discriminate].
  rewrite bind_ok. intros [= <-]. eauto.
Qed.

(** The loop of lines 215-249: the devices collected are those built for
    the ids of the list, and every id is visited. *)
Lemma v3_devices_spec (data : gmap string string) (dids : list value) :
  forall acc devs,
    fold_result
      (fun acc did =>
         d ← v3_device get_device json_loads data did;
         Ok (match d with Some d => (acc ++ [d])%list | None => acc end))
      dids acc = Ok devs ->
    (forall d, In d devs ->
       In d acc \/
       exists did, In did dids /\
                   v3_device get_device json_loads data did = Ok (Some d)) /\
    (forall d, In d acc -> In d devs) /\
    (forall did, In did dids ->
       exists od, v3_device get_device json_loads data did = Ok od /\
                  forall d, od = Some d -> In d devs).
Proof.
  induction dids as [|did dids IH]; intros acc devs; simpl.
  - intros [= <-]. split; [auto|]. split; [auto|]. intros did [].
  - destruct (v3_device get_device json_loads data did) as [od|] eqn:Hd;
      [|discriminate].
    rewrite bind_ok. intros Hfold.
    destruct (IH _ _ Hfold) as (Hfrom & Hacc & Hall).
    split; [|split].
    + intros d Hin. destruct (Hfrom d Hin) as [Hd'|(did' & Hin' & Hd')].
      * destruct od as [d0|]; [|left; exact Hd'].
        apply in_app_or in Hd' as [Hd'|[<-|[]]]; [left; exact Hd'|].
        right. exists did. split; [left; reflexivity|exact Hd].
      * right. exists did'. split; [right; exact Hin'|exact Hd'].
    + intros d Hin. apply Hacc. destruct od; [|exact Hin].
      apply in_or_app. left. exact Hin.
    + intros did' [<-|Hin'].
      * exists od. split; [exact Hd|]. intros d ->. apply Hacc.
        apply in_or_app. right. left. reflexivity.
      * apply Hall, Hin'.
Qed.

(** X16: when database discovery returns a list, the hub comes first, as
    [lumi.0] with the model [lumi.gateway.mgl03] and the address of the
    coordinator file.  Every other entry is the device built for an id of
    the database's [dev_list]: its id, the model, address ([0x] and the
    stored one) and version that the database holds under the id, and the
    fixed-up retained values of its [.prop] blob; none carries parameter
    rows yet.  Every id of [dev_list] whose model the catalog knows has its
    entry. *)
Theorem get_devices_v3_shape (io : telnet_io) (devs : list device) :
  _get_devices_v3 get_device json_loads io = Some devs ->
  exists data dev_list dids raw coord mac rest,
    zigbee_gw_db io = Ok data /\
    data !! "dev_list" = Some dev_list /\
    (json_loads dev_list ≫= py_iter) = Ok dids /\
    coordinator_info io = Ok raw /\
    json_loads (str_drop_last2 raw) = Ok coord /\
    py_getitem coord "mac" = Ok mac /\
    devs = device_of_dict [("did", VStr "lumi.0");
                           ("model", VStr "lumi.gateway.mgl03"); ("mac", mac)]
           :: rest /\
    Forall (fun d => exists sdid,
                       In (VStr sdid) dids /\
                       v3_built get_device json_loads data sdid d) rest /\
    forall sdid model,
      In (VStr sdid) dids ->
      data !! (sdid ++ ".model") = Some model ->
      is_Some (get_device (VStr model)) ->
      exists d, In d rest /\ v3_built get_device json_loads data sdid d.
Proof.
  unfold _get_devices_v3, v3_body.
  destruct (zigbee_gw_db io) as [data|]; [|discriminate]. rewrite bind_ok.
  destruct (data !! "dev_list") as [dev_list|] eqn:Hlist; [|discriminate].
  simpl of_option. rewrite bind_ok.
  destruct (json_loads dev_list ≫= py_iter) as [dids|] eqn:Hdids;
    [|discriminate].
  rewrite bind_ok.
  destruct (v3_devices get_device json_loads data dids) as [rest|] eqn:Hrest;
    [|discriminate].
  rewrite bind_ok.
  destruct (coordinator_info io) as [raw|]; [|discriminate]. rewrite bind_ok.
  destruct (json_loads (str_drop_last2 raw)) as [coord|] eqn:Hcoord;
    [|discriminate].
  rewrite bind_ok.
  destruct (py_getitem coord "mac") as [mac|] eqn:Hmac; [|discriminate].
  rewrite bind_ok. intros [= <-].
  exists data, dev_list, dids, raw, coord, mac, rest.
  repeat (split; [reflexivity || assumption|]).
  unfold v3_devices in Hrest.
  destruct (v3_devices_spec data dids [] rest Hrest) as (Hfrom & _ & Hall).
  split.
  - apply List.Forall_forall. intros d Hin.
    destruct (Hfrom d Hin) as [[]|(did & Hdid & Hd)].
    destruct (v3_device_shape data did d Hd) as (sdid & -> & Hbuilt).
    exists sdid. split; [exact Hdid|exact Hbuilt].
  - intros sdid model Hin Hmodel Hknown.
    destruct (Hall (VStr sdid) Hin) as (od & Hod & Hd).
    destruct (v3_device_known data sdid model od Hmodel Hknown Hod) as [d ->].
    exists d. split; [apply Hd; reflexivity|].
    destruct (v3_device_shape data (VStr sdid) d Hod) as (sdid' & Heq & Hbuilt).
    injection Heq as <-. exact Hbuilt.
Qed.

End Database.

Lemma v3_devices_skips_unsupported_sample :
  v3_devices sample_get_device sample_json_loads complete_db
    ([VStr "lumi.1"; VStr "lumi.2"] ++ VStr "lumi.3" :: [])
  = v3_devices sample_get_device sample_json_loads complete_db
      ([VStr "lumi.1"; VStr "lumi.2"] ++ []).
Proof.
  apply (v3_devices_skips_unsupported sample_get_device sample_json_loads
           complete_db [VStr "lumi.1"; VStr "lumi.2"] [] "lumi.3" "lumi.unknown");
    reflexivity.
Defined.

Lemma get_devices_v3_shape_sample :
  exists devs,
    _get_devices_v3 sample_get_device sample_json_loads complete_telnet
    = Some devs /\
    length devs = 3%nat /\
    exists data dev_list dids raw coord mac rest,
      zigbee_gw_db complete_telnet = Ok data /\
      data !! "dev_list" = Some dev_list /\
      (sample_json_loads dev_list ≫= py_iter) = Ok dids /\
      coordinator_info complete_telnet = Ok raw /\
      sample_json_loads (str_drop_last2 raw) = Ok coord /\
      py_getitem coord "mac" = Ok mac /\
      devs = device_of_dict [("did", VStr "lumi.0");
                             ("model", VStr "lumi.gateway.mgl03"); ("mac", mac)]
             :: rest /\
      Forall (fun d => exists sdid,
                         In (VStr sdid) dids /\
                         v3_built sample_get_device sample_json_loads data
                           sdid d) rest /\
      forall sdid model,
        In (VStr sdid) dids ->
        data !! (sdid ++ ".model") = Some model ->
        is_Some (sample_get_device (VStr model)) ->
        exists d, In d rest /\
                  v3_built sample_get_device sample_json_loads data sdid d.
Proof.
  eexists. split; [vm_compute; reflexivity|]. split; [reflexivity|].
  apply (get_devices_v3_shape sample_get_device sample_json_loads
           complete_telnet).
  vm_compute. reflexivity.
Defined.

(** ** Discovery: the miIO strategy *)

Lemma read_part_empty (part : value) (devs : list (num_key * dict)) :
  py_len part = Ok 0%nat -> read_part part devs = Ok None.
Proof. intros H. unfold read_part. rewrite H. reflexivity. Qed.

Lemma read_pages_empty_part (io : miio_io) (part : value) (j : nat) :
  get_device_list io j = Ok part ->
  py_len part = Ok 0%nat ->
  forall n k devs,
    k <= j ->
    fst (read_pages io n k devs) = S j ->
    snd (read_pages io n k devs) = Ok EmptyPart.
Proof.
  intros Hpart Hlen.
  assert (Hj : forall devs r, read_part part devs = r -> r = Ok None).
  { intros devs r <-. apply read_part_empty, Hlen. }
  induction n as [|n IH]; intros k devs Hk; simpl.
  - intros ->. lia.
  - destruct (get_device_list io k) as [p|e] eqn:Hp.
    + destruct (read_part p devs) as [[[devs' [|]]|]|e] eqn:Hr; simpl.
      * intros [= ->]. rewrite Hpart in Hp. injection Hp as <-.
        apply Hj in Hr. discriminate.
      * intros Hfst. apply IH; [|exact Hfst].
        destruct (decide (k = j)) as [->|Hne]; [|lia].
        rewrite Hpart in Hp. injection Hp as <-.
        apply Hj in Hr. discriminate.
      * reflexivity.
      * intros [= ->]. rewrite Hpart in Hp. injection Hp as <-.
        apply Hj in Hr. discriminate.
    + simpl. intros [= ->]. congruence.
Qed.

Lemma num_set_forall (P : num_key * dict -> Prop) (k : num_key) (d : dict)
  (l : list (num_key * dict)) :
  P (k, d) -> Forall P l -> Forall P (num_set k d l).
Proof.
  intros Hd. induction 1 as [|[k' d'] l Hx Hl IH]; simpl.
  - constructor; [exact Hd|constructor].
  - destruct (num_key_eqb k' k); constructor; assumption.
Qed.

Lemma add_item_listed (devs devs' : list (num_key * dict)) (item : value) :
  Forall (fun kv => v1_listed (snd kv)) devs ->
  add_item devs item = Ok devs' ->
  Forall (fun kv => v1_listed (snd kv)) devs'.
Proof.
  intros Hdevs. unfold add_item.
  destruct (py_getitem item "did") as [did|]; [|discriminate]. rewrite bind_ok.
  destruct did as [| | | |sdid| |]; try discriminate.
  unfold py_mac_of_did, text_drop.
  destruct (is_ascii (str_take 5 sdid)) eqn:Hascii; [|discriminate].
  rewrite !bind_ok.
  destruct (py_getitem item "model") as [model|]; [|discriminate].
  rewrite bind_ok.
  destruct (py_getitem item "num" ≫= as_num_key) as [k|]; [|discriminate].
  rewrite bind_ok. intros [= <-].
  apply num_set_forall; [|exact Hdevs].
  exists sdid. simpl. eauto.
Qed.

Lemma fold_add_item_listed (items : list value) :
  forall devs devs',
    Forall (fun kv => v1_listed (snd kv)) devs ->
    fold_result add_item items devs = Ok devs' ->
    Forall (fun kv => v1_listed (snd kv)) devs'.
Proof.
  induction items as [|item items IH]; intros devs devs' Hdevs; simpl.
  - intros [= <-]. exact Hdevs.
  - destruct (add_item devs item) as [devs1|] eqn:H1; [|discriminate].
    simpl. apply IH. exact (add_item_listed devs devs1 item Hdevs H1).
Qed.

Lemma read_part_listed (part : value) (devs devs' : list (num_key * dict))
  (b : bool) :
  Forall (fun kv => v1_listed (snd kv)) devs ->
  read_part part devs = Ok (Some (devs', b)) ->
  Forall (fun kv => v1_listed (snd kv)) devs'.
Proof.
  intros Hdevs. unfold read_part.
  destruct (py_len part) as [n|]; [|discriminate]. rewrite bind_ok.
  destruct (Nat.eqb n 0); [discriminate|].
  destruct (py_iter part) as [items|]; [|discriminate]. rewrite bind_ok.
  destruct (fold_result add_item items devs) as [devs1|] eqn:H1; [|discriminate].
  rewrite bind_ok.
  destruct (py_index part 0 ≫= _) as [total|]; [|discriminate].
  rewrite bind_ok. intros [= <- _].
  exact (fold_add_item_listed items devs devs1 Hdevs H1).
Qed.

Lemma read_pages_listed (io : miio_io) :
  forall n k devs devs',
    Forall (fun kv => v1_listed (snd kv)) devs ->
    snd (read_pages io n k devs) = Ok (Collected devs') ->
    Forall (fun kv => v1_listed (snd kv)) devs'.
Proof.
  induction n as [|n IH]; intros k devs devs' Hdevs; simpl.
  - intros [= <-]. exact Hdevs.
  - destruct (get_device_list io k) as [p|]; [|discriminate].
    destruct (read_part p devs) as [[[devs1 [|]]|]|] eqn:Hr; simpl;
      try discriminate.
    + intros [= <-]. exact (read_part_listed p devs devs1 true Hdevs Hr).
    + apply IH. exact (read_part_listed p devs devs1 false Hdevs Hr).
Qed.

Lemma map_result_forall {A B} (P : A -> Prop) (Q : B -> Prop)
  (f : A -> result B) :
  (forall x y, P x -> f x = Ok y -> Q y) ->
  forall l l', Forall P l -> map_result f l = Ok l' -> Forall Q l'.
Proof.
  intros Hf. induction l as [|x l IH]; intros l' Hl; simpl.
  - intros [= <-]. constructor.
  - inversion Hl as [|? ? Hx Hl']; subst.
    destruct (f x) as [y|] eqn:Hy; [|discriminate]. rewrite bind_ok.
    destruct (map_result f l) as [ys|]; [|discriminate]. rewrite bind_ok.
    intros [= <-]. constructor; [exact (Hf x y Hx Hy)|apply IH; auto].
Qed.

Section Miio.

Context (get_device : value -> option descriptor).

(** X17: an empty part ends the miIO discovery with an empty list, whatever
    the parts before it listed: when the last [get_device_list] request made
    is answered by an empty part, the method returns [[]], without the
    devices collected so far and without the hub. *)
Theorem get_devices_v1_empty_part (io : miio_io) (part : value) (j : nat) :
  fst (read_pages io 16 0 []) = S j ->
  get_device_list io j = Ok part ->
  py_len part = Ok 0%nat ->
  _get_devices_v1 get_device io = Ok (Some []).
Proof.
  intros Hfst Hpart Hlen. unfold _get_devices_v1, v1_body.
  rewrite (read_pages_empty_part io part j Hpart Hlen 16 0 []);
    [reflexivity|lia|exact Hfst].
Qed.

Lemma v1_device_listed (io : miio_io) (d d' : dict) :
  v1_listed d -> v1_device get_device io d = Ok d' -> v1_listed d'.
Proof.
  intros Hd. unfold v1_device.
  destruct (dict_get "model" d) as [model|]; [|discriminate].
  simpl of_option. rewrite bind_ok.
  destruct (get_device model) as [desc|]; [|intros [= <-]; exact Hd].
  destruct (retained_keys (desc_params desc)) as [|kn keys];
    [intros [= <-]; exact Hd|].
  destruct (dict_get "did" d) as [did|]; [|discriminate].
  simpl of_option. rewrite bind_ok.
  destruct (get_device_prop io _) as [values|]; [|discriminate].
  rewrite bind_ok.
  destruct (py_iter values) as [vs|]; [|discriminate]. rewrite bind_ok.
  destruct (map_result _ _) as [init|]; [|discriminate]. rewrite bind_ok.
  intros [= <-]. destruct Hd as (sdid & H1 & H2 & H3 & H4).
  exists sdid. rewrite !dict_get_set. simpl. auto.
Qed.

(** X18: what the miIO discovery returns is empty, or it ends with the hub
    as [lumi.0], carrying the address and the model that [info()] reports;
    every entry before the hub has an id whose first five characters are
    ASCII, a model, and the hardware address [0x] followed by the id
    without its first five characters, whether or not its initial values
    were read. *)
Theorem get_devices_v1_shape (io : miio_io) (l : list dict) :
  _get_devices_v1 get_device io = Ok (Some l) ->
  l = [] \/
  exists ds mac model,
    miio_info io = Ok (mac, model) /\
    l = (ds ++ [[("did", VStr "lumi.0"); ("mac", mac); ("model", model)]])%list /\
    Forall v1_listed ds.
Proof.
  unfold _get_devices_v1.
  destruct (v1_body get_device io) as [ds0|e] eqn:Hbody;
    [|destruct e; discriminate].
  intros [= <-]. revert Hbody. unfold v1_body.
  destruct (snd (read_pages io 16 0 [])) as [[|devs]|] eqn:Hpages;
    [intros [= <-]; left; reflexivity| |discriminate].
  destruct (map_result (v1_device get_device io) (map snd devs)) as [ds|] eqn:Hds;
    [|discriminate].
  rewrite bind_ok.
  destruct (miio_info io) as [[mac model]|]; [|discriminate].
  rewrite bind_ok. intros [= <-]. right. exists ds, mac, model.
  split; [reflexivity|]. split; [reflexivity|].
  apply (map_result_forall v1_listed v1_listed (v1_device get_device io))
    with (l := map snd devs); [|  |exact Hds].
  - intros x y Hx Hy. exact (v1_device_listed io x y Hx Hy).
  - apply Forall_map.
    apply (read_pages_listed io 16 0 [] devs); [constructor|exact Hpages].
Qed.

End Miio.

Lemma get_devices_v1_empty_part_sample :
  _get_devices_v1 sample_get_device empty_second_part = Ok (Some []).
Proof.
  apply (get_devices_v1_empty_part sample_get_device empty_second_part
           (VList []) 1); reflexivity.
Defined.

Lemma get_devices_v1_shape_sample :
  exists l,
    _get_devices_v1 sample_get_device one_part = Ok (Some l) /\
    length l = 3%nat /\
    (l = [] \/
     exists ds mac model,
       miio_info one_part = Ok (mac, model) /\
       l = (ds ++ [[("did", VStr "lumi.0"); ("mac", mac); ("model", model)]])%list /\
       Forall v1_listed ds).
Proof.
  eexists. split; [vm_compute; reflexivity|]. split; [reflexivity|].
  apply (get_devices_v1_shape sample_get_device one_part). vm_compute. reflexivity.
Defined.

(** ** Discovery: the file strategy *)

Section Files.

Context (json_loads : string -> result value).

(** X19: when the file discovery returns a list, its first entry is the
    coordinator file's object with ['did'], ['model'] and ['host'] set to
    [lumi.0], [lumi.gateway.mgl03] and the gateway's host, whatever the file
    says under these keys; every other key reads as in the file. *)
Theorem get_devices_v2_hub (host : string) (io : files_io) (l : list value) :
  _get_devices_v2 json_loads host io = Some l ->
  exists raw coord hub rest,
    coordinator_file io = Ok raw /\
    json_loads (str_drop_last2 raw) = Ok (VDict coord) /\
    l = VDict hub :: rest /\
    dict_get "did" hub = Some (VStr "lumi.0") /\
    dict_get "model" hub = Some (VStr "lumi.gateway.mgl03") /\
    dict_get "host" hub = Some (VStr host) /\
    forall k, k <> "did" -> k <> "model" -> k <> "host" ->
              dict_get k hub = dict_get k coord.
Proof.
  unfold _get_devices_v2, v2_body.
  destruct (coordinator_file io) as [raw|]; [|discriminate]. rewrite bind_ok.
  destruct (json_loads (str_drop_last2 raw)) as [device|] eqn:Hcoord;
    [|discriminate].
  rewrite bind_ok.
  destruct device as [| | | | | |coord]; try discriminate.
  simpl py_update. rewrite bind_ok.
  destruct (device_file io) as [raw2|]; [|discriminate]. rewrite bind_ok.
  destruct (json_loads (str_drop_last2 raw2)) as [info|]; [|discriminate].
  rewrite bind_ok.
  destruct (py_getitem info "devInfo" ≫= py_iter) as [devs|]; [|discriminate].
  rewrite bind_ok. intros [= <-].
  exists raw, coord,
    (dict_update coord
       [("did", VStr "lumi.0"); ("model", VStr "lumi.gateway.mgl03");
        ("host", VStr host)]), devs.
  split; [reflexivity|]. split; [exact Hcoord|]. split; [reflexivity|].
  unfold dict_update. simpl fold_left. rewrite !dict_get_set. simpl.
  repeat split.
  intros k Hdid Hmodel Hhost. rewrite !dict_get_set.
  apply String.eqb_neq in Hdid, Hmodel, Hhost.
  rewrite String.eqb_sym in Hdid. rewrite String.eqb_sym in Hmodel.
  rewrite String.eqb_sym in Hhost. rewrite Hdid, Hmodel, Hhost. reflexivity.
Qed.

End Files.

Lemma get_devices_v2_hub_sample :
  exists l,
    _get_devices_v2 sample_files_json_loads "192.168.1.2" sample_files = Some l /\
    exists raw coord hub rest,
      coordinator_file sample_files = Ok raw /\
      sample_files_json_loads (str_drop_last2 raw) = Ok (VDict coord) /\
      l = VDict hub :: rest /\
      dict_get "did" hub = Some (VStr "lumi.0") /\
      dict_get "model" hub = Some (VStr "lumi.gateway.mgl03") /\
      dict_get "host" hub = Some (VStr "192.168.1.2") /\
      forall k, k <> "did" -> k <> "model" -> k <> "host" ->
                dict_get k hub = dict_get k coord.
Proof.
  eexists. split; [vm_compute; reflexivity|].
  apply (get_devices_v2_hub sample_files_json_loads "192.168.1.2" sample_files).
  vm_compute. reflexivity.
Defined.

(** The coordinator file of the sample names itself [lumi.x]; the entry
    returned is [lumi.0] and keeps the file's address and channel. *)
Example file_discovery :
  _get_devices_v2 sample_files_json_loads "192.168.1.2" sample_files
  = Some [VDict [("mac", VStr "0x00158d0000000001"); ("did", VStr "lumi.0");
                 ("channel", VInt 15); ("model", VStr "lumi.gateway.mgl03");
                 ("host", VStr "192.168.1.2")];
          VDict [("did", VStr "lumi.158d0001"); ("model", VStr "lumi.sensor_ht")];
          VDict [("did", VStr "lumi.158d0002"); ("model", VStr "lumi.plug")]].
Proof. vm_compute. reflexivity. Qed.

(** ** The MQTT entry point *)

Section Entry.

Context (GLOBAL_PROP : gmap string string).
Context (get_device : value -> option descriptor).
Context (parse_xiaomi_ble : value -> option dict).
Context (get_ble_domain : string -> option string).
Context (json_loads : string -> result value).
Context (decode : string -> result string).

(** X20: the debug setting changes nothing but the log.  For a payload that
    decodes, [on_message] ends in the same way and leaves the same gateway
    under any two values of [self.debug]. *)
Theorem on_message_debug_transparent (debug debug' topic payload text : string)
  (g : gateway) :
  decode payload = Ok text ->
  on_message GLOBAL_PROP get_device parse_xiaomi_ble get_ble_domain json_loads
    decode debug topic payload g
  = on_message GLOBAL_PROP get_device parse_xiaomi_ble get_ble_domain json_loads
      decode debug' topic payload g.
Proof.
  intros Hdec. unfold on_message.
  destruct (str_contains "mqtt" debug), (str_contains "mqtt" debug');
    rewrite ?Hdec; reflexivity.
Qed.

(** X21: a message on a topic other than [zigbee/send] and [log/bt] is
    ignored: when the debug line does not raise, [on_message] returns
    with the gateway as it was.  The debug line decodes the payload before
    the topic is looked at: with ['mqtt'] in [self.debug], a payload that
    does not decode makes [on_message] raise the decoding error on every
    topic, with the gateway as it was. *)
Theorem on_message_other_topic (debug topic payload : string) (g : gateway) :
  (forall e, str_contains "mqtt" debug = true ->
             decode payload = Err e ->
             on_message GLOBAL_PROP get_device parse_xiaomi_ble get_ble_domain
               json_loads decode debug topic payload g
             = Raise e g) /\
  (topic <> "zigbee/send" -> topic <> "log/bt" ->
   str_contains "mqtt" debug = false \/ (exists text, decode payload = Ok text) ->
   on_message GLOBAL_PROP get_device parse_xiaomi_ble get_ble_domain
     json_loads decode debug topic payload g
   = Done tt g).
Proof.
  split.
  - intros e Hdebug He. unfold on_message. rewrite Hdebug, He. reflexivity.
  - intros H1 H2 Hlog. unfold on_message.
    apply String.eqb_neq in H1, H2. rewrite H1, H2.
    destruct (str_contains "mqtt" debug); [|reflexivity].
    destruct Hlog as [Hoff|[text Htext]]; [discriminate Hoff|].
    rewrite Htext. reflexivity.
Qed.

End Entry.

Lemma on_message_debug_transparent_sample :
  on_message sample_global_prop sample_get_device sample_parse_xiaomi_ble
    sample_get_ble_domain sample_json_loads sample_decode "mqtt,true"
    "zigbee/send" "report" sample_gateway
  = on_message sample_global_prop sample_get_device sample_parse_xiaomi_ble
      sample_get_ble_domain sample_json_loads sample_decode ""
      "zigbee/send" "report" sample_gateway.
Proof.
  apply (on_message_debug_transparent sample_global_prop sample_get_device
           sample_parse_xiaomi_ble sample_get_ble_domain sample_json_loads
           sample_decode "mqtt,true" "" "zigbee/send" "report" "report").
  reflexivity.
Defined.

(** With ['mqtt'] in the debug setting, a payload holding the byte 255
    raises on [zigbee/send] before it is parsed; a payload that decodes is
    ignored on [zigbee/recv]. *)
Lemma on_message_other_topic_sample :
  on_message sample_global_prop sample_get_device sample_parse_xiaomi_ble
    sample_get_ble_domain sample_json_loads sample_decode "mqtt"
    "zigbee/send" (String (Ascii.ascii_of_nat 255) "") sample_gateway
  = Raise ValueError sample_gateway /\
  on_message sample_global_prop sample_get_device sample_parse_xiaomi_ble
    sample_get_ble_domain sample_json_loads sample_decode "mqtt"
    "zigbee/recv" "{}" sample_gateway
  = Done tt sample_gateway.
Proof.
  split.
  - apply (proj1 (on_message_other_topic sample_global_prop sample_get_device
                    sample_parse_xiaomi_ble sample_get_ble_domain
                    sample_json_loads sample_decode "mqtt" "zigbee/send"
                    (String (Ascii.ascii_of_nat 255) "") sample_gateway));
      reflexivity.
  - apply (proj2 (on_message_other_topic sample_global_prop sample_get_device
                    sample_parse_xiaomi_ble sample_get_ble_domain
                    sample_json_loads sample_decode "mqtt" "zigbee/recv"
                    "{}" sample_gateway)).
    + discriminate.
    + discriminate.
    + right. exists "{}". reflexivity.
Defined.

(** ** The value fix-ups of discovery and of events *)

(** X22: the database discovery and the event path store the same value
    for a property, apart from the four strings only discovery replaces:
    for a value that is none of [on], [open], [off] and [close], and that is
    not a false value under the key [battery], lines 233-240 and lines
    398-403 compute the same result or raise the same error. *)
Theorem fix_retained_agrees_with_fix_value (k : string) (v : value) :
  py_in_pair v "on" "open" = false ->
  py_in_pair v "off" "close" = false ->
  (k = "battery" -> py_truthy v = true) ->
  fix_retained k v = fix_value (VStr k) v.
Proof.
  intros Hon Hoff Hbat. unfold fix_retained, fix_value. rewrite Hon, Hoff.
  unfold py_in_pair, py_eq_str.
  destruct (String.eqb k "temperature" || String.eqb k "humidity");
    [reflexivity|].
  destruct (String.eqb k "battery") eqn:Hk; [|reflexivity].
  apply String.eqb_eq in Hk. rewrite (Hbat Hk). reflexivity.
Qed.

Lemma fix_retained_agrees_with_fix_value_sample :
  fix_retained "battery" (VInt 3000) = fix_value (VStr "battery") (VInt 3000).
Proof.
  apply (fix_retained_agrees_with_fix_value "battery" (VInt 3000));
    reflexivity.
Defined.

(** Under [battery] the two discoveries differ, and a missing battery value
    separates discovery from the event path. *)
Example battery_fixups_differ :
  fix_prop "battery" (VInt 3000) = Ok (VInt 3000) /\
  fix_retained "battery" (VInt 3000) = Ok (VInt 71) /\
  fix_retained "battery" VNone = Ok VNone /\
  fix_value (VStr "battery") VNone = Err TypeError.
Proof. vm_compute. repeat split; reflexivity. Qed.
